(** * debian_iso_customizer: a shallow embedding and its verified properties

    The program is one Python module.  Its pure parts (text rendering,
    boot-menu patching, device filtering) are embedded as functions on
    [string] and on a small JSON value type; its effectful parts (files,
    external tools, console, operator answers) run in a state-and-exception
    monad over an explicit [World], which records every observable action in
    a chronological trace.

    Conventions.
    - A Python [str] is a [string]; one [ascii] stands for one character.
    - The file system maps a path to the text that [open(path, "r").read()]
      returns; directories and permissions are not represented.
    - External collaborators (the tools started by [subprocess.run],
      [shutil.which], [json.loads], [int], [repr], the operating system
      when [shutil.copy] creates its destination) are fields of an
      environment record [Env]; nothing is assumed about them.
    - [console.status] and [Progress] only draw a transient spinner and are
      left out; [console.print] is recorded. *)

From Stdlib Require Import String Ascii List ZArith Lia Bool DecimalString.
From stdpp Require Import base gmap strings list fin_maps.

Import ListNotations.
Local Open Scope list_scope.
Local Open Scope string_scope.

(** ** Text *)

Module Text.

(** The line feed and the double quote, which a literal cannot spell. *)
Definition nl : string := String (ascii_of_nat 10) EmptyString.
Definition dq : string := String (ascii_of_nat 34) EmptyString.

(** [str.isspace] on one character (code points below 256). *)
Definition isspace (c : ascii) : bool :=
  let n := nat_of_ascii c in
  ((9 <=? n) && (n <=? 13) || (28 <=? n) && (n <=? 32)
   || (n =? 133) || (n =? 160))%nat.

Fixpoint lstrip (s : string) : string :=
  match s with
  | String c s' => if isspace c then lstrip s' else s
  | EmptyString => EmptyString
  end.

(** Drops the white space at the end: a character is kept when something
    that is not white space follows it or it is not white space itself. *)
Fixpoint rstrip (s : string) : string :=
  match s with
  | EmptyString => EmptyString
  | String c s' =>
      match rstrip s' with
      | EmptyString => if isspace c then EmptyString else String c EmptyString
      | r => String c r
      end
  end.

(** [s.strip()] *)
Definition strip (s : string) : string := rstrip (lstrip s).

(** [sep.join(parts)] for a list of strings. *)
Definition join (sep : string) (parts : list string) : string :=
  String.concat sep parts.

(** The characters of a string, each as a string of length one
    (what iterating over a [str] yields). *)
Fixpoint chars (s : string) : list string :=
  match s with
  | EmptyString => []
  | String c s' => String c EmptyString :: chars s'
  end.

(** [str(n)] for an integer. *)
Definition of_Z (n : Z) : string := NilZero.string_of_int (Z.to_int n).

(** [s.endswith(t)] *)
Definition endswith (s t : string) : bool :=
  (String.length t <=? String.length s)%nat
  && String.eqb (substring (String.length s - String.length t) (String.length t) s) t.

(** [os.path.join(a, b)] on POSIX. *)
Definition path_join (a b : string) : string :=
  if String.prefix "/" b then b
  else if String.eqb a EmptyString || endswith a "/" then a ++ b
  else a ++ "/" ++ b.

End Text.

Import Text.

(** ** Constants & configuration (module level of the source) *)

Definition SOURCE_ISO_PATH : string := "debian-13.0.0-amd64-netinst.iso".
Definition WORKSPACE_DIR : string := "iso-extract".
Definition CUSTOM_ISO_NAME : string := "custom-debian-13.iso".
Definition PRESEED_FILENAME : string := "preseed.cfg".
Definition POST_INSTALL_CONFIG : string := "post_install_config.json".

(** ** Bootloader patching, the text level *)

(** The triple-quoted literal of the ISOLINUX stanza, before [.strip()]. *)
Definition isolinux_autoinstall_literal : string := "
DEFAULT autoinstall
LABEL autoinstall
    MENU LABEL Automated Install
    KERNEL /install.amd/vmlinuz
    APPEND initrd=/install.amd/initrd.gz --- quiet auto=true priority=critical preseed/file=/cdrom/preseed.cfg
    ".

Definition isolinux_autoinstall_config : string :=
  Eval vm_compute in strip isolinux_autoinstall_literal.

(** [f"TIMEOUT 10\n{isolinux_autoinstall_config}\n{original_isolinux_content}"] *)
Definition modified_isolinux_content (original_isolinux_content : string) : string :=
  "TIMEOUT 10" ++ nl ++ isolinux_autoinstall_config ++ nl ++ original_isolinux_content.

(** The triple-quoted literal of the GRUB entry, before [.strip()]. *)
Definition grub_autoinstall_literal : string := "
menuentry 'Automated Unattended Install' --class auto {
    linux    /install.amd/vmlinuz --- quiet auto=true priority=critical preseed/file=/cdrom/preseed.cfg
    initrd   /install.amd/initrd.gz
}
    ".

Definition grub_autoinstall_entry : string :=
  Eval vm_compute in strip grub_autoinstall_literal.

(** [f'set timeout=1\nset default="0"\n\n{grub_autoinstall_entry}\n\n{original_grub_content}'] *)
Definition modified_grub_content (original_grub_content : string) : string :=
  "set timeout=1" ++ nl ++ "set default=" ++ dq ++ "0" ++ dq ++ nl ++ nl
  ++ grub_autoinstall_entry ++ nl ++ nl ++ original_grub_content.

(** ** JSON values, as [json.loads] builds them *)

#[warnings="-register-all"] Inductive json : Type :=
| JNull
| JBool (b : bool)
| JInt (n : Z)
| JFloat (text : string)   (* a float, carried by the text [str] gives it *)
| JStr (s : string)
| JArr (items : list json)
| JObj (members : list (string * json)).  (* a dict, in insertion order *)

(** Python exceptions the program can meet. *)
Inductive exn : Type :=
| Exit (code : Z)          (* typer.Exit *)
| Abort                    (* typer.Abort: the input stream ended *)
| CalledProcessError
| FileNotFoundError
| FileExistsError
| JSONDecodeError
| UnicodeDecodeError
| ValueError
| KeyError (key : string)
| IndexError
| AttributeError
| TypeError.

Inductive outcome (A : Type) : Type :=
| Returned (a : A)
| Raised (e : exn).
Arguments Returned {A} a.
Arguments Raised {A} e.

Definition obind {A B} (o : outcome A) (k : A -> outcome B) : outcome B :=
  match o with
  | Returned a => k a
  | Raised e => Raised e
  end.

Module Json.

(** Key lookup in the member list of a dict. *)
Fixpoint assoc (k : string) (kv : list (string * json)) : option json :=
  match kv with
  | [] => None
  | (k', v) :: rest => if String.eqb k k' then Some v else assoc k rest
  end.

(** [o.get(k, default)]: only a dict has [get]. *)
Definition get (o : json) (k : string) (default : json) : outcome json :=
  match o with
  | JObj kv => Returned (match assoc k kv with Some v => v | None => default end)
  | _ => Raised AttributeError
  end.

(** [o[k]] for the dict [o]. *)
Definition item (o : json) (k : string) : outcome json :=
  match o with
  | JObj kv => match assoc k kv with
               | Some v => Returned v
               | None => Raised (KeyError k)
               end
  | _ => Raised TypeError
  end.

(** [v == s] for a string [s]: only the same string is equal to it. *)
Definition eq_str (v : json) (s : string) : bool :=
  match v with
  | JStr t => String.eqb t s
  | _ => false
  end.

(** [iter(v)]: a list yields its items, a string its characters, a dict
    its keys; nothing else is iterable. *)
Definition iter (v : json) : outcome (list json) :=
  match v with
  | JArr items => Returned items
  | JStr s => Returned (map JStr (chars s))
  | JObj kv => Returned (map (fun p => JStr (fst p)) kv)
  | _ => Raised TypeError
  end.

(** The items of a sequence as strings; [str.join] raises [TypeError] at
    the first item that is not one. *)
Fixpoint all_str (items : list json) : outcome (list string) :=
  match items with
  | [] => Returned []
  | JStr s :: rest => obind (all_str rest) (fun ss => Returned (s :: ss))
  | _ :: _ => Raised TypeError
  end.

(** [sep.join(v)] *)
Definition join (sep : string) (v : json) : outcome string :=
  obind (iter v) (fun items =>
  obind (all_str items) (fun ss =>
  Returned (Text.join sep ss))).

End Json.

(** ** The environment: the external collaborators *)

(** What starting a process gives: the executable is not there; or it ran,
    left the file system in some state, wrote [stdout] and exited; or it
    ran and exited, changing no file, and what it wrote is not text in the
    locale's encoding.  Only a run in text mode tells the last two apart,
    and the one tool run in text mode, [lsblk], writes no file. *)
Inductive proc_result : Type :=
| NotFound
| Exited (status : Z) (stdout : string) (files : gmap string string)
| Garbled (status : Z).

(** Observable actions, in the order the program performs them. *)
Inductive event : Type :=
| Print (text : string)                          (* console.print *)
| Run (argv : list string) (status : option Z)   (* subprocess.run; [None]: not found *)
| Confirm (text : string) (answer : bool)        (* typer.confirm *)
| Prompt (text : string) (reply : string)        (* typer.prompt *)
| Makedirs (path : string)                       (* os.makedirs *)
| Copy (src dst : string)                        (* shutil.copy *)
| Write (path content : string)                  (* open(path, "w").write *)
| Chmod (path : string) (mode : Z).              (* os.chmod *)

Record Env : Type := {
  (** [shutil.which(name)] finds the tool *)
  which : string -> bool;
  (** the process [subprocess.run(argv)] starts, given what happened so far
      and the files it sees *)
  os_exec : list event -> gmap string string -> list string -> proc_result;
  (** [json.loads]; [None] when it raises *)
  json_loads : string -> option json;
  (** what [json.loads] (or [json.load], which reads the file first) raises
      on a text it does not load: [JSONDecodeError], or another error such
      as the [ValueError] of an integer with too many digits *)
  json_error : string -> exn;
  (** the error, if any, with which [shutil.copy(src, dst)] of an existing
      [src] fails (the directory of [dst] is missing, or a permission is
      denied) *)
  os_copy : list event -> gmap string string -> string -> string -> option exn;
  (** [int(s)]; [None] is [ValueError] *)
  py_int : string -> option Z;
  (** [repr] of a list or a dict *)
  py_repr : json -> string
}.

(** [str(v)], which an f-string applies to the value of a replacement field. *)
Definition py_str (env : Env) (v : json) : string :=
  match v with
  | JStr s => s
  | JNull => "None"
  | JBool true => "True"
  | JBool false => "False"
  | JInt n => of_Z n
  | JFloat text => text
  | JArr _ | JObj _ => py_repr env v
  end.

(** ** The world and the monad of the effectful functions *)

Record World : Type := {
  fs : gmap string string;     (* path to text *)
  trace : list event;          (* what has been done, oldest first *)
  confirms : list bool;        (* the operator's coming answers to typer.confirm *)
  prompts : list string        (* the operator's coming replies to typer.prompt *)
}.

Definition M (A : Type) : Type := World -> outcome A * World.

Definition ret {A} (a : A) : M A := fun w => (Returned a, w).

Definition raise {A} (e : exn) : M A := fun w => (Raised e, w).

Definition bind {A B} (m : M A) (k : A -> M B) : M B :=
  fun w => match m w with
           | (Returned a, w') => k a w'
           | (Raised e, w') => (Raised e, w')
           end.

(** [try: m except <handles>: handler] *)
Definition try_except {A} (m : M A) (handles : exn -> bool) (handler : M A) : M A :=
  fun w => match m w with
           | (Raised e, w') => if handles e then handler w' else (Raised e, w')
           | r => r
           end.

(** A pure computation that may raise, inside the monad. *)
Definition lift {A} (o : outcome A) : M A := fun w => (o, w).

Declare Scope io_scope.
Delimit Scope io_scope with io.
Notation "x <- m ;; k" := (bind m (fun x => k))
  (at level 100, m at next level, right associativity) : io_scope.
Notation "m ;;; k" := (bind m (fun _ => k))
  (at level 100, right associativity) : io_scope.
Local Open Scope io_scope.

Definition log (e : event) (w : World) : World :=
  {| fs := fs w; trace := trace w ++ [e]; confirms := confirms w; prompts := prompts w |}.

Definition set_fs (files : gmap string string) (w : World) : World :=
  {| fs := files; trace := trace w; confirms := confirms w; prompts := prompts w |}.

Module IO.

(** [console.print(text)] *)
Definition print (text : string) : M unit :=
  fun w => (Returned tt, log (Print text) w).

(** [os.path.exists(path)] *)
Definition exists_ (path : string) : M bool :=
  fun w => (Returned (match fs w !! path with Some _ => true | None => false end), w).

(** [with open(path, "r") as f: f.read()] *)
Definition read (path : string) : M string :=
  fun w => match fs w !! path with
           | Some text => (Returned text, w)
           | None => (Raised FileNotFoundError, w)
           end.

(** [with open(path, "w") as f: f.write(content)], when it succeeds: the
    file holds [content].  A write that the system refuses, or that stops
    after the file was created, is outside the model: what is proved about
    the events after a write describes the runs in which it succeeded. *)
Definition write (path content : string) : M unit :=
  fun w => (Returned tt, log (Write path content) (set_fs (<[path := content]> (fs w)) w)).

(** [shutil.copy(src, dst)]: the source is opened first, then the
    destination. *)
Definition copy (env : Env) (src dst : string) : M unit :=
  fun w => match fs w !! src with
           | Some text =>
               match os_copy env (trace w) (fs w) src dst with
               | Some e => (Raised e, w)
               | None =>
                   (Returned tt, log (Copy src dst) (set_fs (<[dst := text]> (fs w)) w))
               end
           | None => (Raised FileNotFoundError, w)
           end.

(** [os.makedirs(path, exist_ok=True)]: refused when [path] is a file. *)
Definition makedirs (path : string) : M unit :=
  fun w => match fs w !! path with
           | Some _ => (Raised FileExistsError, w)
           | None => (Returned tt, log (Makedirs path) w)
           end.

(** [os.chmod(path, mode)] *)
Definition chmod (path : string) (mode : Z) : M unit :=
  fun w => match fs w !! path with
           | Some _ => (Returned tt, log (Chmod path mode) w)
           | None => (Raised FileNotFoundError, w)
           end.

(** [typer.confirm(text)]: the operator's next answer, as [typer] resolves
    it (an empty line is the default, when there is one; anything else
    that is neither yes nor no is asked again); the end of the input
    raises [typer.Abort]. *)
Definition confirm (text : string) : M bool :=
  fun w => match confirms w with
           | answer :: rest =>
               (Returned answer,
                log (Confirm text answer)
                  {| fs := fs w; trace := trace w; confirms := rest; prompts := prompts w |})
           | [] => (Raised Abort, w)
           end.

(** [typer.prompt(text)] *)
Definition prompt (text : string) : M string :=
  fun w => match prompts w with
           | reply :: rest =>
               (Returned reply,
                log (Prompt text reply)
                  {| fs := fs w; trace := trace w; confirms := confirms w; prompts := rest |})
           | [] => (Raised Abort, w)
           end.

(** [subprocess.run(argv, check=True, ...)] without [text=True]: what the
    process wrote stays bytes, which the source never looks at.  Every call
    of the source passes [check=True]. *)
Definition run (env : Env) (argv : list string) : M unit :=
  fun w => match os_exec env (trace w) (fs w) argv with
           | NotFound => (Raised FileNotFoundError, log (Run argv None) w)
           | Exited status _ files =>
               let w' := log (Run argv (Some status)) (set_fs files w) in
               if (status =? 0)%Z then (Returned tt, w')
               else (Raised CalledProcessError, w')
           | Garbled status =>
               let w' := log (Run argv (Some status)) w in
               if (status =? 0)%Z then (Returned tt, w')
               else (Raised CalledProcessError, w')
           end.

(** [subprocess.run(argv, check=True, capture_output=True, text=True).stdout]:
    the output is decoded while the process is waited for, before the exit
    status is checked, so undecodable output raises whatever the status. *)
Definition run_text (env : Env) (argv : list string) : M string :=
  fun w => match os_exec env (trace w) (fs w) argv with
           | NotFound => (Raised FileNotFoundError, log (Run argv None) w)
           | Exited status stdout files =>
               let w' := log (Run argv (Some status)) (set_fs files w) in
               if (status =? 0)%Z then (Returned stdout, w')
               else (Raised CalledProcessError, w')
           | Garbled status =>
               (Raised UnicodeDecodeError, log (Run argv (Some status)) w)
           end.

End IO.

Import IO.

(** ** The pipeline stages *)

(** [_verify_prerequisites()] *)
Definition _verify_prerequisites (env : Env) : M unit :=
  if which env "xorriso" then ret tt
  else
    print "[bold red]Error:[/bold red] `xorriso` is not installed or not in the system PATH.";;;
    print "Please install it using: [cyan]sudo apt-get install -y xorriso[/cyan]";;;
    raise (Exit 1).

Definition extract_command : list string :=
  ["xorriso"; "-osirrox"; "on"; "-indev"; SOURCE_ISO_PATH; "-extract"; "/"; WORKSPACE_DIR].

(** [_extract_iso()] *)
Definition _extract_iso (env : Env) : M unit :=
  makedirs WORKSPACE_DIR;;;
  run env extract_command;;;
  ret tt.

(** [_create_preseed_config()] *)
Definition _create_preseed_config (env : Env) : M unit :=
  let source_preseed_path := PRESEED_FILENAME in
  let dest_preseed_path := path_join WORKSPACE_DIR PRESEED_FILENAME in
  found <- exists_ source_preseed_path;;
  (if negb found then
     print ("[bold red]Error:[/bold red] Preseed file not found at [yellow]'"
            ++ source_preseed_path ++ "'[/yellow].");;;
     raise (Exit 1)
   else ret tt);;;
  copy env source_preseed_path dest_preseed_path.

Definition isolinux_cfg_path : string :=
  path_join (path_join WORKSPACE_DIR "isolinux") "isolinux.cfg".

Definition grub_cfg_path : string :=
  path_join (path_join (path_join WORKSPACE_DIR "boot") "grub") "grub.cfg".

(** [_update_bootloader_configs()] *)
Definition _update_bootloader_configs : M unit :=
  original_isolinux_content <- read isolinux_cfg_path;;
  write isolinux_cfg_path (modified_isolinux_content original_isolinux_content);;;
  original_grub_content <- read grub_cfg_path;;
  write grub_cfg_path (modified_grub_content original_grub_content).

(** The f-string of [_generate_post_install_script], with its three
    replacement fields. *)
Definition script_content (packages ssh_user ssh_key_type : string) : string :=
"#!/bin/bash
set -e

# --- Install packages ---
apt-get update
apt-get install -y --no-install-recommends " ++ packages ++ "

# --- Generate SSH key ---
sudo -u " ++ ssh_user ++ " ssh-keygen -t " ++ ssh_key_type
  ++ " -f /home/" ++ ssh_user ++ "/.ssh/id_rsa -N " ++ dq ++ dq ++ "

# --- Clean up ---
apt-get clean
rm -rf /var/lib/apt/lists/*

echo " ++ dq ++ "Post-installation setup complete." ++ dq ++ nl.

(** From the loaded configuration to the text of the script: the four
    assignments before the f-string, then the f-string. *)
Definition render_post_install_script (env : Env) (config : json) : outcome string :=
  obind (Json.get config "packages" (JArr [])) (fun packages_value =>
  obind (Json.join " " packages_value) (fun packages =>
  obind (Json.get config "ssh_key" (JObj [])) (fun ssh_key_config =>
  obind (Json.get ssh_key_config "type" (JStr "ed25519")) (fun ssh_key_type =>
  obind (Json.get ssh_key_config "user" (JStr "user")) (fun ssh_user =>
  Returned (script_content packages (py_str env ssh_user) (py_str env ssh_key_type))))))).

Definition script_path : string := path_join WORKSPACE_DIR "post_install_setup.sh".

Definition config_not_found_message : string :=
  "[bold red]Error:[/bold red] Post-install config not found at [yellow]'"
  ++ POST_INSTALL_CONFIG ++ "'[/yellow].".

(** [_generate_post_install_script()] *)
Definition _generate_post_install_script (env : Env) : M unit :=
  found <- exists_ POST_INSTALL_CONFIG;;
  (if negb found then
     print config_not_found_message;;;
     raise (Exit 1)
   else ret tt);;;
  text <- read POST_INSTALL_CONFIG;;
  config <- lift (match json_loads env text with
                  | Some v => Returned v
                  | None => Raised (json_error env text)
                  end);;
  content <- lift (render_post_install_script env config);;
  write script_path content;;;
  chmod script_path 493.   (* 0o755 *)

(** A device descriptor: the dict with the keys [name] and [size]. *)
Module Drive.
Record t : Type := make { name : string; size : json }.
End Drive.

(** The condition of the comprehension:
    [dev.get("tran") == "usb" and dev.get("type") == "disk"] *)
Definition is_usb_disk (dev : json) : outcome bool :=
  obind (Json.get dev "tran" JNull) (fun tran =>
  if Json.eq_str tran "usb"
  then obind (Json.get dev "type" JNull) (fun type => Returned (Json.eq_str type "disk"))
  else Returned false).

(** The list comprehension of [_find_usb_drives]. *)
Fixpoint usb_drives_of (env : Env) (devices : list json) : outcome (list Drive.t) :=
  match devices with
  | [] => Returned []
  | dev :: rest =>
      obind (is_usb_disk dev) (fun keep =>
      if keep then
        obind (Json.item dev "name") (fun name =>
        obind (Json.item dev "size") (fun size =>
        obind (usb_drives_of env rest) (fun drives =>
        Returned (Drive.make ("/dev/" ++ py_str env name) size :: drives))))
      else usb_drives_of env rest)
  end.

Definition lsblk_command : list string := ["lsblk"; "-J"; "-o"; "NAME,SIZE,TYPE,TRAN"].

(** What the [except] clause of [_find_usb_drives] catches. *)
Definition enumeration_failure (e : exn) : bool :=
  match e with
  | FileNotFoundError | JSONDecodeError | CalledProcessError => true
  | _ => false
  end.

(** [_find_usb_drives()] *)
Definition _find_usb_drives (env : Env) : M (list Drive.t) :=
  try_except
    (stdout <- run_text env lsblk_command;;
     parsed <- lift (match json_loads env stdout with
                     | Some v => Returned v
                     | None => Raised (json_error env stdout)
                     end);;
     devices <- lift (Json.get parsed "blockdevices" (JArr []));;
     items <- lift (Json.iter devices);;
     lift (usb_drives_of env items))
    enumeration_failure
    (ret []).

Definition rebuild_command : list string :=
  ["xorriso"; "-as"; "mkisofs";
   "-isohybrid-mbr"; "/usr/lib/ISOLINUX/isohdpfx.bin";
   "-c"; "isolinux/boot.cat";
   "-b"; "isolinux/isolinux.bin";
   "-no-emul-boot"; "-boot-load-size"; "4"; "-boot-info-table";
   "-eltorito-alt-boot";
   "-e"; "boot/grub/efi.img";
   "-no-emul-boot";
   "-isohybrid-gpt-basdat";
   "-o"; CUSTOM_ISO_NAME;
   WORKSPACE_DIR].

(** [_rebuild_iso()] *)
Definition _rebuild_iso (env : Env) : M unit :=
  run env rebuild_command;;;
  ret tt.

(** ** Media provisioning *)

Definition umount_command (device : string) : list string :=
  ["sudo"; "umount"; device ++ "*"].

Definition dd_command (device : string) : list string :=
  ["sudo"; "dd"; "if=" ++ CUSTOM_ISO_NAME; "of=" ++ device; "bs=4M"; "status=progress"].

Definition eject_command (device : string) : list string :=
  ["sudo"; "eject"; device].

Definition sure_question : string := "Are you absolutely sure you want to continue?".

Definition preparing_message (device : string) : string :=
  "[bold yellow]Preparing to flash " ++ CUSTOM_ISO_NAME ++ " to " ++ device
  ++ "...[/bold yellow]".

Definition warning_message (device : string) : string :=
  "[bold red]WARNING: This will destroy all data on " ++ device ++ ".[/bold red]".

Definition cancelled_message : string := "[yellow]Operation cancelled.[/yellow]".

Definition flashed_message (device : string) : string :=
  "[bold green]Successfully flashed " ++ CUSTOM_ISO_NAME ++ " to " ++ device ++ ".[/bold green]".

Definition ejecting_message (device : string) : string :=
  "[bold yellow]Ejecting " ++ device ++ "...[/bold yellow]".

Definition ejected_message (device : string) : string :=
  "[bold green]Successfully ejected " ++ device ++ ".[/bold green]".

Definition is_CalledProcessError (e : exn) : bool :=
  match e with CalledProcessError => true | _ => false end.

(** What [except ValueError] catches: the error and its subclasses. *)
Definition is_ValueError (e : exn) : bool :=
  match e with
  | ValueError | JSONDecodeError | UnicodeDecodeError => true
  | _ => false
  end.

(** [_flash_usb_drive(device, force)] *)
Definition _flash_usb_drive (env : Env) (device : string) (force : bool) : M unit :=
  print (preparing_message device);;;
  try_except (run env (umount_command device);;; ret tt) is_CalledProcessError (ret tt);;;
  print (warning_message device);;;
  (if negb force then
     sure <- confirm sure_question;;
     if negb sure then
       print cancelled_message;;;
       raise (Exit 0)
     else ret tt
   else ret tt);;;
  run env (dd_command device);;;
  print (flashed_message device);;;
  print (ejecting_message device);;;
  run env (eject_command device);;;
  print (ejected_message device).

(** ** The command *)

Definition flash_to_question (selected_drive : string) : string :=
  "Do you want to flash the ISO to " ++ selected_drive ++ "?".

Definition flash_any_question : string :=
  nl ++ "Do you want to flash the ISO to a USB drive?".

Definition flash_success_message (selected_drive : string) : string :=
  nl ++ "[bold green]SUCCESS: ISO successfully flashed to " ++ selected_drive ++ ".[/bold green]".

Definition process_complete_message : string :=
  nl ++ "[bold green]Process complete.[/bold green]".

Definition detected_message (env : Env) (drive : Drive.t) : string :=
  nl ++ "[bold cyan]Detected single USB Drive:[/bold cyan] " ++ Drive.name drive
  ++ " (" ++ py_str env (Drive.size drive) ++ ")".

Definition flashing_cancelled_message : string := "[yellow]Flashing cancelled by user.[/yellow]".

Definition available_message : string :=
  nl ++ "[bold cyan]Available USB Drives Detected:[/bold cyan]".

Definition drive_line (env : Env) (i : Z) (drive : Drive.t) : string :=
  "  [bold]" ++ of_Z (i + 1) ++ "[/bold]: " ++ Drive.name drive
  ++ " (" ++ py_str env (Drive.size drive) ++ ")".

Definition number_prompt : string := "Enter the number of the drive to flash".

Definition invalid_selection_message : string := "[bold red]Invalid selection.[/bold red]".

Definition invalid_input_message : string :=
  "[bold red]Invalid input. Please enter a number.[/bold red]".

(** The [for i, drive in enumerate(usb_drives)] loop of [create], from
    index [i] on. *)
Fixpoint print_drives (env : Env) (i : Z) (usb_drives : list Drive.t) : M unit :=
  match usb_drives with
  | [] => ret tt
  | drive :: rest =>
      print (drive_line env i drive);;;
      print_drives env (i + 1) rest
  end.

(** The block of [create] under [# --- Optional: Flash to USB ---], once
    [usb_drives] is known. *)
Definition offer_flash (env : Env) (usb_drives : list Drive.t) : M unit :=
  match usb_drives with
  | [] => ret tt
  | [only] =>
      let selected_drive := Drive.name only in
      print (detected_message env only);;;
      yes <- confirm (flash_to_question selected_drive);;
      if yes then
        _flash_usb_drive env selected_drive true;;;
        print (flash_success_message selected_drive)
      else
        print flashing_cancelled_message
  | _ =>
      print available_message;;;
      print_drives env 0 usb_drives;;;
      yes <- confirm flash_any_question;;
      if yes then
        choice <- prompt number_prompt;;
        try_except
          (number <- lift (match py_int env choice with
                           | Some n => Returned n
                           | None => Raised ValueError
                           end);;
           let drive_index := (number - 1)%Z in
           if ((0 <=? drive_index) && (drive_index <? Z.of_nat (length usb_drives)))%Z then
             match usb_drives !! Z.to_nat drive_index with
             | Some drive =>
                 let selected_drive := Drive.name drive in
                 _flash_usb_drive env selected_drive false;;;
                 print (flash_success_message selected_drive)
             | None => raise IndexError
             end
           else
             print invalid_selection_message)
          is_ValueError
          (print invalid_input_message)
      else ret tt
  end.

Definition preseed_success_message : string :=
  "SUCCESS: Preseed file [yellow]'" ++ PRESEED_FILENAME ++ "'[/yellow] copied to workspace.".

Definition bootloader_success_message : string :=
  "SUCCESS: ISOLINUX and GRUB configurations updated.".

(** [create()] *)
Definition create (env : Env) : M unit :=
  print "[bold cyan]Starting Debian ISO Customization Process[/bold cyan]";;;
  print "[bold cyan]Starting Debian ISO Customization Process[/bold cyan]";;;
  _verify_prerequisites env;;;
  print "SUCCESS: Prerequisites verified.";;;
  _extract_iso env;;;
  print ("SUCCESS: Source ISO extracted to [yellow]'" ++ WORKSPACE_DIR ++ "/'[/yellow].");;;
  _create_preseed_config env;;;
  print preseed_success_message;;;
  _generate_post_install_script env;;;
  print "SUCCESS: Post-install script generated from JSON config.";;;
  _update_bootloader_configs;;;
  print bootloader_success_message;;;
  _rebuild_iso env;;;
  print ("SUCCESS: Custom ISO [yellow]'" ++ CUSTOM_ISO_NAME ++ "'[/yellow] created successfully.");;;
  usb_drives <- _find_usb_drives env;;
  offer_flash env usb_drives;;;
  print process_complete_message.

(** ** Reading traces *)

(** The event starts the raw device write: [sudo dd ...]. *)
Definition is_write (e : event) : bool :=
  match e with
  | Run (tool :: sub :: _) _ => String.eqb tool "sudo" && String.eqb sub "dd"
  | _ => false
  end.

(** How many times the write tool was started. *)
Fixpoint write_count (tr : list event) : nat :=
  match tr with
  | [] => 0
  | e :: rest => ((if is_write e then 1 else 0) + write_count rest)%nat
  end.

(** The operator answered yes to the question [text]. *)
Definition is_yes (text : string) (e : event) : bool :=
  match e with
  | Confirm asked true => String.eqb asked text
  | _ => false
  end.

(** The operator answered yes to some question. *)
Definition is_any_yes (e : event) : bool :=
  match e with
  | Confirm _ true => true
  | _ => false
  end.

(** The answers the operator gave, in order. *)
Fixpoint answers (tr : list event) : list bool :=
  match tr with
  | [] => []
  | Confirm _ answer :: rest => answer :: answers rest
  | _ :: rest => answers rest
  end.

(** Every device write of the trace comes after an authorising event, or
    the scan started authorised ([ok]). *)
Fixpoint guarded (auth : event -> bool) (ok : bool) (tr : list event) : bool :=
  match tr with
  | [] => true
  | e :: rest =>
      if is_write e then ok && guarded auth ok rest
      else guarded auth (ok || auth e) rest
  end.

(** The ejection tool ran and exited with a nonzero status. *)
Definition is_eject_failure (e : event) : bool :=
  match e with
  | Run (tool :: sub :: _) (Some status) =>
      String.eqb tool "sudo" && String.eqb sub "eject" && negb (status =? 0)%Z
  | _ => false
  end.

(** The write tool ran and exited with status zero. *)
Definition is_write_success (e : event) : bool :=
  match e with
  | Run _ (Some status) => is_write e && (status =? 0)%Z
  | _ => false
  end.

(** The event is [console.print(text)]. *)
Definition prints (text : string) (e : event) : bool :=
  match e with
  | Print shown => String.eqb shown text
  | _ => false
  end.

(** The event is a write to the file [path]. *)
Definition writes_to (path : string) (e : event) : bool :=
  match e with
  | Write target _ => String.eqb target path
  | _ => false
  end.

(** The event is the closing message of [create]. *)
Definition announces_completion (e : event) : bool :=
  match e with
  | Print text => String.eqb text process_complete_message
  | _ => false
  end.

(** Events of the build stages: no [sudo] command, no question to the
    operator, and not the closing message. *)
Definition silent (e : event) : bool :=
  match e with
  | Run (tool :: _) _ => negb (String.eqb tool "sudo")
  | Confirm _ _ => false
  | Prompt _ _ => false
  | Print text => negb (String.eqb text process_complete_message)
  | _ => true
  end.

(** Lines 143 and 146 of the script, as [script_content] fills them. *)
Definition install_line (packages : string) : string :=
  "apt-get install -y --no-install-recommends " ++ packages.

Definition key_file (ssh_user : string) : string := "/home/" ++ ssh_user ++ "/.ssh/id_rsa".

Definition keygen_line (ssh_user ssh_key_type : string) : string :=
  "sudo -u " ++ ssh_user ++ " ssh-keygen -t " ++ ssh_key_type
  ++ " -f " ++ key_file ssh_user ++ " -N " ++ dq ++ dq.

(** [line] is a whole line of [text], between two line feeds. *)
Definition has_line (line text : string) : Prop :=
  exists before after, text = before ++ nl ++ line ++ nl ++ after.

(** The words a shell reads on a command line of literal characters,
    blanks and tabs: the maximal runs of characters other than blank and
    tab. *)
Fixpoint shell_words_from (current : string) (line : string) : list string :=
  let flush := match current with EmptyString => [] | _ => [current] end in
  match line with
  | EmptyString => flush
  | String c rest =>
      if (Ascii.eqb c " " || Ascii.eqb c (ascii_of_nat 9))%bool
      then flush ++ shell_words_from EmptyString rest
      else shell_words_from (current ++ String c EmptyString) rest
  end.

Definition shell_words (line : string) : list string := shell_words_from EmptyString line.

(** The value of the configuration field [key], or [default]. *)
Definition field_or (members : list (string * json)) (key : string) (default : json) : json :=
  match Json.assoc key members with
  | Some v => v
  | None => default
  end.

(** [d] is the descriptor the comprehension of [_find_usb_drives] builds
    for the device with the given members. *)
Definition describes (env : Env) (members : list (string * json)) (d : Drive.t) : Prop :=
  exists name,
    Json.assoc "name" members = Some name
    /\ Json.assoc "size" members = Some (Drive.size d)
    /\ Drive.name d = "/dev/" ++ py_str env name.

(** ** The runs of the media provisioner

    [_flash_usb_drive] as the state machine unmount, confirm, write, eject:
    from the operator's pending answers to the result, the events of the
    invocation and the answers left. *)

Definition unmounted (device : string) (status : Z) : list event :=
  [Print (preparing_message device);
   Run (umount_command device) (Some status);
   Print (warning_message device)].

(** The confirmation gate: with the bypass flag nothing is asked; without
    it the operator's next answer is consumed and must be yes. *)
Definition gate_events (force : bool) : list event :=
  if force then [] else [Confirm sure_question true].

Definition gate_passed (force : bool) (pending left : list bool) : Prop :=
  if force then pending = left else pending = true :: left.

Inductive flash_run (device : string) (force : bool) :
  list bool -> outcome unit -> list event -> list bool -> Prop :=
| flash_no_sudo pending :
    flash_run device force pending (Raised FileNotFoundError)
      [Print (preparing_message device); Run (umount_command device) None] pending
| flash_input_ended status :
    force = false ->
    flash_run device force [] (Raised Abort) (unmounted device status) []
| flash_declined status pending :
    force = false ->
    flash_run device force (false :: pending) (Raised (Exit 0))
      (unmounted device status ++ [Confirm sure_question false; Print cancelled_message])
      pending
| flash_write_missing status pending left :
    gate_passed force pending left ->
    flash_run device force pending (Raised FileNotFoundError)
      (unmounted device status ++ gate_events force ++ [Run (dd_command device) None]) left
| flash_write_failed status pending left code :
    gate_passed force pending left ->
    code <> 0%Z ->
    flash_run device force pending (Raised CalledProcessError)
      (unmounted device status ++ gate_events force
       ++ [Run (dd_command device) (Some code)]) left
| flash_eject_missing status pending left :
    gate_passed force pending left ->
    flash_run device force pending (Raised FileNotFoundError)
      (unmounted device status ++ gate_events force
       ++ [Run (dd_command device) (Some 0%Z); Print (flashed_message device);
           Print (ejecting_message device); Run (eject_command device) None]) left
| flash_eject_failed status pending left code :
    gate_passed force pending left ->
    code <> 0%Z ->
    flash_run device force pending (Raised CalledProcessError)
      (unmounted device status ++ gate_events force
       ++ [Run (dd_command device) (Some 0%Z); Print (flashed_message device);
           Print (ejecting_message device); Run (eject_command device) (Some code)]) left
| flash_done status pending left :
    gate_passed force pending left ->
    flash_run device force pending (Returned tt)
      (unmounted device status ++ gate_events force
       ++ [Run (dd_command device) (Some 0%Z); Print (flashed_message device);
           Print (ejecting_message device); Run (eject_command device) (Some 0%Z);
           Print (ejected_message device)]) left.

(** ** The runs of the flash offer

    The block of [create] that offers to flash, given the drives found:
    from the operator's pending answers to the result, the events and the
    answers left. *)

Fixpoint drive_lines (env : Env) (i : Z) (usb_drives : list Drive.t) : list event :=
  match usb_drives with
  | [] => []
  | drive :: rest => Print (drive_line env i drive) :: drive_lines env (i + 1) rest
  end.

(** What follows the return of [_flash_usb_drive] in [create]. *)
Definition after_flash (r : outcome unit) (selected_drive : string) : list event :=
  match r with
  | Returned _ => [Print (flash_success_message selected_drive)]
  | Raised _ => []
  end.

Definition listing (env : Env) (usb_drives : list Drive.t) : list event :=
  Print available_message :: drive_lines env 0 usb_drives.

Inductive offer_run (env : Env) :
  list Drive.t -> list bool -> outcome unit -> list event -> list bool -> Prop :=
| offer_nothing pending :
    offer_run env [] pending (Returned tt) [] pending
| offer_single_input_ended only :
    offer_run env [only] [] (Raised Abort) [Print (detected_message env only)] []
| offer_single_declined only pending :
    offer_run env [only] (false :: pending) (Returned tt)
      [Print (detected_message env only);
       Confirm (flash_to_question (Drive.name only)) false;
       Print flashing_cancelled_message] pending
| offer_single_flash only pending r new left :
    flash_run (Drive.name only) true pending r new left ->
    offer_run env [only] (true :: pending) r
      ([Print (detected_message env only);
        Confirm (flash_to_question (Drive.name only)) true]
       ++ new ++ after_flash r (Drive.name only)) left
| offer_multi_input_ended d1 d2 rest :
    offer_run env (d1 :: d2 :: rest) [] (Raised Abort) (listing env (d1 :: d2 :: rest)) []
| offer_multi_declined d1 d2 rest pending :
    offer_run env (d1 :: d2 :: rest) (false :: pending) (Returned tt)
      (listing env (d1 :: d2 :: rest) ++ [Confirm flash_any_question false]) pending
| offer_multi_no_reply d1 d2 rest pending :
    offer_run env (d1 :: d2 :: rest) (true :: pending) (Raised Abort)
      (listing env (d1 :: d2 :: rest) ++ [Confirm flash_any_question true]) pending
| offer_multi_invalid_input d1 d2 rest pending reply :
    py_int env reply = None ->
    offer_run env (d1 :: d2 :: rest) (true :: pending) (Returned tt)
      (listing env (d1 :: d2 :: rest)
       ++ [Confirm flash_any_question true; Prompt number_prompt reply;
           Print invalid_input_message]) pending
| offer_multi_invalid_selection d1 d2 rest pending reply number :
    py_int env reply = Some number ->
    (number - 1 < 0 \/ Z.of_nat (length (d1 :: d2 :: rest)) <= number - 1)%Z ->
    offer_run env (d1 :: d2 :: rest) (true :: pending) (Returned tt)
      (listing env (d1 :: d2 :: rest)
       ++ [Confirm flash_any_question true; Prompt number_prompt reply;
           Print invalid_selection_message]) pending
| offer_multi_flash d1 d2 rest pending reply number drive r new left :
    py_int env reply = Some number ->
    (0 <= number - 1)%Z ->
    (d1 :: d2 :: rest) !! Z.to_nat (number - 1) = Some drive ->
    flash_run (Drive.name drive) false pending r new left ->
    offer_run env (d1 :: d2 :: rest) (true :: pending) r
      (listing env (d1 :: d2 :: rest)
       ++ [Confirm flash_any_question true; Prompt number_prompt reply]
       ++ new ++ after_flash r (Drive.name drive)) left.

(** The question whose yes authorises the write, by the number of drives
    found: the selection question for one drive, the confirmation of
    [_flash_usb_drive] otherwise. *)
Definition authorising_question (usb_drives : list Drive.t) : string :=
  match usb_drives with
  | [only] => flash_to_question (Drive.name only)
  | _ => sure_question
  end.

(** ** The runs of the command *)

(** [m] appends silent events only and leaves the operator's answers. *)
Definition quiet {A : Type} (m : M A) : Prop :=
  forall w : World,
    exists new,
      trace (m w).2 = (trace w ++ new)%list
      /\ forallb silent new = true
      /\ confirms (m w).2 = confirms w.

(** [m] runs quietly, and then has raised or goes on as [rest drives]. *)
Definition leads_to (m : M unit) (rest : list Drive.t -> M unit) : Prop :=
  forall w : World,
    exists pre w1,
      trace w1 = (trace w ++ pre)%list
      /\ forallb silent pre = true
      /\ confirms w1 = confirms w
      /\ ((exists e, m w = (Raised e, w1)) \/ (exists drives, m w = rest drives w1)).

(** What follows the flash offer in [create]. *)
Definition closing (r : outcome unit) : list event :=
  match r with
  | Returned _ => [Print process_complete_message]
  | Raised _ => []
  end.

(** A run of [create]: the build stages and the device discovery are
    silent; either one of them aborts the run, or the flash offer follows
    and, when it returns, the closing message. *)
Inductive create_run (env : Env) : list bool -> outcome unit -> list event -> list bool -> Prop :=
| create_aborted pending e pre :
    forallb silent pre = true ->
    create_run env pending (Raised e) pre pending
| create_offered pending pre usb_drives r new left :
    forallb silent pre = true ->
    offer_run env usb_drives pending r new left ->
    create_run env pending r (pre ++ new ++ closing r) left.

(** ** Concrete environments and worlds, for the examples *)

Module Example.

Definition q (s : string) : string := dq ++ s ++ dq.

(** [{"packages": ["curl","vim"], "ssh_key": {"type":"rsa","user":"admin"}}] *)
Definition config_text : string :=
  "{" ++ q "packages" ++ ": [" ++ q "curl" ++ "," ++ q "vim" ++ "], "
  ++ q "ssh_key" ++ ": {" ++ q "type" ++ ":" ++ q "rsa" ++ "," ++ q "user" ++ ":"
  ++ q "admin" ++ "}}".

Definition config_value : json :=
  JObj [("packages", JArr [JStr "curl"; JStr "vim"]);
        ("ssh_key", JObj [("type", JStr "rsa"); ("user", JStr "admin")])].

Definition device (name size type : string) (tran : json) : json :=
  JObj [("name", JStr name); ("size", JStr size); ("type", JStr type); ("tran", tran)].

(** A SATA disk with a partition listed beside it, a USB stick and its
    partition, and a second USB partition. *)
Definition mixed_devices : list json :=
  [device "sda" "476.9G" "disk" (JStr "sata");
   device "sda1" "476.9G" "part" JNull;
   device "sdb1" "14.9G" "part" (JStr "usb");
   device "sdb" "14.9G" "disk" (JStr "usb");
   device "sdc1" "7.5G" "part" (JStr "usb")].

Definition two_sticks : list json :=
  [device "sdb" "14.9G" "disk" (JStr "usb");
   device "sdc" "7.5G" "disk" (JStr "usb")].

Definition lsblk_text : string := "<the JSON text lsblk printed>".

(** A stand-in for [int]: plain runs of decimal digits. *)
Fixpoint digits_value (acc : Z) (s : string) : option Z :=
  match s with
  | EmptyString => Some acc
  | String c rest =>
      let n := nat_of_ascii c in
      if ((48 <=? n) && (n <=? 57))%nat
      then digits_value (10 * acc + Z.of_nat (n - 48)) rest
      else None
  end.

Definition plain_int (s : string) : option Z :=
  match s with
  | EmptyString => None
  | _ => digits_value 0 s
  end.

Definition original_isolinux : string := "default vesamenu.c32" ++ nl.
Definition original_grub : string := "menuentry 'Install' { linux /install.amd/vmlinuz }" ++ nl.

(** Every tool is installed and succeeds, but [eject] exits with
    [eject_status]; extraction unpacks the two boot menus; [lsblk] reports
    [devices]. *)
Definition tools (eject_status : Z) (devices : list json) : Env :=
  {| which := fun _ => true;
     os_exec := fun _ files argv =>
       match argv with
       | [_; "eject"; _] => Exited eject_status EmptyString files
       | ["lsblk"; _; _; _] => Exited 0 lsblk_text files
       | ["xorriso"; "-osirrox"; _; _; _; _; _; _] =>
           Exited 0 EmptyString
             (<[isolinux_cfg_path := original_isolinux]>
                (<[grub_cfg_path := original_grub]> files))
       | _ => Exited 0 EmptyString files
       end;
     json_loads := fun text =>
       if String.eqb text lsblk_text then Some (JObj [("blockdevices", JArr devices)])
       else if String.eqb text config_text then Some config_value
       else None;
     json_error := fun _ => JSONDecodeError;
     os_copy := fun _ _ _ _ => None;
     py_int := plain_int;
     py_repr := fun _ => "<repr>" |}.

(** Enumeration fails: [lsblk] is not installed (0), exits with status 32
    (1), or prints something that is not JSON (any other mode). *)
Definition broken_lsblk (mode : nat) : Env :=
  {| which := fun _ => true;
     os_exec := fun _ files argv =>
       match mode with
       | 0%nat => NotFound
       | 1%nat => Exited 32 EmptyString files
       | _ => Exited 0 "lsblk: not a block device" files
       end;
     json_loads := fun _ => None;
     json_error := fun _ => JSONDecodeError;
     os_copy := fun _ _ _ _ => None;
     py_int := plain_int;
     py_repr := fun _ => "<repr>" |}.

(** [lsblk] exits with [status] after printing bytes that are not text in
    the locale's encoding. *)
Definition garbled_lsblk (status : Z) : Env :=
  {| which := fun _ => true;
     os_exec := fun _ _ _ => Garbled status;
     json_loads := fun _ => None;
     json_error := fun _ => JSONDecodeError;
     os_copy := fun _ _ _ _ => None;
     py_int := plain_int;
     py_repr := fun _ => "<repr>" |}.

(** [lsblk] succeeds and prints a document with an integer of more digits
    than [json.loads] converts, which it refuses with a plain
    [ValueError]. *)
Definition long_integer_lsblk : Env :=
  {| which := fun _ => true;
     os_exec := fun _ files _ => Exited 0 "{<an integer of 5000 digits>}" files;
     json_loads := fun _ => None;
     json_error := fun _ => ValueError;
     os_copy := fun _ _ _ _ => None;
     py_int := plain_int;
     py_repr := fun _ => "<repr>" |}.

(** Every tool is installed, succeeds, prints nothing and changes no file. *)
Definition inert : Env :=
  {| which := fun _ => true;
     os_exec := fun _ files _ => Exited 0 EmptyString files;
     json_loads := fun _ => None;
     json_error := fun _ => JSONDecodeError;
     os_copy := fun _ _ _ _ => None;
     py_int := plain_int;
     py_repr := fun _ => "<repr>" |}.

(** The working directory before a run: the answer file and, when
    [with_config], the provisioning configuration. *)
Definition start (with_config : bool) (confirms : list bool) (prompts : list string) : World :=
  {| fs := if with_config
           then <[POST_INSTALL_CONFIG := config_text]> {[ PRESEED_FILENAME := "d-i auto" ]}
           else {[ PRESEED_FILENAME := "d-i auto" ]};
     trace := [];
     confirms := confirms;
     prompts := prompts |}.

(** A workspace already extracted. *)
Definition extracted : World :=
  {| fs := <[isolinux_cfg_path := original_isolinux]> {[ grub_cfg_path := original_grub ]};
     trace := [];
     confirms := [];
     prompts := [] |}.

End Example.

(** ** The milestones of the pipeline

    The events that mark the progress of a run of [create], numbered in the
    order of the source: 1 the extraction succeeded, 2 the answer file was
    copied into the workspace, 3 the script was written, 4 and 5 the legacy
    and the UEFI menu were written, 6 the image was rebuilt, 7 the devices
    were enumerated, 8 the write tool was started. *)

Fixpoint same_argv (a b : list string) : bool :=
  match a, b with
  | [], [] => true
  | x :: a', y :: b' => String.eqb x y && same_argv a' b'
  | _, _ => false
  end.

Definition exited_zero (status : option Z) : bool :=
  match status with
  | Some code => (code =? 0)%Z
  | None => false
  end.

Definition milestone (e : event) : option nat :=
  match e with
  | Run argv status =>
      if same_argv argv extract_command then
        if exited_zero status then Some 1%nat else None
      else if same_argv argv rebuild_command then
        if exited_zero status then Some 6%nat else None
      else if same_argv argv lsblk_command then Some 7%nat
      else if is_write e then Some 8%nat
      else None
  | Copy _ dst =>
      if String.eqb dst (path_join WORKSPACE_DIR PRESEED_FILENAME) then Some 2%nat else None
  | Write path _ =>
      if String.eqb path script_path then Some 3%nat
      else if String.eqb path isolinux_cfg_path then Some 4%nat
      else if String.eqb path grub_cfg_path then Some 5%nat
      else None
  | _ => None
  end.

Fixpoint milestones (tr : list event) : list nat :=
  match tr with
  | [] => []
  | e :: rest =>
      match milestone e with
      | Some k => k :: milestones rest
      | None => milestones rest
      end
  end.

(** [m] takes the pipeline from milestone [a] to some milestone between [a]
    and [b], passing every milestone in between once and in order, and to
    [lo] at least when it returns. *)
Definition stage {A : Type} (a lo b : nat) (m : M A) : Prop :=
  forall w : World,
    exists new n,
      trace (m w).2 = (trace w ++ new)%list
      /\ (a <= n <= b)%nat
      /\ milestones new = seq (S a) (n - a)
      /\ (forall x, (m w).1 = Returned x -> (lo <= n)%nat).

(** ** Further readings and samples *)

(** [s.split("\n")]: the lines of a text, from the line [current] being
    read on. *)
Fixpoint split_lines_from (current : string) (s : string) : list string :=
  match s with
  | EmptyString => [current]
  | String c rest =>
      if Ascii.eqb c (ascii_of_nat 10)
      then current :: split_lines_from EmptyString rest
      else split_lines_from (current ++ String c EmptyString) rest
  end.

Definition split_lines (s : string) : list string := split_lines_from EmptyString s.

(** The character is a letter, a digit or one of [+ - . _ :], the
    characters of package names with an architecture; a shell takes each of
    them literally: none separates words, ends the line or the command,
    quotes, or starts an expansion or a pattern. *)
Definition is_word_char (c : ascii) : bool :=
  let n := nat_of_ascii c in
  ((97 <=? n) && (n <=? 122) || (65 <=? n) && (n <=? 90) || (48 <=? n) && (n <=? 57)
   || existsb (Ascii.eqb c) ["+"; "-"; "."; "_"; ":"]%char)%nat.

(** A nonempty string of such characters: one word of a command line. *)
Fixpoint all_word_chars (s : string) : bool :=
  match s with
  | EmptyString => true
  | String c rest => is_word_char c && all_word_chars rest
  end.

Definition is_word (s : string) : bool :=
  match s with
  | EmptyString => false
  | _ => all_word_chars s
  end.

(** The string has no line feed: it is one line. *)
Fixpoint one_line (s : string) : bool :=
  match s with
  | EmptyString => true
  | String c rest => negb (Ascii.eqb c (ascii_of_nat 10)) && one_line rest
  end.

(** The devices of an enumerated list that the comprehension of
    [_find_usb_drives] keeps, in order: the dicts whose [tran] is [usb] and
    whose [type] is [disk]. *)
Fixpoint usb_disks (devices : list json) : list (list (string * json)) :=
  match devices with
  | [] => []
  | JObj members :: rest =>
      if Json.eq_str (field_or members "tran" JNull) "usb"
         && Json.eq_str (field_or members "type" JNull) "disk"
      then members :: usb_disks rest
      else usb_disks rest
  | _ :: rest => usb_disks rest
  end.

(** The event runs a command on [device]: one of the three commands of
    [_flash_usb_drive]. *)
Definition targets (device : string) (e : event) : Prop :=
  match e with
  | Run argv _ =>
      argv = umount_command device \/ argv = dd_command device \/ argv = eject_command device
  | _ => True
  end.

(** The event runs an external command. *)
Definition is_run (e : event) : bool :=
  match e with
  | Run _ _ => true
  | _ => false
  end.

(** The operator answered no to the confirmation of [_flash_usb_drive]. *)
Definition declines_write (e : event) : bool :=
  match e with
  | Confirm asked false => String.eqb asked sure_question
  | _ => false
  end.

(** The operator answered no to another question: one of the two that the
    flash offer of [create] asks. *)
Definition declines_offer (e : event) : bool :=
  match e with
  | Confirm asked false => negb (String.eqb asked sure_question)
  | _ => false
  end.

Module Sample.

(** No tool is installed. *)
Definition bare : Env :=
  {| which := fun _ => false;
     os_exec := fun _ _ _ => NotFound;
     json_loads := fun _ => None;
     json_error := fun _ => JSONDecodeError;
     os_copy := fun _ _ _ _ => None;
     py_int := Example.plain_int;
     py_repr := fun _ => "<repr>" |}.

(** Every tool succeeds except [umount], which exits with status 32, and
    [dd], which exits with [dd_status]. *)
Definition busy (dd_status : Z) : Env :=
  {| which := fun _ => true;
     os_exec := fun _ files argv =>
       match argv with
       | [_; "umount"; _] => Exited 32 EmptyString files
       | [_; "dd"; _; _; _; _] => Exited dd_status EmptyString files
       | _ => Exited 0 EmptyString files
       end;
     json_loads := fun _ => None;
     json_error := fun _ => JSONDecodeError;
     os_copy := fun _ _ _ _ => None;
     py_int := Example.plain_int;
     py_repr := fun _ => "<repr>" |}.


(** Every tool succeeds and changes no file, and every text loads as the
    empty JSON array. *)
Definition array_config : Env :=
  {| which := fun _ => true;
     os_exec := fun _ files _ => Exited 0 EmptyString files;
     json_loads := fun _ => Some (JArr []);
     json_error := fun _ => JSONDecodeError;
     os_copy := fun _ _ _ _ => None;
     py_int := Example.plain_int;
     py_repr := fun _ => "<repr>" |}.

(** A workspace with the legacy menu only. *)
Definition legacy_only : World :=
  {| fs := {[ isolinux_cfg_path := Example.original_isolinux ]};
     trace := [];
     confirms := [];
     prompts := [] |}.

End Sample.

(** * Properties *)

(** ** Strings *)

Section StringFacts.

Lemma append_cons (x : ascii) (a b : string) : String x a ++ b = String x (a ++ b).
Proof. reflexivity. Qed.

Lemma append_assoc (a b c : string) : (a ++ b) ++ c = a ++ (b ++ c).
Proof.
  induction a as [|x a IH]; [reflexivity |].
  rewrite !append_cons. now rewrite IH.
Qed.

Lemma length_append (a b : string) :
  String.length (a ++ b) = (String.length a + String.length b)%nat.
Proof.
  induction a as [|x a IH]; [reflexivity |].
  rewrite append_cons. simpl. now rewrite IH.
Qed.

Lemma substring_whole (s : string) : substring 0 (String.length s) s = s.
Proof. induction s as [|x s IH]; simpl; [reflexivity | now rewrite IH]. Qed.

Lemma substring_skip (a b : string) :
  substring (String.length a) (String.length b) (a ++ b) = b.
Proof.
  induction a as [|x a IH]; [apply substring_whole |].
  rewrite append_cons. simpl. exact IH.
Qed.

Lemma endswith_append (a b : string) : endswith (a ++ b) b = true.
Proof.
  unfold endswith. rewrite length_append.
  replace (String.length a + String.length b - String.length b)%nat
    with (String.length a) by lia.
  rewrite substring_skip, String.eqb_refl, andb_true_r.
  apply Nat.leb_le. lia.
Qed.

Lemma append_longer (a b : string) : a ++ b = b -> a = EmptyString.
Proof.
  intros H. apply (f_equal String.length) in H. rewrite length_append in H.
  destruct a; [reflexivity | simpl in H; lia].
Qed.

End StringFacts.

(** ** Bootloader patching *)

(** What the patcher puts in front of the legacy and of the UEFI menu. *)
Lemma modified_isolinux_content_split (original : string) :
  modified_isolinux_content original
  = ("TIMEOUT 10" ++ nl ++ isolinux_autoinstall_config ++ nl) ++ original.
Proof. unfold modified_isolinux_content. now rewrite !append_assoc. Qed.

Lemma modified_grub_content_split (original : string) :
  modified_grub_content original
  = ("set timeout=1" ++ nl ++ "set default=" ++ dq ++ "0" ++ dq ++ nl ++ nl
     ++ grub_autoinstall_entry ++ nl ++ nl) ++ original.
Proof. unfold modified_grub_content. now rewrite !append_assoc. Qed.

Lemma boot_paths_differ : isolinux_cfg_path <> grub_cfg_path.
Proof. vm_compute. discriminate. Qed.

(** The patcher on a workspace that holds both menus. *)
Lemma update_bootloader_configs_run (w : World) (legacy uefi : string) :
  fs w !! isolinux_cfg_path = Some legacy ->
  fs w !! grub_cfg_path = Some uefi ->
  _update_bootloader_configs w =
    (Returned tt,
     {| fs := <[grub_cfg_path := modified_grub_content uefi]>
                (<[isolinux_cfg_path := modified_isolinux_content legacy]> (fs w));
        trace := trace w ++ [Write isolinux_cfg_path (modified_isolinux_content legacy);
                             Write grub_cfg_path (modified_grub_content uefi)];
        confirms := confirms w;
        prompts := prompts w |}).
Proof.
  intros Hl Hu.
  unfold _update_bootloader_configs, bind, read, write, log, set_fs.
  cbn [fs trace confirms prompts]. rewrite Hl.
  cbn [fs trace confirms prompts].
  rewrite lookup_insert_ne by apply boot_paths_differ. rewrite Hu.
  cbn [fs trace confirms prompts]. now rewrite <- app_assoc.
Qed.

(** C1. For every legacy and every UEFI menu text found in the workspace,
    the patcher succeeds and writes, for each, a text made of the new
    directives followed by the original text unchanged: the original is a
    suffix of the patched text, and the patched text is at least as long as
    the new entry and the original together. *)
Theorem patch_keeps_original_as_suffix (w : World) (legacy uefi : string) :
  fs w !! isolinux_cfg_path = Some legacy ->
  fs w !! grub_cfg_path = Some uefi ->
  exists w',
    _update_bootloader_configs w = (Returned tt, w')
    /\ fs w' !! isolinux_cfg_path = Some (modified_isolinux_content legacy)
    /\ fs w' !! grub_cfg_path = Some (modified_grub_content uefi)
    /\ modified_isolinux_content legacy
       = ("TIMEOUT 10" ++ nl ++ isolinux_autoinstall_config ++ nl) ++ legacy
    /\ modified_grub_content uefi
       = ("set timeout=1" ++ nl ++ "set default=" ++ dq ++ "0" ++ dq ++ nl ++ nl
          ++ grub_autoinstall_entry ++ nl ++ nl) ++ uefi
    /\ endswith (modified_isolinux_content legacy) legacy = true
    /\ endswith (modified_grub_content uefi) uefi = true
    /\ (String.length isolinux_autoinstall_config + String.length legacy
        <= String.length (modified_isolinux_content legacy))%nat
    /\ (String.length grub_autoinstall_entry + String.length uefi
        <= String.length (modified_grub_content uefi))%nat.
Proof.
  intros Hl Hu. eexists. split; [apply (update_bootloader_configs_run w legacy uefi Hl Hu) |].
  cbn [fs].
  split. { rewrite lookup_insert_ne by (apply not_eq_sym, boot_paths_differ).
           apply lookup_insert_eq. }
  split. { apply lookup_insert_eq. }
  split. { apply modified_isolinux_content_split. }
  split. { apply modified_grub_content_split. }
  split. { rewrite modified_isolinux_content_split. apply endswith_append. }
  split. { rewrite modified_grub_content_split. apply endswith_append. }
  split.
  - unfold modified_isolinux_content. rewrite !length_append. lia.
  - unfold modified_grub_content. rewrite !length_append. lia.
Qed.

Lemma patch_keeps_original_as_suffix_witness :
  exists w',
    _update_bootloader_configs Example.extracted = (Returned tt, w')
    /\ fs w' !! isolinux_cfg_path = Some (modified_isolinux_content Example.original_isolinux)
    /\ fs w' !! grub_cfg_path = Some (modified_grub_content Example.original_grub)
    /\ modified_isolinux_content Example.original_isolinux
       = ("TIMEOUT 10" ++ nl ++ isolinux_autoinstall_config ++ nl) ++ Example.original_isolinux
    /\ modified_grub_content Example.original_grub
       = ("set timeout=1" ++ nl ++ "set default=" ++ dq ++ "0" ++ dq ++ nl ++ nl
          ++ grub_autoinstall_entry ++ nl ++ nl) ++ Example.original_grub
    /\ endswith (modified_isolinux_content Example.original_isolinux)
Example.original_isolinux = true
    /\ endswith (modified_grub_content Example.original_grub) Example.original_grub = true
    /\ (String.length isolinux_autoinstall_config + String.length Example.original_isolinux
        <= String.length (modified_isolinux_content Example.original_isolinux))%nat
    /\ (String.length grub_autoinstall_entry + String.length Example.original_grub
        <= String.length (modified_grub_content Example.original_grub))%nat.
Proof.
  apply (patch_keeps_original_as_suffix Example.extracted
Example.original_isolinux Example.original_grub); vm_compute; reflexivity.
Defined.

Lemma append_grows (a b : string) :
  a <> EmptyString -> (String.length b < String.length (a ++ b))%nat /\ a ++ b <> b.
Proof.
  intros Ha. split.
  - rewrite length_append. destruct a; [congruence | simpl; lia].
  - intros H. apply append_longer in H. congruence.
Qed.

(** C9. Patching is not idempotent.  For every text, patching the patched
    text puts the directives and the entry in front a second time, so the
    result differs from, and is strictly longer than, the text patched once;
    and the patcher run twice on a workspace (which extraction does not
    clear) leaves both menus patched twice. *)
Theorem patch_not_idempotent :
  (forall text : string,
      modified_isolinux_content (modified_isolinux_content text)
      = ("TIMEOUT 10" ++ nl ++ isolinux_autoinstall_config ++ nl)
        ++ ("TIMEOUT 10" ++ nl ++ isolinux_autoinstall_config ++ nl) ++ text
      /\ modified_isolinux_content (modified_isolinux_content text)
         <> modified_isolinux_content text
      /\ (String.length (modified_isolinux_content text)
          < String.length (modified_isolinux_content (modified_isolinux_content text)))%nat)
  /\ (forall text : string,
      modified_grub_content (modified_grub_content text)
      = ("set timeout=1" ++ nl ++ "set default=" ++ dq ++ "0" ++ dq ++ nl ++ nl
         ++ grub_autoinstall_entry ++ nl ++ nl)
        ++ ("set timeout=1" ++ nl ++ "set default=" ++ dq ++ "0" ++ dq ++ nl ++ nl
            ++ grub_autoinstall_entry ++ nl ++ nl) ++ text
      /\ modified_grub_content (modified_grub_content text) <> modified_grub_content text
      /\ (String.length (modified_grub_content text)
          < String.length (modified_grub_content (modified_grub_content text)))%nat)
  /\ (forall (w : World) (legacy uefi : string),
      fs w !! isolinux_cfg_path = Some legacy ->
      fs w !! grub_cfg_path = Some uefi ->
      exists w1 w2,
        _update_bootloader_configs w = (Returned tt, w1)
        /\ _update_bootloader_configs w1 = (Returned tt, w2)
        /\ fs w1 !! isolinux_cfg_path = Some (modified_isolinux_content legacy)
        /\ fs w1 !! grub_cfg_path = Some (modified_grub_content uefi)
        /\ fs w2 !! isolinux_cfg_path
           = Some (modified_isolinux_content (modified_isolinux_content legacy))
        /\ fs w2 !! grub_cfg_path
           = Some (modified_grub_content (modified_grub_content uefi))
        /\ fs w2 !! isolinux_cfg_path <> fs w1 !! isolinux_cfg_path
        /\ fs w2 !! grub_cfg_path <> fs w1 !! grub_cfg_path).
Proof.
  assert (Hi : forall text,
             modified_isolinux_content (modified_isolinux_content text)
             <> modified_isolinux_content text
             /\ (String.length (modified_isolinux_content text)
                 < String.length (modified_isolinux_content (modified_isolinux_content text)))%nat).
  { intros text. rewrite (modified_isolinux_content_split (modified_isolinux_content text)).
    apply and_comm, append_grows. vm_compute. discriminate. }
  assert (Hg : forall text,
             modified_grub_content (modified_grub_content text) <> modified_grub_content text
             /\ (String.length (modified_grub_content text)
                 < String.length (modified_grub_content (modified_grub_content text)))%nat).
  { intros text. rewrite (modified_grub_content_split (modified_grub_content text)).
    apply and_comm, append_grows. vm_compute. discriminate. }
  split; [| split].
  - intros text. split; [| apply Hi].
    now rewrite !modified_isolinux_content_split.
  - intros text. split; [| apply Hg].
    now rewrite !modified_grub_content_split.
  - intros w legacy uefi Hl Hu.
    pose proof (update_bootloader_configs_run w legacy uefi Hl Hu) as H1.
    set (w1 := {| fs := <[grub_cfg_path := modified_grub_content uefi]>
                          (<[isolinux_cfg_path := modified_isolinux_content legacy]> (fs w));
                  trace := trace w ++ [Write isolinux_cfg_path (modified_isolinux_content legacy);
                                       Write grub_cfg_path (modified_grub_content uefi)];
                  confirms := confirms w;
                  prompts := prompts w |}) in *.
    assert (Hl1 : fs w1 !! isolinux_cfg_path = Some (modified_isolinux_content legacy)).
    { cbn [fs w1]. rewrite lookup_insert_ne by (apply not_eq_sym, boot_paths_differ).
      apply lookup_insert_eq. }
    assert (Hu1 : fs w1 !! grub_cfg_path = Some (modified_grub_content uefi)).
    { cbn [fs w1]. apply lookup_insert_eq. }
    pose proof (update_bootloader_configs_run w1 _ _ Hl1 Hu1) as H2.
    eexists w1, _. split; [exact H1 |]. split; [exact H2 |].
    split; [exact Hl1 |]. split; [exact Hu1 |].
    cbn [fs].
    rewrite (lookup_insert_ne _ grub_cfg_path isolinux_cfg_path)
      by (apply not_eq_sym, boot_paths_differ).
    rewrite !lookup_insert_eq, Hl1, Hu1.
    repeat split; try reflexivity.
    + intros E. apply (proj1 (Hi legacy)). congruence.
    + intros E. apply (proj1 (Hg uefi)). congruence.
Qed.

Lemma patch_not_idempotent_witness :
  exists w1 w2,
    _update_bootloader_configs Example.extracted = (Returned tt, w1)
    /\ _update_bootloader_configs w1 = (Returned tt, w2)
    /\ fs w1 !! isolinux_cfg_path = Some (modified_isolinux_content Example.original_isolinux)
    /\ fs w1 !! grub_cfg_path = Some (modified_grub_content Example.original_grub)
    /\ fs w2 !! isolinux_cfg_path
       = Some (modified_isolinux_content (modified_isolinux_content Example.original_isolinux))
    /\ fs w2 !! grub_cfg_path
       = Some (modified_grub_content (modified_grub_content Example.original_grub))
    /\ fs w2 !! isolinux_cfg_path <> fs w1 !! isolinux_cfg_path
    /\ fs w2 !! grub_cfg_path <> fs w1 !! grub_cfg_path.
Proof.
  apply (proj2 (proj2 patch_not_idempotent) Example.extracted
Example.original_isolinux Example.original_grub); vm_compute; reflexivity.
Defined.

(** ** The post-install script *)

Section Script.

Variable env : Env.

(** The script of a configuration whose [packages] join to [packages] and
    whose [ssh_key] is, or defaults to, the dict [sub]. *)
Lemma render_dict (members sub : list (string * json)) (packages : string) :
  Json.join " " (field_or members "packages" (JArr [])) = Returned packages ->
  field_or members "ssh_key" (JObj []) = JObj sub ->
  render_post_install_script env (JObj members)
  = Returned (script_content packages
                (py_str env (field_or sub "user" (JStr "user")))
                (py_str env (field_or sub "type" (JStr "ed25519")))).
Proof.
  unfold render_post_install_script, Json.get, field_or. intros Hp Hk.
  cbn [obind]. rewrite Hp. cbn [obind]. rewrite Hk. reflexivity.
Qed.

(** Conversely, a script is only ever produced that way. *)
Lemma render_inv (config : json) (script : string) :
  render_post_install_script env config = Returned script ->
  exists members sub packages,
    config = JObj members
    /\ Json.join " " (field_or members "packages" (JArr [])) = Returned packages
    /\ field_or members "ssh_key" (JObj []) = JObj sub
    /\ script = script_content packages
                  (py_str env (field_or sub "user" (JStr "user")))
                  (py_str env (field_or sub "type" (JStr "ed25519"))).
Proof.
  unfold render_post_install_script. intros H.
  destruct config as [| | | | |items|members]; try discriminate H.
  cbn [Json.get obind] in H. fold (field_or members "packages" (JArr [])) in H.
  destruct (Json.join " " (field_or members "packages" (JArr []))) as [packages|e] eqn:Hp;
    [| discriminate H].
  cbn [obind] in H. fold (field_or members "ssh_key" (JObj [])) in H.
  destruct (field_or members "ssh_key" (JObj [])) as [| | | | |items|sub] eqn:Hk;
    try discriminate H.
  cbn [Json.get obind] in H. injection H as <-.
  exists members, sub, packages. repeat split; assumption || reflexivity.
Qed.

End Script.

Lemma script_has_install_line (packages ssh_user ssh_key_type : string) :
  has_line (install_line packages) (script_content packages ssh_user ssh_key_type).
Proof.
  unfold has_line, install_line, script_content.
  eexists "#!/bin/bash
set -e

# --- Install packages ---
apt-get update", _.
  rewrite !append_assoc. reflexivity.
Qed.

Lemma script_has_keygen_line (packages ssh_user ssh_key_type : string) :
  has_line (keygen_line ssh_user ssh_key_type) (script_content packages ssh_user ssh_key_type).
Proof.
  unfold has_line, keygen_line, key_file, script_content.
  exists ("#!/bin/bash
set -e

# --- Install packages ---
apt-get update
apt-get install -y --no-install-recommends " ++ packages ++ "

# --- Generate SSH key ---"),
    ("
# --- Clean up ---
apt-get clean
rm -rf /var/lib/apt/lists/*

echo " ++ dq ++ "Post-installation setup complete." ++ dq ++ nl).
  rewrite !append_assoc. reflexivity.
Qed.

Lemma keygen_line_spelled (ssh_user ssh_key_type : string) :
  "sudo -u " ++ ssh_user ++ " ssh-keygen -t " ++ ssh_key_type
  ++ " -f /home/" ++ ssh_user ++ "/.ssh/id_rsa -N " ++ dq ++ dq
  = keygen_line ssh_user ssh_key_type.
Proof. unfold keygen_line, key_file. rewrite !append_assoc. reflexivity. Qed.

Lemma join_no_packages : Json.join " " (JArr []) = Returned EmptyString.
Proof. reflexivity. Qed.

(** C7. Defaults of the provisioning configuration.  For every
    configuration (a dict whose [packages], when present, is a sequence of
    strings): when [ssh_key] is omitted the script is generated with user
    [user] and algorithm [ed25519]; when [ssh_key] is a dict, each of [user]
    and [type] it omits takes that default; and when [packages] is omitted
    the package list is empty. *)
Theorem omitted_fields_take_defaults
  (env : Env) (members : list (string * json)) (packages : string) :
  Json.join " " (field_or members "packages" (JArr [])) = Returned packages ->
  (Json.assoc "ssh_key" members = None ->
     render_post_install_script env (JObj members)
     = Returned (script_content packages "user" "ed25519")
     /\ has_line (keygen_line "user" "ed25519") (script_content packages "user" "ed25519"))
  /\ (forall sub,
       Json.assoc "ssh_key" members = Some (JObj sub) ->
       exists ssh_user ssh_key_type,
         render_post_install_script env (JObj members)
         = Returned (script_content packages ssh_user ssh_key_type)
         /\ has_line (keygen_line ssh_user ssh_key_type)
              (script_content packages ssh_user ssh_key_type)
         /\ (Json.assoc "user" sub = None -> ssh_user = "user")
         /\ (Json.assoc "type" sub = None -> ssh_key_type = "ed25519")
         /\ (forall v, Json.assoc "user" sub = Some v -> ssh_user = py_str env v)
         /\ (forall v, Json.assoc "type" sub = Some v -> ssh_key_type = py_str env v))
  /\ (Json.assoc "packages" members = None ->
      packages = EmptyString
      /\ forall ssh_user ssh_key_type,
          has_line "apt-get install -y --no-install-recommends "
            (script_content packages ssh_user ssh_key_type)).
Proof.
  intros Hp. split; [| split].
  - intros Hk. split; [| apply script_has_keygen_line].
    apply (render_dict env members [] packages Hp).
    unfold field_or. now rewrite Hk.
  - intros sub Hk.
    exists (py_str env (field_or sub "user" (JStr "user"))),
      (py_str env (field_or sub "type" (JStr "ed25519"))).
    split. { apply (render_dict env members sub packages Hp). unfold field_or. now rewrite Hk. }
    split. { apply script_has_keygen_line. }
    unfold field_or.
    repeat split; intros; match goal with H : Json.assoc _ sub = _ |- _ => now rewrite H end.
  - intros Hn. unfold field_or in Hp. rewrite Hn, join_no_packages in Hp.
    injection Hp as <-. split; [reflexivity |].
    intros ssh_user ssh_key_type. apply (script_has_install_line EmptyString).
Qed.

Lemma omitted_fields_take_defaults_witness :
  (render_post_install_script (Example.tools 0 []) (JObj [("packages", JArr [JStr "curl"; JStr "vim"])])
   = Returned (script_content "curl vim" "user" "ed25519")
   /\ has_line (keygen_line "user" "ed25519") (script_content "curl vim" "user" "ed25519"))
  /\ (exists ssh_user ssh_key_type,
        render_post_install_script (Example.tools 0 [])
          (JObj [("ssh_key", JObj [("type", JStr "rsa")])])
        = Returned (script_content EmptyString ssh_user ssh_key_type)
        /\ ssh_user = "user" /\ ssh_key_type = "rsa")
  /\ (render_post_install_script (Example.tools 0 []) (JObj [])
      = Returned (script_content EmptyString "user" "ed25519")).
Proof.
  split; [| split].
  - apply (omitted_fields_take_defaults (Example.tools 0 [])
             [("packages", JArr [JStr "curl"; JStr "vim"])] "curl vim"); reflexivity.
  - destruct (proj1 (proj2 (omitted_fields_take_defaults (Example.tools 0 [])
                              [("ssh_key", JObj [("type", JStr "rsa")])] EmptyString
                              eq_refl))
               [("type", JStr "rsa")] eq_refl)
      as (u & t & Hr & _ & Hu & _ & _ & Ht).
    exists u, t. split; [exact Hr |]. split; [apply Hu; reflexivity |].
    apply (Ht (JStr "rsa")). reflexivity.
  - apply (omitted_fields_take_defaults (Example.tools 0 []) [] EmptyString); reflexivity.
Defined.

(** C8. An empty package list, given or defaulted, still yields a script,
    and its install line is the install command with its two options and
    nothing after them: read as a command line it has exactly those four
    words, without a stray or empty argument. *)
Theorem empty_package_list_install_line (env : Env) (members : list (string * json)) :
  field_or members "packages" (JArr []) = JArr [] ->
  (exists sub, field_or members "ssh_key" (JObj []) = JObj sub) ->
  exists ssh_user ssh_key_type,
    render_post_install_script env (JObj members)
    = Returned (script_content EmptyString ssh_user ssh_key_type)
    /\ has_line (install_line EmptyString) (script_content EmptyString ssh_user ssh_key_type)
    /\ install_line EmptyString = "apt-get install -y --no-install-recommends "
    /\ shell_words (install_line EmptyString)
       = ["apt-get"; "install"; "-y"; "--no-install-recommends"].
Proof.
  intros Hp [sub Hk].
  exists (py_str env (field_or sub "user" (JStr "user"))),
    (py_str env (field_or sub "type" (JStr "ed25519"))).
  split. { apply render_dict; [rewrite Hp; apply join_no_packages | exact Hk]. }
  split. { apply script_has_install_line. }
  split; reflexivity.
Qed.

Lemma empty_package_list_install_line_witness :
  exists ssh_user ssh_key_type,
    render_post_install_script (Example.tools 0 [])
      (JObj [("packages", JArr []); ("ssh_key", JObj [("user", JStr "admin")])])
    = Returned (script_content EmptyString ssh_user ssh_key_type)
    /\ has_line (install_line EmptyString) (script_content EmptyString ssh_user ssh_key_type)
    /\ install_line EmptyString = "apt-get install -y --no-install-recommends "
    /\ shell_words (install_line EmptyString)
       = ["apt-get"; "install"; "-y"; "--no-install-recommends"].
Proof.
  apply (empty_package_list_install_line (Example.tools 0 [])
           [("packages", JArr []); ("ssh_key", JObj [("user", JStr "admin")])]).
  - reflexivity.
  - exists [("user", JStr "admin")]. reflexivity.
Defined.

(** C10. Whatever the configuration, a generated script creates the key
    pair in the file [/home/<user>/.ssh/id_rsa]: the line is
    [sudo -u <user> ssh-keygen -t <type> -f /home/<user>/.ssh/id_rsa -N ""],
    where only the [-t] argument follows the configured algorithm.  And a
    configuration naming an algorithm and a user does yield that script. *)
Theorem key_file_is_always_id_rsa (env : Env) :
  (forall (config : json) (script : string),
      render_post_install_script env config = Returned script ->
      exists members sub packages,
        config = JObj members
        /\ field_or members "ssh_key" (JObj []) = JObj sub
        /\ let ssh_user := py_str env (field_or sub "user" (JStr "user")) in
           let ssh_key_type := py_str env (field_or sub "type" (JStr "ed25519")) in
           script = script_content packages ssh_user ssh_key_type
           /\ has_line ("sudo -u " ++ ssh_user ++ " ssh-keygen -t " ++ ssh_key_type
                        ++ " -f /home/" ++ ssh_user ++ "/.ssh/id_rsa -N " ++ dq ++ dq)
                script)
  /\ (forall (members : list (string * json)) (packages algorithm user : string),
      Json.join " " (field_or members "packages" (JArr [])) = Returned packages ->
      Json.assoc "ssh_key" members
      = Some (JObj [("type", JStr algorithm); ("user", JStr user)]) ->
      render_post_install_script env (JObj members)
      = Returned (script_content packages user algorithm)
      /\ has_line ("sudo -u " ++ user ++ " ssh-keygen -t " ++ algorithm
                   ++ " -f /home/" ++ user ++ "/.ssh/id_rsa -N " ++ dq ++ dq)
           (script_content packages user algorithm)).
Proof.
  split.
  - intros config script H.
    destruct (render_inv env config script H) as (members & sub & packages & -> & _ & Hk & ->).
    exists members, sub, packages. split; [reflexivity |]. split; [exact Hk |].
    cbv zeta. split; [reflexivity |].
    rewrite keygen_line_spelled. apply script_has_keygen_line.
  - intros members packages algorithm user Hp Hk. split.
    + rewrite (render_dict env members [("type", JStr algorithm); ("user", JStr user)] packages Hp).
      * reflexivity.
      * unfold field_or. now rewrite Hk.
    + rewrite keygen_line_spelled. apply script_has_keygen_line.
Qed.

Lemma key_file_is_always_id_rsa_witness :
  (exists members sub packages,
Example.config_value = JObj members
      /\ field_or members "ssh_key" (JObj []) = JObj sub
      /\ script_content "curl vim" "admin" "rsa"
         = script_content packages
             (py_str (Example.tools 0 []) (field_or sub "user" (JStr "user")))
             (py_str (Example.tools 0 []) (field_or sub "type" (JStr "ed25519"))))
  /\ (render_post_install_script (Example.tools 0 [])
        (JObj [("ssh_key", JObj [("type", JStr "ed25519"); ("user", JStr "admin")])])
      = Returned (script_content EmptyString "admin" "ed25519")
      /\ has_line ("sudo -u admin ssh-keygen -t ed25519 -f /home/admin/.ssh/id_rsa -N "
                   ++ dq ++ dq)
           (script_content EmptyString "admin" "ed25519")).
Proof.
  split.
  - destruct (proj1 (key_file_is_always_id_rsa (Example.tools 0 []))
Example.config_value (script_content "curl vim" "admin" "rsa") eq_refl)
      as (members & sub & packages & Hc & Hk & Hs & _).
    exists members, sub, packages. auto.
  - apply (proj2 (key_file_is_always_id_rsa (Example.tools 0 []))
             [("ssh_key", JObj [("type", JStr "ed25519"); ("user", JStr "admin")])]
             EmptyString "ed25519" "admin"); reflexivity.
Defined.

(** ** The removable-device locator *)

Lemma eq_str_true (v : json) (s : string) : Json.eq_str v s = true <-> v = JStr s.
Proof.
  destruct v; cbn [Json.eq_str]; split; try discriminate.
  - intros H. apply String.eqb_eq in H. now subst.
  - intros [= ->]. apply String.eqb_refl.
Qed.

(** The condition of the comprehension holds exactly of the dicts whose
    [tran] is the string [usb] and whose [type] is the string [disk]. *)
Lemma is_usb_disk_true (dev : json) :
  is_usb_disk dev = Returned true <->
  exists members,
    dev = JObj members
    /\ Json.assoc "tran" members = Some (JStr "usb")
    /\ Json.assoc "type" members = Some (JStr "disk").
Proof.
  unfold is_usb_disk, Json.get. split.
  - destruct dev as [| | | | |items|members]; cbn [obind]; try discriminate.
    destruct (Json.assoc "tran" members) as [tran|] eqn:Ht; [| discriminate].
    destruct (Json.eq_str tran "usb") eqn:Eu; [| discriminate].
    apply eq_str_true in Eu. subst tran. cbn [obind].
    destruct (Json.assoc "type" members) as [type|] eqn:Hy; [| discriminate].
    intros [= Ed]. apply eq_str_true in Ed. subst type.
    exists members. auto.
  - intros (members & -> & Ht & Hy). cbn [obind]. rewrite Ht.
    replace (Json.eq_str (JStr "usb") "usb") with true by reflexivity.
    cbn [obind]. rewrite Hy. reflexivity.
Qed.

Section Locator.

Variable env : Env.

Lemma usb_drives_of_cons (dev : json) (rest : list json) (drives : list Drive.t) :
  usb_drives_of env (dev :: rest) = Returned drives ->
  (is_usb_disk dev = Returned false /\ usb_drives_of env rest = Returned drives)
  \/ (exists members d others,
        dev = JObj members
        /\ Json.assoc "tran" members = Some (JStr "usb")
        /\ Json.assoc "type" members = Some (JStr "disk")
        /\ describes env members d
        /\ usb_drives_of env rest = Returned others
        /\ drives = d :: others).
Proof.
  cbn [usb_drives_of]. destruct (is_usb_disk dev) as [[|]|e] eqn:Hc; cbn [obind].
  - apply is_usb_disk_true in Hc as (members & -> & Ht & Hy).
    unfold Json.item.
    destruct (Json.assoc "name" members) as [name|] eqn:Hn; [| discriminate].
    cbn [obind].
    destruct (Json.assoc "size" members) as [size|] eqn:Hs; [| discriminate].
    cbn [obind].
    destruct (usb_drives_of env rest) as [others|e]; [| discriminate].
    cbn [obind]. intros [= <-]. right.
    exists members, (Drive.make ("/dev/" ++ py_str env name) size), others.
    repeat split; try assumption. exists name. auto.
  - intros H. left. auto.
  - discriminate.
Qed.

(** Every descriptor returned stems from a USB whole disk of the list. *)
Lemma usb_drives_of_sound (devices : list json) :
  forall drives d,
    usb_drives_of env devices = Returned drives ->
    In d drives ->
    exists members,
      In (JObj members) devices
      /\ Json.assoc "tran" members = Some (JStr "usb")
      /\ Json.assoc "type" members = Some (JStr "disk")
      /\ describes env members d.
Proof.
  induction devices as [|dev rest IH]; intros drives d H Hin.
  - injection H as <-. destruct Hin.
  - apply usb_drives_of_cons in H
      as [[_ H] | (members & d0 & others & -> & Ht & Hy & Hd & H & ->)].
    + destruct (IH drives d H Hin) as (members & Hm & Hrest).
      exists members. split; [right; exact Hm | exact Hrest].
    + destruct Hin as [<- | Hin].
      * exists members. split; [left; reflexivity | auto].
      * destruct (IH others d H Hin) as (members' & Hm & Hrest).
        exists members'. split; [right; exact Hm | exact Hrest].
Qed.

(** Every USB whole disk of the list has its descriptor returned. *)
Lemma usb_drives_of_complete (devices : list json) :
  forall drives members,
    usb_drives_of env devices = Returned drives ->
    In (JObj members) devices ->
    Json.assoc "tran" members = Some (JStr "usb") ->
    Json.assoc "type" members = Some (JStr "disk") ->
    exists d, In d drives /\ describes env members d.
Proof.
  induction devices as [|dev rest IH]; intros drives members H Hin Ht Hy.
  - destruct Hin.
  - apply usb_drives_of_cons in H
      as [[Hc H] | (members0 & d0 & others & -> & Ht0 & Hy0 & Hd & H & ->)].
    + destruct Hin as [-> | Hin].
      * assert (is_usb_disk (JObj members) = Returned true) as Hc'
            by (apply is_usb_disk_true; eauto).
        congruence.
      * eauto.
    + destruct Hin as [[= ->] | Hin].
      * exists d0. split; [left; reflexivity | exact Hd].
      * destruct (IH others members H Hin Ht Hy) as (d & Hd' & Hdesc).
        exists d. split; [right; exact Hd' | exact Hdesc].
Qed.

(** On a list of dicts that all have a [name] and a [size], the
    comprehension raises nothing. *)
Lemma usb_drives_of_total (devices : list json) :
  Forall (fun dev => exists members name size,
              dev = JObj members
              /\ Json.assoc "name" members = Some name
              /\ Json.assoc "size" members = Some size) devices ->
  exists drives, usb_drives_of env devices = Returned drives.
Proof.
  induction 1 as [|dev rest (members & name & size & -> & Hn & Hs) _ [drives IH]].
  - exists []. reflexivity.
  - cbn [usb_drives_of]. unfold is_usb_disk, Json.get, Json.item. cbn [obind].
    destruct (Json.eq_str _ "usb"); cbn [obind].
    + destruct (Json.eq_str _ "disk"); rewrite ?Hn, ?Hs, IH; cbn [obind]; eauto.
    + eauto.
Qed.

(** What [_find_usb_drives] does, by the outcome of the enumeration. *)
Lemma find_usb_drives_unfold (w : World) :
  _find_usb_drives env w =
  match os_exec env (trace w) (fs w) lsblk_command with
  | NotFound => (Returned [], log (Run lsblk_command None) w)
  | Exited status stdout files =>
      let w' := log (Run lsblk_command (Some status)) (set_fs files w) in
      if (status =? 0)%Z then
        match json_loads env stdout with
        | None =>
            if enumeration_failure (json_error env stdout) then (Returned [], w')
            else (Raised (json_error env stdout), w')
        | Some parsed =>
            let r := obind (Json.get parsed "blockdevices" (JArr [])) (fun listing =>
                     obind (Json.iter listing) (usb_drives_of env)) in
            match r with
            | Returned drives => (Returned drives, w')
            | Raised e => if enumeration_failure e then (Returned [], w') else (Raised e, w')
            end
        end
      else (Returned [], w')
  | Garbled status => (Raised UnicodeDecodeError, log (Run lsblk_command (Some status)) w)
  end.
Proof.
  unfold _find_usb_drives, try_except, bind, run_text, lift, ret.
  destruct (os_exec env (trace w) (fs w) lsblk_command) as [|status stdout files|status];
    [reflexivity | | reflexivity].
  cbv zeta. destruct (status =? 0)%Z; [| reflexivity].
  destruct (json_loads env stdout) as [parsed|];
    [| destruct (enumeration_failure (json_error env stdout)); reflexivity].
  destruct (Json.get parsed "blockdevices" (JArr [])) as [listing|e]; cbn [obind];
    [| reflexivity].
  destruct (Json.iter listing) as [devices|e]; cbn [obind]; [| reflexivity].
  destruct (usb_drives_of env devices) as [drives|e]; reflexivity.
Qed.

End Locator.

(** C5. The locator tolerates three failures of the enumeration and lets
    two others through.  When the enumeration tool is missing, when it exits
    with a nonzero status, and when [json.loads] refuses what it printed
    with [JSONDecodeError], [_find_usb_drives] returns the empty list.  When
    what the tool printed is not text in the locale's encoding, the run in
    text mode raises [UnicodeDecodeError], whatever the exit status, and
    when [json.loads] refuses the text with a plain [ValueError] (an integer
    of too many digits), that error is raised: the [except] clause names
    neither, so both reach the caller. *)
Theorem enumeration_failures_caught_and_missed (env : Env) (w : World) :
  (os_exec env (trace w) (fs w) lsblk_command = NotFound ->
   exists w', _find_usb_drives env w = (Returned [], w'))
  /\ (forall status stdout files,
        os_exec env (trace w) (fs w) lsblk_command = Exited status stdout files ->
        status <> 0%Z ->
        exists w', _find_usb_drives env w = (Returned [], w'))
  /\ (forall stdout files,
        os_exec env (trace w) (fs w) lsblk_command = Exited 0 stdout files ->
        json_loads env stdout = None ->
        json_error env stdout = JSONDecodeError ->
        exists w', _find_usb_drives env w = (Returned [], w'))
  /\ (forall status,
        os_exec env (trace w) (fs w) lsblk_command = Garbled status ->
        _find_usb_drives env w
        = (Raised UnicodeDecodeError, log (Run lsblk_command (Some status)) w))
  /\ (forall stdout files,
        os_exec env (trace w) (fs w) lsblk_command = Exited 0 stdout files ->
        json_loads env stdout = None ->
        json_error env stdout = ValueError ->
        _find_usb_drives env w
        = (Raised ValueError, log (Run lsblk_command (Some 0%Z)) (set_fs files w))).
Proof.
  rewrite find_usb_drives_unfold. split; [| split; [| split; [| split]]].
  - intros ->. eauto.
  - intros status stdout files -> Hne. cbv zeta.
    destruct (Z.eqb_spec status 0) as [-> | _]; [congruence | eauto].
  - intros stdout files -> -> ->. cbv zeta. cbn. eauto.
  - intros status ->. reflexivity.
  - intros stdout files -> -> ->. reflexivity.
Qed.

Lemma enumeration_failures_caught_and_missed_witness :
  (exists w', _find_usb_drives (Example.broken_lsblk 0) (Example.start true [] [])
              = (Returned [], w'))
  /\ (exists w', _find_usb_drives (Example.broken_lsblk 1) (Example.start true [] [])
                 = (Returned [], w'))
  /\ (exists w', _find_usb_drives (Example.broken_lsblk 2) (Example.start true [] [])
                 = (Returned [], w'))
  /\ (_find_usb_drives (Example.garbled_lsblk 0) (Example.start true [] [])).1
     = Raised UnicodeDecodeError
  /\ (_find_usb_drives (Example.garbled_lsblk 1) (Example.start true [] [])).1
     = Raised UnicodeDecodeError
  /\ (_find_usb_drives Example.long_integer_lsblk (Example.start true [] [])).1
     = Raised ValueError.
Proof.
  split; [| split; [| split; [| split; [| split]]]].
  - apply (enumeration_failures_caught_and_missed
             (Example.broken_lsblk 0) (Example.start true [] [])).
    reflexivity.
  - apply (proj1 (proj2 (enumeration_failures_caught_and_missed
                           (Example.broken_lsblk 1) (Example.start true [] [])))
             32%Z EmptyString (fs (Example.start true [] []))).
    + reflexivity.
    + discriminate.
  - apply (proj1 (proj2 (proj2 (enumeration_failures_caught_and_missed
                                  (Example.broken_lsblk 2) (Example.start true [] []))))
             "lsblk: not a block device" (fs (Example.start true [] [])));
      reflexivity.
  - rewrite (proj1 (proj2 (proj2 (proj2 (enumeration_failures_caught_and_missed
                                           (Example.garbled_lsblk 0)
                                           (Example.start true [] [])))))
               0%Z eq_refl).
    reflexivity.
  - rewrite (proj1 (proj2 (proj2 (proj2 (enumeration_failures_caught_and_missed
                                           (Example.garbled_lsblk 1)
                                           (Example.start true [] [])))))
               1%Z eq_refl).
    reflexivity.
  - rewrite (proj2 (proj2 (proj2 (proj2 (enumeration_failures_caught_and_missed
                                           Example.long_integer_lsblk
                                           (Example.start true [] [])))))
               "{<an integer of 5000 digits>}" (fs (Example.start true [] []))
               eq_refl eq_refl eq_refl).
    reflexivity.
Defined.

(** C6. The locator returns descriptors of USB whole disks only, and of all
    of them: whenever it returns a list, each descriptor in it is built from
    a device of the enumerated list whose [tran] is [usb] and whose [type]
    is [disk], and each such device has its descriptor in the list; and it
    does return on every list of devices that have a name and a size.  On a
    list mixing a SATA disk, USB partitions and one USB whole disk it
    returns exactly the descriptor of that disk. *)
Theorem locator_returns_usb_whole_disks_only (env : Env) :
  (forall (w w' : World) (drives : list Drive.t),
      _find_usb_drives env w = (Returned drives, w') ->
      drives = []
      \/ exists stdout files parsed listing devices,
           os_exec env (trace w) (fs w) lsblk_command = Exited 0 stdout files
           /\ json_loads env stdout = Some parsed
           /\ Json.get parsed "blockdevices" (JArr []) = Returned listing
           /\ Json.iter listing = Returned devices
           /\ (forall d, In d drives ->
                 exists members,
                   In (JObj members) devices
                   /\ Json.assoc "tran" members = Some (JStr "usb")
                   /\ Json.assoc "type" members = Some (JStr "disk")
                   /\ describes env members d)
           /\ (forall members,
                 In (JObj members) devices ->
                 Json.assoc "tran" members = Some (JStr "usb") ->
                 Json.assoc "type" members = Some (JStr "disk") ->
                 exists d, In d drives /\ describes env members d))
  /\ (forall devices : list json,
        Forall (fun dev => exists members name size,
                    dev = JObj members
                    /\ Json.assoc "name" members = Some name
                    /\ Json.assoc "size" members = Some size) devices ->
        exists drives, usb_drives_of env devices = Returned drives)
  /\ usb_drives_of env Example.mixed_devices = Returned [Drive.make "/dev/sdb" (JStr "14.9G")]
  /\ (forall (w : World) (stdout : string) (files : gmap string string),
        os_exec env (trace w) (fs w) lsblk_command = Exited 0 stdout files ->
        json_loads env stdout = Some (JObj [("blockdevices", JArr Example.mixed_devices)]) ->
        exists w',
          _find_usb_drives env w = (Returned [Drive.make "/dev/sdb" (JStr "14.9G")], w')).
Proof.
  split; [| split; [| split]].
  - intros w w' drives. rewrite find_usb_drives_unfold.
    destruct (os_exec env (trace w) (fs w) lsblk_command)
      as [|status stdout files|status] eqn:He.
    { intros [= <- _]. now left. }
    2: { discriminate. }
    cbv zeta. destruct (Z.eqb_spec status 0) as [-> | Hne]; [| intros [= <- _]; now left].
    destruct (json_loads env stdout) as [parsed|] eqn:Hj.
    2: { destruct (enumeration_failure _); intros [= <- _] || discriminate; now left. }
    destruct (Json.get parsed "blockdevices" (JArr [])) as [listing|e] eqn:Hg; cbn [obind].
    2: { destruct (enumeration_failure e); intros [= <- _] || discriminate; now left. }
    destruct (Json.iter listing) as [devices|e] eqn:Hi; cbn [obind].
    2: { destruct (enumeration_failure e); intros [= <- _] || discriminate; now left. }
    destruct (usb_drives_of env devices) as [found|e] eqn:Hu.
    2: { destruct (enumeration_failure e); intros [= <- _] || discriminate; now left. }
    intros [= <- _]. right.
    exists stdout, files, parsed, listing, devices.
    split; [reflexivity |]. split; [exact Hj |]. split; [exact Hg |].
    split; [exact Hi |]. split.
    + intros d. apply usb_drives_of_sound. exact Hu.
    + intros members. apply usb_drives_of_complete. exact Hu.
  - apply usb_drives_of_total.
  - reflexivity.
  - intros w stdout files He Hj. rewrite find_usb_drives_unfold, He. cbv zeta.
    change (0 =? 0)%Z with true. cbv iota. rewrite Hj. eexists. reflexivity.
Qed.

Lemma locator_returns_usb_whole_disks_only_witness :
  exists w',
    _find_usb_drives (Example.tools 0 Example.mixed_devices) (Example.start true [] [])
    = (Returned [Drive.make "/dev/sdb" (JStr "14.9G")], w').
Proof.
  apply (proj2 (proj2 (proj2 (locator_returns_usb_whole_disks_only
                                (Example.tools 0 Example.mixed_devices))))
           (Example.start true [] []) Example.lsblk_text
           (fs (Example.start true [] []))); reflexivity.
Defined.

(** ** The media provisioner *)

Tactic Notation "io_reduce" :=
  cbn [fs trace confirms prompts fst snd negb is_CalledProcessError is_ValueError].

Tactic Notation "io_reduce" "in" hyp(H) :=
  cbn [fs trace confirms prompts fst snd negb is_CalledProcessError is_ValueError] in H.

Ltac io_unfold :=
  unfold bind, try_except, ret, raise, lift, print, exists_, read, write, copy, makedirs,
    chmod, confirm, prompt, run, run_text, log, set_fs.

Ltac split_exec :=
  match goal with
  | |- context [os_exec ?e ?t ?f ?c] =>
      let status := fresh "status" in
      destruct (os_exec e t f c) as [|status ? ?|status]; io_reduce;
      [| destruct (Z.eqb_spec status 0) as [-> | ?]; io_reduce
       | destruct (Z.eqb_spec status 0) as [-> | ?]; io_reduce]
  end.

Ltac flash_leaf :=
  eexists; split; [rewrite <- ?app_assoc; reflexivity |];
  split; [econstructor; solve [reflexivity | assumption] | reflexivity].

(** Every invocation of [_flash_usb_drive] is one of the runs of
    [flash_run], and appends exactly the events of that run. *)
Lemma flash_usb_drive_runs (env : Env) (device : string) (force : bool) (w : World) :
  exists new,
    trace (_flash_usb_drive env device force w).2 = (trace w ++ new)%list
    /\ flash_run device force (confirms w) (_flash_usb_drive env device force w).1 new
         (confirms (_flash_usb_drive env device force w).2)
    /\ prompts (_flash_usb_drive env device force w).2 = prompts w.
Proof.
  unfold _flash_usb_drive. io_unfold. io_reduce.
  split_exec; [flash_leaf | | | |];
    (destruct force; io_reduce;
     [| destruct (confirms w) as [|[|] pending] eqn:Hc; io_reduce;
        [flash_leaf | | flash_leaf]];
     (split_exec; [flash_leaf | | flash_leaf | | flash_leaf]);
     (split_exec; flash_leaf)).
Qed.

(** ** The flash offer *)

Lemma print_drives_run (env : Env) (usb_drives : list Drive.t) :
  forall (i : Z) (w : World),
    (print_drives env i usb_drives w).1 = Returned tt
    /\ trace (print_drives env i usb_drives w).2 = (trace w ++ drive_lines env i usb_drives)%list
    /\ fs (print_drives env i usb_drives w).2 = fs w
    /\ confirms (print_drives env i usb_drives w).2 = confirms w
    /\ prompts (print_drives env i usb_drives w).2 = prompts w.
Proof.
  induction usb_drives as [|drive rest IH]; intros i w.
  - cbn [print_drives drive_lines]. unfold ret. io_reduce. now rewrite app_nil_r.
  - cbn [print_drives drive_lines]. unfold bind, print.
    specialize (IH (i + 1)%Z (log (Print (drive_line env i drive)) w)).
    destruct (print_drives env (i + 1) rest (log (Print (drive_line env i drive)) w))
      as [r w'].
    unfold log in IH. io_reduce in IH. destruct IH as (-> & Ht & Hf & Hc & Hp).
    io_reduce. rewrite <- app_assoc in Ht. auto.
Qed.

Ltac trace_eq :=
  io_reduce; cbn [after_flash app]; rewrite <- ?app_assoc; cbn [app];
  rewrite ?app_nil_r; reflexivity.

Ltac trace_ex := io_reduce; rewrite <- ?app_assoc; reflexivity.

Ltac with_flash Hrun :=
  match goal with
  | |- context [_flash_usb_drive ?e ?d ?f ?w1] =>
      let fnew := fresh "fnew" in
      let Ht := fresh "Ht" in
      let r := fresh "r" in
      let w2 := fresh "w2" in
      destruct (flash_usb_drive_runs e d f w1) as (fnew & Ht & Hrun & _);
      destruct (_flash_usb_drive e d f w1) as [r w2];
      io_reduce in Ht; io_reduce in Hrun
  end.

(** Every run of the flash offer is one of the runs of [offer_run]. *)
Lemma offer_flash_runs (env : Env) (usb_drives : list Drive.t) (w : World) :
  exists new,
    trace (offer_flash env usb_drives w).2 = (trace w ++ new)%list
    /\ offer_run env usb_drives (confirms w) (offer_flash env usb_drives w).1 new
         (confirms (offer_flash env usb_drives w).2).
Proof.
  destruct usb_drives as [|d1 [|d2 rest]].
  - exists []. cbn [offer_flash]. unfold ret. io_reduce.
    split; [now rewrite app_nil_r | constructor].
  - cbn [offer_flash]. cbv zeta. io_unfold. io_reduce.
    destruct (confirms w) as [|[|] pending] eqn:Hc; io_reduce.
    + eexists. split; [trace_ex | constructor].
    + with_flash Hrun.
      exists ([Print (detected_message env d1);
               Confirm (flash_to_question (Drive.name d1)) true]
              ++ fnew ++ after_flash r (Drive.name d1))%list.
      destruct r as [[]|e]; io_reduce; (split; [rewrite Ht; trace_eq |]);
        apply offer_single_flash; exact Hrun.
    + eexists. split; [trace_ex | constructor].
  - set (usb_drives := d1 :: d2 :: rest).
    assert (Hshape : offer_flash env usb_drives
                     = offer_flash env (d1 :: d2 :: rest)) by reflexivity.
    rewrite Hshape. cbn [offer_flash]. fold usb_drives. clear Hshape.
    io_unfold. io_reduce.
    destruct (print_drives_run env usb_drives 0
                {| fs := fs w; trace := trace w ++ [Print available_message];
                   confirms := confirms w; prompts := prompts w |})
      as (Hr & Ht & _ & Hc & Hp).
    destruct (print_drives env 0 usb_drives _) as [r1 [f1 t1 c1 p1]].
    io_reduce in Hr. io_reduce in Ht. io_reduce in Hc. io_reduce in Hp. subst r1 c1 p1.
    rewrite <- app_assoc in Ht.
    change ([Print available_message] ++ drive_lines env 0 usb_drives)%list
      with (listing env usb_drives) in Ht.
    io_reduce. destruct (confirms w) as [|[|] pending]; io_reduce.
    + exists (listing env usb_drives). split; [exact Ht | constructor].
    + destruct (prompts w) as [|reply more]; io_reduce.
      { exists (listing env usb_drives ++ [Confirm flash_any_question true])%list.
        split; [rewrite Ht; trace_eq | constructor]. }
      destruct (py_int env reply) as [number|] eqn:Hn; io_reduce.
      2: { exists (listing env usb_drives
                   ++ [Confirm flash_any_question true; Prompt number_prompt reply;
                       Print invalid_input_message])%list.
           split; [rewrite Ht; trace_eq | now constructor]. }
      destruct (Z.leb_spec 0 (number - 1)) as [Hlo | Hlo]; cbn [andb].
      2: { exists (listing env usb_drives
                   ++ [Confirm flash_any_question true; Prompt number_prompt reply;
                       Print invalid_selection_message])%list.
           split; [rewrite Ht; trace_eq |].
           apply (offer_multi_invalid_selection env d1 d2 rest pending reply number Hn).
           left. exact Hlo. }
      destruct (Z.ltb_spec (number - 1) (Z.of_nat (length usb_drives))) as [Hhi | Hhi].
      2: { exists (listing env usb_drives
                   ++ [Confirm flash_any_question true; Prompt number_prompt reply;
                       Print invalid_selection_message])%list.
           split; [rewrite Ht; trace_eq |].
           apply (offer_multi_invalid_selection env d1 d2 rest pending reply number Hn).
           right. exact Hhi. }
      destruct (usb_drives !! Z.to_nat (number - 1)) as [drive|] eqn:Hd.
      2: { apply lookup_ge_None in Hd. lia. }
      with_flash Hrun.
      exists (listing env usb_drives
              ++ [Confirm flash_any_question true; Prompt number_prompt reply]
              ++ fnew ++ after_flash r (Drive.name drive))%list.
      destruct r as [[]|e]; io_reduce.
      * split; [rewrite Ht0, Ht; trace_eq |].
        apply (offer_multi_flash env d1 d2 rest pending reply number drive _ _ _ Hn Hlo Hd Hrun).
      * destruct e; try (now inversion Hrun); io_reduce;
          (split; [rewrite Ht0, Ht; trace_eq |]);
          apply (offer_multi_flash env d1 d2 rest pending reply number drive _ _ _ Hn Hlo Hd Hrun).
    + exists (listing env usb_drives ++ [Confirm flash_any_question false])%list.
      split; [rewrite Ht; trace_eq | constructor].
Qed.

(** ** Reading traces: composition *)

Section TraceFacts.

Variable auth : event -> bool.

Lemma guarded_authorised (tr : list event) : guarded auth true tr = true.
Proof.
  induction tr as [|e tr IH]; [reflexivity |].
  cbn [guarded]. destruct (is_write e); cbn [andb orb]; exact IH.
Qed.

Lemma guarded_mono (tr : list event) (ok : bool) :
  guarded auth false tr = true -> guarded auth ok tr = true.
Proof.
  destruct ok; [intros _; apply guarded_authorised | trivial].
Qed.

Lemma guarded_app (l1 l2 : list event) :
  forall ok,
    guarded auth ok l1 = true ->
    guarded auth false l2 = true ->
    guarded auth ok (l1 ++ l2) = true.
Proof.
  induction l1 as [|e l1 IH]; intros ok H1 H2.
  - apply guarded_mono. exact H2.
  - cbn [app guarded] in *. destruct (is_write e).
    + apply andb_true_iff in H1 as [-> H1]. cbn [andb]. now apply IH.
    + now apply IH.
Qed.

Lemma guarded_no_write (tr : list event) :
  forall ok, write_count tr = 0%nat -> guarded auth ok tr = true.
Proof.
  induction tr as [|e tr IH]; intros ok H; [reflexivity |].
  cbn [guarded write_count] in *. destruct (is_write e); [discriminate H |].
  now apply IH.
Qed.

(** Without an authorising event, a guarded trace has no write. *)
Lemma guarded_unauthorised (tr : list event) :
  guarded auth false tr = true ->
  existsb auth tr = false ->
  write_count tr = 0%nat.
Proof.
  induction tr as [|e tr IH]; intros Hg Ha; [reflexivity |].
  cbn [guarded write_count existsb] in *.
  apply orb_false_iff in Ha as [Ha1 Ha2].
  destruct (is_write e); [discriminate Hg |].
  rewrite Ha1 in Hg. now apply IH.
Qed.

End TraceFacts.

Lemma guarded_weaken (auth auth' : event -> bool) (tr : list event) :
  (forall e, auth e = true -> auth' e = true) ->
  forall ok, guarded auth ok tr = true -> guarded auth' ok tr = true.
Proof.
  intros Hsub. induction tr as [|e tr IH]; intros ok H; [reflexivity |].
  cbn [guarded] in *. destruct (is_write e).
  - apply andb_true_iff in H as [-> H]. cbn [andb]. now apply IH.
  - destruct ok; cbn [orb] in *; [apply guarded_authorised |].
    destruct (auth e) eqn:Ha.
    + rewrite (Hsub e Ha). apply guarded_authorised.
    + apply guarded_mono. now apply IH.
Qed.

Lemma answers_app (l1 l2 : list event) : answers (l1 ++ l2) = (answers l1 ++ answers l2)%list.
Proof.
  induction l1 as [|e l1 IH]; [reflexivity |].
  destruct e; cbn [app answers]; rewrite IH; reflexivity.
Qed.

Lemma write_count_app (l1 l2 : list event) :
  write_count (l1 ++ l2) = (write_count l1 + write_count l2)%nat.
Proof.
  induction l1 as [|e l1 IH]; [reflexivity |].
  cbn [app write_count]. rewrite IH. lia.
Qed.

Lemma silent_no_write (l : list event) : forallb silent l = true -> write_count l = 0%nat.
Proof.
  induction l as [|e l IH]; [reflexivity |].
  cbn [forallb write_count]. intros [He Hl]%andb_true_iff. rewrite (IH Hl).
  destruct e as [| [|tool [|sub argv]] status | | | | | |]; try reflexivity.
  cbn [silent is_write] in *. destruct (String.eqb tool "sudo"); [discriminate He | reflexivity].
Qed.

Lemma silent_no_answer (l : list event) : forallb silent l = true -> answers l = [].
Proof.
  induction l as [|e l IH]; [reflexivity |].
  cbn [forallb]. intros [He Hl]%andb_true_iff.
  destruct e; cbn [answers]; try (now apply IH). discriminate He.
Qed.

Lemma silent_no_eject_failure (l : list event) :
  forallb silent l = true -> existsb is_eject_failure l = false.
Proof.
  induction l as [|e l IH]; [reflexivity |].
  cbn [forallb existsb]. intros [He Hl]%andb_true_iff. rewrite (IH Hl), orb_false_r.
  destruct e as [| [|tool [|sub argv]] [status|] | | | | | |]; try reflexivity.
  cbn [silent is_eject_failure] in *.
  destruct (String.eqb tool "sudo"); [discriminate He | reflexivity].
Qed.

Lemma silent_no_completion (l : list event) :
  forallb silent l = true -> existsb announces_completion l = false.
Proof.
  induction l as [|e l IH]; [reflexivity |].
  cbn [forallb existsb]. intros [He Hl]%andb_true_iff. rewrite (IH Hl), orb_false_r.
  destruct e; try reflexivity.
  cbn [silent announces_completion] in *. now apply negb_true_iff in He.
Qed.

Lemma drive_lines_silent (env : Env) (usb_drives : list Drive.t) :
  forall i, forallb silent (drive_lines env i usb_drives) = true.
Proof.
  induction usb_drives as [|drive rest IH]; intros i; [reflexivity |].
  cbn [drive_lines forallb]. rewrite IH, andb_true_r. reflexivity.
Qed.

Lemma listing_silent (env : Env) (usb_drives : list Drive.t) :
  forallb silent (listing env usb_drives) = true.
Proof.
  unfold listing. cbn [forallb]. rewrite drive_lines_silent. reflexivity.
Qed.

(** ** Properties of the runs *)

Section FlashRuns.

Variables (device : string) (force : bool).
Variables (pending left : list bool) (r : outcome unit) (new : list event).
Hypothesis Hrun : flash_run device force pending r new left.

(** A write of the invocation comes after the operator's yes to
    [sure_question], unless the bypass flag was passed. *)
Lemma flash_run_guarded : guarded (is_yes sure_question) force new = true.
Proof.
  destruct Hrun; try (destruct force; reflexivity || discriminate).
Qed.

Lemma flash_run_write_count : (write_count new <= 1)%nat.
Proof.
  destruct Hrun; destruct force; cbn; lia.
Qed.

(** The answers consumed are those the trace shows. *)
Lemma flash_run_answers : pending = (answers new ++ left)%list.
Proof.
  destruct Hrun; try reflexivity;
    destruct force; unfold gate_passed in *; subst; reflexivity || discriminate.
Qed.

(** The closing message of [create] is not one of the provisioner's. *)
Lemma flash_run_no_completion : existsb announces_completion new = false.
Proof.
  destruct Hrun; destruct force; reflexivity.
Qed.

(** A failed ejection: the write had succeeded and was reported, and the
    invocation ends in [CalledProcessError] without reporting an
    ejection. *)
Lemma flash_run_eject_failure :
  existsb is_eject_failure new = true ->
  r = Raised CalledProcessError
  /\ existsb is_write_success new = true
  /\ In (Print (flashed_message device)) new
  /\ existsb (prints (ejected_message device)) new = false.
Proof.
  destruct Hrun; destruct force; intros Hx; try discriminate Hx;
    (split; [reflexivity |]); (split; [reflexivity |]);
    (split; [cbn [unmounted gate_events app In]; tauto | reflexivity]).
Qed.

(** A run that returns has written, ejected and reported both. *)
Lemma flash_run_returned :
  r = Returned tt ->
  existsb is_write_success new = true
  /\ existsb is_eject_failure new = false
  /\ In (Print (ejected_message device)) new.
Proof.
  destruct Hrun; try discriminate; destruct force; intros _;
    (split; [reflexivity |]); (split; [reflexivity |]);
    cbn [unmounted gate_events app In]; tauto.
Qed.

(** A declined confirmation: nothing is written. *)
Lemma flash_run_declined :
  force = false ->
  (exists rest, pending = false :: rest) ->
  write_count new = 0%nat
  /\ (r = Raised (Exit 0) \/ r = Raised FileNotFoundError).
Proof.
  intros -> [rest ->].
  inversion Hrun; subst; unfold gate_passed in *; try discriminate;
    (split; [reflexivity | tauto]).
Qed.

End FlashRuns.

Lemma after_flash_quiet (r : outcome unit) (selected_drive : string) :
  write_count (after_flash r selected_drive) = 0%nat
  /\ answers (after_flash r selected_drive) = []
  /\ existsb is_eject_failure (after_flash r selected_drive) = false
  /\ existsb is_write_success (after_flash r selected_drive) = false
  /\ existsb announces_completion (after_flash r selected_drive) = false.
Proof. destruct r; repeat split; reflexivity. Qed.

Section OfferRuns.

Variables (env : Env) (usb_drives : list Drive.t).
Variables (pending left : list bool) (r : outcome unit) (new : list event).
Hypothesis Hrun : offer_run env usb_drives pending r new left.

(** A write of the offer comes after the operator's yes to the
    authorising question: the selection question when one drive was
    found, the confirmation inside [_flash_usb_drive] otherwise. *)
Lemma offer_run_guarded :
  guarded (is_yes (authorising_question usb_drives)) false new = true.
Proof.
  destruct Hrun as [ | | | only p r' fnew l Hf | d1 d2 rest | d1 d2 rest p | d1 d2 rest p
                     | d1 d2 rest p reply Hn | d1 d2 rest p reply n Hn Hout
                     | d1 d2 rest p reply n drive r' fnew l Hn Hlo Hd Hf ];
    try reflexivity.
  - cbn [authorising_question app guarded is_write is_yes orb].
    rewrite String.eqb_refl. apply guarded_authorised.
  - apply guarded_no_write, silent_no_write, listing_silent.
  - apply guarded_app; [apply guarded_no_write, silent_no_write, listing_silent | reflexivity].
  - apply guarded_app; [apply guarded_no_write, silent_no_write, listing_silent | reflexivity].
  - apply guarded_app; [apply guarded_no_write, silent_no_write, listing_silent | reflexivity].
  - apply guarded_app; [apply guarded_no_write, silent_no_write, listing_silent | reflexivity].
  - apply guarded_app; [apply guarded_no_write, silent_no_write, listing_silent |].
    apply guarded_app; [reflexivity |].
    apply guarded_app; [apply (flash_run_guarded _ _ _ _ _ _ Hf) |].
    apply guarded_no_write, after_flash_quiet.
Qed.

(** The answers consumed are those the trace shows. *)
Lemma offer_run_answers : pending = (answers new ++ left)%list.
Proof.
  destruct Hrun as [ | | | only p r' fnew l Hf | d1 d2 rest | d1 d2 rest p | d1 d2 rest p
                     | d1 d2 rest p reply Hn | d1 d2 rest p reply n Hn Hout
                     | d1 d2 rest p reply n drive r' fnew l Hn Hlo Hd Hf ];
    try reflexivity;
    rewrite ?answers_app, ?(silent_no_answer _ (listing_silent _ _)),
      ?(proj1 (proj2 (after_flash_quiet _ _))), ?app_nil_r;
    try reflexivity.
  - cbn [answers app]. f_equal. apply (flash_run_answers _ _ _ _ _ _ Hf).
  - cbn [answers app]. f_equal. apply (flash_run_answers _ _ _ _ _ _ Hf).
Qed.

Lemma offer_run_write_count : (write_count new <= 1)%nat.
Proof.
  destruct Hrun as [ | | | only p r' fnew l Hf | d1 d2 rest | d1 d2 rest p | d1 d2 rest p
                     | d1 d2 rest p reply Hn | d1 d2 rest p reply n Hn Hout
                     | d1 d2 rest p reply n drive r' fnew l Hn Hlo Hd Hf ];
    rewrite ?write_count_app, ?(silent_no_write _ (listing_silent _ _)),
      ?(proj1 (after_flash_quiet _ _));
    cbn [write_count is_write Nat.add]; try lia.
  - pose proof (flash_run_write_count _ _ _ _ _ _ Hf). lia.
  - pose proof (flash_run_write_count _ _ _ _ _ _ Hf). lia.
Qed.

(** The closing message of [create] is not printed by the offer. *)
Lemma offer_run_no_completion : existsb announces_completion new = false.
Proof.
  destruct Hrun as [ | | | only p r' fnew l Hf | d1 d2 rest | d1 d2 rest p | d1 d2 rest p
                     | d1 d2 rest p reply Hn | d1 d2 rest p reply n Hn Hout
                     | d1 d2 rest p reply n drive r' fnew l Hn Hlo Hd Hf ];
    rewrite ?existsb_app, ?(silent_no_completion _ (listing_silent _ _)),
      ?(proj2 (proj2 (proj2 (proj2 (after_flash_quiet _ _)))));
    try reflexivity.
  - rewrite (flash_run_no_completion _ _ _ _ _ _ Hf). reflexivity.
  - rewrite (flash_run_no_completion _ _ _ _ _ _ Hf). reflexivity.
Qed.

(** A failed ejection ends the offer in [CalledProcessError], after a
    successful write. *)
Lemma offer_run_eject_failure :
  existsb is_eject_failure new = true ->
  r = Raised CalledProcessError /\ existsb is_write_success new = true.
Proof.
  destruct Hrun as [ | | | only p r' fnew l Hf | d1 d2 rest | d1 d2 rest p | d1 d2 rest p
                     | d1 d2 rest p reply Hn | d1 d2 rest p reply n Hn Hout
                     | d1 d2 rest p reply n drive r' fnew l Hn Hlo Hd Hf ];
    rewrite ?existsb_app, ?(silent_no_eject_failure _ (listing_silent _ _)),
      ?(proj1 (proj2 (proj2 (after_flash_quiet _ _))));
    cbn [existsb is_eject_failure orb]; try discriminate.
  - rewrite orb_false_r. intros H.
    destruct (flash_run_eject_failure _ _ _ _ _ _ Hf H) as (-> & Hw & _).
    split; [reflexivity |]. rewrite Hw. reflexivity.
  - rewrite orb_false_r. intros H.
    destruct (flash_run_eject_failure _ _ _ _ _ _ Hf H) as (-> & Hw & _).
    split; [reflexivity |]. rewrite Hw. apply orb_true_r.
Qed.

End OfferRuns.

(** ** The build stages are quiet *)

Section Quiet.

Context {A B : Type}.

Lemma quiet_ret (a : A) : quiet (ret a).
Proof. intros w. exists []. unfold ret. io_reduce. now rewrite app_nil_r. Qed.

Lemma quiet_raise (e : exn) : quiet (@raise A e).
Proof. intros w. exists []. unfold raise. io_reduce. now rewrite app_nil_r. Qed.

Lemma quiet_lift (o : outcome A) : quiet (lift o).
Proof. intros w. exists []. unfold lift. io_reduce. now rewrite app_nil_r. Qed.

Lemma quiet_bind (m : M A) (k : A -> M B) :
  quiet m -> (forall a, quiet (k a)) -> quiet (bind m k).
Proof.
  intros Hm Hk w. unfold bind.
  destruct (Hm w) as (new1 & Ht1 & Hs1 & Hc1).
  destruct (m w) as [[a|e] w1]; io_reduce in Ht1; io_reduce in Hc1.
  - destruct (Hk a w1) as (new2 & Ht2 & Hs2 & Hc2).
    exists (new1 ++ new2)%list. rewrite Ht2, Ht1, Hc2, Hc1, forallb_app, Hs1, Hs2.
    now rewrite app_assoc.
  - exists new1. auto.
Qed.

Lemma quiet_try_except (m : M A) (handles : exn -> bool) (handler : M A) :
  quiet m -> quiet handler -> quiet (try_except m handles handler).
Proof.
  intros Hm Hh w. unfold try_except.
  destruct (Hm w) as (new1 & Ht1 & Hs1 & Hc1).
  destruct (m w) as [[a|e] w1]; io_reduce in Ht1; io_reduce in Hc1.
  - exists new1. auto.
  - destruct (handles e).
    + destruct (Hh w1) as (new2 & Ht2 & Hs2 & Hc2).
      exists (new1 ++ new2)%list. rewrite Ht2, Ht1, Hc2, Hc1, forallb_app, Hs1, Hs2.
      now rewrite app_assoc.
    + exists new1. auto.
Qed.

End Quiet.

Lemma quiet_print (text : string) :
  String.eqb text process_complete_message = false -> quiet (print text).
Proof.
  intros H w. exists [Print text]. unfold print, log. io_reduce.
  cbn [forallb silent]. rewrite H. auto.
Qed.

Lemma quiet_exists (path : string) : quiet (exists_ path).
Proof. intros w. exists []. unfold exists_. io_reduce. now rewrite app_nil_r. Qed.

Lemma quiet_read (path : string) : quiet (read path).
Proof.
  intros w. exists []. unfold read. destruct (fs w !! path); io_reduce; now rewrite app_nil_r.
Qed.

Lemma quiet_write (path content : string) : quiet (write path content).
Proof. intros w. exists [Write path content]. unfold write, log, set_fs. io_reduce. auto. Qed.

Lemma quiet_copy (env : Env) (src dst : string) : quiet (copy env src dst).
Proof.
  intros w. unfold copy, log, set_fs.
  destruct (fs w !! src); [destruct (os_copy env (trace w) (fs w) src dst) |]; io_reduce.
  - exists []. now rewrite app_nil_r.
  - exists [Copy src dst]. auto.
  - exists []. now rewrite app_nil_r.
Qed.

Lemma quiet_makedirs (path : string) : quiet (makedirs path).
Proof.
  intros w. unfold makedirs, log. destruct (fs w !! path); io_reduce.
  - exists []. now rewrite app_nil_r.
  - exists [Makedirs path]. auto.
Qed.

Lemma quiet_chmod (path : string) (mode : Z) : quiet (chmod path mode).
Proof.
  intros w. unfold chmod, log. destruct (fs w !! path); io_reduce.
  - exists [Chmod path mode]. auto.
  - exists []. now rewrite app_nil_r.
Qed.

Lemma quiet_run (env : Env) (argv : list string) :
  (forall status, silent (Run argv status) = true) -> quiet (run env argv).
Proof.
  intros H w. unfold run, log, set_fs.
  destruct (os_exec env (trace w) (fs w) argv) as [|status stdout files|status]; io_reduce.
  - exists [Run argv None]. cbn [forallb]. rewrite H. auto.
  - exists [Run argv (Some status)]. cbn [forallb]. rewrite H.
    destruct (status =? 0)%Z; io_reduce; auto.
  - exists [Run argv (Some status)]. cbn [forallb]. rewrite H.
    destruct (status =? 0)%Z; io_reduce; auto.
Qed.

Lemma quiet_run_text (env : Env) (argv : list string) :
  (forall status, silent (Run argv status) = true) -> quiet (run_text env argv).
Proof.
  intros H w. unfold run_text, log, set_fs.
  destruct (os_exec env (trace w) (fs w) argv) as [|status stdout files|status]; io_reduce.
  - exists [Run argv None]. cbn [forallb]. rewrite H. auto.
  - exists [Run argv (Some status)]. cbn [forallb]. rewrite H.
    destruct (status =? 0)%Z; io_reduce; auto.
  - exists [Run argv (Some status)]. cbn [forallb]. rewrite H. auto.
Qed.

Ltac quiet_step :=
  first
    [ apply quiet_bind; [| intros ?]
    | apply quiet_try_except
    | apply quiet_ret
    | apply quiet_raise
    | apply quiet_lift
    | apply quiet_print; reflexivity
    | apply quiet_exists
    | apply quiet_read
    | apply quiet_write
    | apply quiet_copy
    | apply quiet_makedirs
    | apply quiet_chmod
    | apply quiet_run; intros ?; reflexivity
    | apply quiet_run_text; intros ?; reflexivity
    | match goal with
      | |- quiet (if negb ?b then _ else _) => destruct b; cbn [negb]
      | |- quiet (if ?b then _ else _) => destruct b
      end ].

Lemma quiet_verify_prerequisites (env : Env) : quiet (_verify_prerequisites env).
Proof. unfold _verify_prerequisites. repeat quiet_step. Qed.

Lemma quiet_extract_iso (env : Env) : quiet (_extract_iso env).
Proof. unfold _extract_iso. repeat quiet_step. Qed.

Lemma quiet_create_preseed_config (env : Env) : quiet (_create_preseed_config env).
Proof. unfold _create_preseed_config. cbv zeta. repeat quiet_step. Qed.

Lemma quiet_generate_post_install_script (env : Env) :
  quiet (_generate_post_install_script env).
Proof. unfold _generate_post_install_script. repeat quiet_step. Qed.

Lemma quiet_update_bootloader_configs : quiet _update_bootloader_configs.
Proof. unfold _update_bootloader_configs. repeat quiet_step. Qed.

Lemma quiet_rebuild_iso (env : Env) : quiet (_rebuild_iso env).
Proof. unfold _rebuild_iso. repeat quiet_step. Qed.

Lemma quiet_find_usb_drives (env : Env) : quiet (_find_usb_drives env).
Proof. unfold _find_usb_drives. repeat quiet_step. Qed.

(** ** The runs of [create] *)

Lemma leads_to_bind {A : Type} (m : M A) (k : A -> M unit) (rest : list Drive.t -> M unit) :
  quiet m -> (forall a, leads_to (k a) rest) -> leads_to (bind m k) rest.
Proof.
  intros Hm Hk w. unfold bind.
  destruct (Hm w) as (new1 & Ht1 & Hs1 & Hc1).
  destruct (m w) as [[a|e] w1]; io_reduce in Ht1; io_reduce in Hc1.
  - destruct (Hk a w1) as (pre & w2 & Ht2 & Hs2 & Hc2 & H).
    exists (new1 ++ pre)%list, w2.
    rewrite Ht2, Ht1, Hc2, Hc1, forallb_app, Hs1, Hs2, app_assoc. auto.
  - exists new1, w1. eauto 6.
Qed.

Lemma leads_to_rest (m : M (list Drive.t)) (rest : list Drive.t -> M unit) :
  quiet m -> leads_to (bind m rest) rest.
Proof.
  intros Hm w. unfold bind.
  destruct (Hm w) as (new1 & Ht1 & Hs1 & Hc1).
  destruct (m w) as [[drives|e] w1]; io_reduce in Ht1; io_reduce in Hc1;
    exists new1, w1; eauto 7.
Qed.

Lemma create_leads_to (env : Env) :
  leads_to (create env)
    (fun usb_drives => offer_flash env usb_drives;;; print process_complete_message).
Proof.
  unfold create.
  repeat (apply leads_to_bind;
          [first [ apply quiet_print; reflexivity
                 | apply quiet_verify_prerequisites
                 | apply quiet_extract_iso
                 | apply quiet_create_preseed_config
                 | apply quiet_generate_post_install_script
                 | apply quiet_update_bootloader_configs
                 | apply quiet_rebuild_iso ]
          | intros _]).
  apply (leads_to_rest (_find_usb_drives env)). apply quiet_find_usb_drives.
Qed.

(** Every run of [create] is one of the runs of [create_run]. *)
Lemma create_runs (env : Env) (w : World) :
  exists new,
    trace (create env w).2 = (trace w ++ new)%list
    /\ create_run env (confirms w) (create env w).1 new (confirms (create env w).2).
Proof.
  destruct (create_leads_to env w) as (pre & w1 & Ht1 & Hs1 & Hc1 & [[e He] | [drives Hd]]).
  - rewrite He. io_reduce. exists pre. split; [exact Ht1 |].
    rewrite Hc1. now constructor.
  - rewrite Hd. unfold bind.
    destruct (offer_flash_runs env drives w1) as (new & Ht & Hrun).
    destruct (offer_flash env drives w1) as [r w2]. io_reduce in Ht. io_reduce in Hrun.
    rewrite Hc1 in Hrun.
    exists (pre ++ new ++ closing r)%list.
    destruct r as [[]|e]; unfold print, log; io_reduce; cbn [closing].
    + split; [rewrite Ht, Ht1; now rewrite <- !app_assoc |].
      apply (create_offered env _ pre drives (Returned tt) new _ Hs1 Hrun).
    + split; [rewrite Ht, Ht1, app_nil_r; now rewrite <- !app_assoc |].
      apply (create_offered env _ pre drives (Raised e) new _ Hs1 Hrun).
Qed.

(** ** The confirmation gate *)

Lemma is_yes_any (text : string) (e : event) : is_yes text e = true -> is_any_yes e = true.
Proof. destruct e as [| | asked [|] | | | | |]; cbn; trivial. Qed.

Lemma closing_quiet (r : outcome unit) :
  write_count (closing r) = 0%nat
  /\ answers (closing r) = []
  /\ existsb is_eject_failure (closing r) = false
  /\ existsb is_write_success (closing r) = false.
Proof. destruct r; repeat split; reflexivity. Qed.

(** A declined confirmation in a run of the provisioner: no write. *)
Lemma flash_run_any_declined
  (device : string) (force : bool) (pending left : list bool)
  (r : outcome unit) (new : list event) :
  flash_run device force pending r new left ->
  In false (answers new) -> write_count new = 0%nat.
Proof.
  intros Hrun. destruct Hrun; destruct force; cbn; intros Hin; try reflexivity;
    decompose [or] Hin; discriminate || contradiction.
Qed.

Lemma offer_run_any_declined
  (env : Env) (usb_drives : list Drive.t) (pending left : list bool)
  (r : outcome unit) (new : list event) :
  offer_run env usb_drives pending r new left ->
  In false (answers new) -> write_count new = 0%nat.
Proof.
  intros Hrun.
  destruct Hrun as [ | | | only p r' fnew l Hf | d1 d2 rest | d1 d2 rest p | d1 d2 rest p
                     | d1 d2 rest p reply Hn | d1 d2 rest p reply n Hn Hout
                     | d1 d2 rest p reply n drive r' fnew l Hn Hlo Hd Hf ];
    rewrite ?answers_app, ?write_count_app, ?(silent_no_answer _ (listing_silent _ _)),
      ?(silent_no_write _ (listing_silent _ _)), ?(proj1 (after_flash_quiet _ _)),
      ?(proj1 (proj2 (after_flash_quiet _ _))), ?app_nil_r;
    cbn [answers app write_count is_write Nat.add In]; intros H; try reflexivity.
  - destruct H as [H | H]; [discriminate H |].
    rewrite (flash_run_any_declined _ _ _ _ _ _ Hf H). reflexivity.
  - destruct H as [H | H]; [discriminate H |].
    rewrite (flash_run_any_declined _ _ _ _ _ _ Hf H). reflexivity.
Qed.

Section CreateRuns.

Variables (env : Env) (pending left : list bool) (r : outcome unit) (new : list event).
Hypothesis Hrun : create_run env pending r new left.

Lemma create_run_guarded : guarded is_any_yes false new = true.
Proof.
  destruct Hrun as [p e pre Hs | p pre drives r' onew l Hs Ho].
  - apply guarded_no_write, silent_no_write, Hs.
  - apply guarded_app; [apply guarded_no_write, silent_no_write, Hs |].
    apply guarded_app; [| apply guarded_no_write, closing_quiet].
    apply (guarded_weaken (is_yes (authorising_question drives))).
    + apply is_yes_any.
    + apply (offer_run_guarded _ _ _ _ _ _ Ho).
Qed.

Lemma create_run_write_count : (write_count new <= 1)%nat.
Proof.
  destruct Hrun as [p e pre Hs | p pre drives r' onew l Hs Ho].
  - rewrite (silent_no_write _ Hs). lia.
  - rewrite !write_count_app, (silent_no_write _ Hs), (proj1 (closing_quiet _)).
    pose proof (offer_run_write_count _ _ _ _ _ _ Ho). lia.
Qed.

Lemma create_run_any_declined : In false (answers new) -> write_count new = 0%nat.
Proof.
  destruct Hrun as [p e pre Hs | p pre drives r' onew l Hs Ho].
  - intros _. apply silent_no_write, Hs.
  - rewrite !answers_app, !write_count_app, (silent_no_answer _ Hs), (silent_no_write _ Hs),
      (proj1 (closing_quiet _)), (proj1 (proj2 (closing_quiet _))), app_nil_r.
    cbn [app]. intros H. rewrite (offer_run_any_declined _ _ _ _ _ _ Ho H). reflexivity.
Qed.

(** A failed ejection ends the command in [CalledProcessError], after a
    successful write and without the closing message. *)
Lemma create_run_eject_failure :
  existsb is_eject_failure new = true ->
  r = Raised CalledProcessError
  /\ existsb is_write_success new = true
  /\ existsb announces_completion new = false.
Proof.
  destruct Hrun as [p e pre Hs | p pre drives r' onew l Hs Ho].
  - rewrite (silent_no_eject_failure _ Hs). discriminate.
  - rewrite !existsb_app, (silent_no_eject_failure _ Hs),
      (proj1 (proj2 (proj2 (closing_quiet _)))), orb_false_r.
    cbn [orb]. intros H.
    destruct (offer_run_eject_failure _ _ _ _ _ _ Ho H) as [-> Hw].
    split; [reflexivity |].
    rewrite Hw, (silent_no_completion _ Hs), (offer_run_no_completion _ _ _ _ _ _ Ho).
    split; [apply orb_true_r | reflexivity].
Qed.

End CreateRuns.

(** C2. The raw device write is gated.
    - In every invocation of [_flash_usb_drive], a start of [dd] comes after
      the operator's yes to the confirmation of that invocation, unless the
      caller passed the bypass flag; and when the confirmation is declined
      the write tool is not started.
    - In the flash offer of [create], the bypass flag reaches the
      provisioner on the single-drive path only: with any other number of
      drives found every write comes after a yes to the confirmation inside
      [_flash_usb_drive]; with one drive it comes after a yes to the
      selection question.
    - In every run of [create], a write comes after some yes of the
      operator, there is at most one, and a run in which a confirmation is
      declined starts the write tool zero times. *)
Theorem write_is_gated_by_confirmation (env : Env) (w : World) :
  (forall (device : string) (force : bool),
      exists new,
        trace (_flash_usb_drive env device force w).2 = (trace w ++ new)%list
        /\ guarded (is_yes sure_question) force new = true
        /\ (In false (answers new) -> write_count new = 0%nat)
        /\ (force = false -> (exists rest, confirms w = false :: rest) ->
            write_count new = 0%nat))
  /\ (forall usb_drives : list Drive.t,
      exists new,
        trace (offer_flash env usb_drives w).2 = (trace w ++ new)%list
        /\ (length usb_drives <> 1%nat ->
            guarded (is_yes sure_question) false new = true)
        /\ (forall only, usb_drives = [only] ->
            guarded (is_yes (flash_to_question (Drive.name only))) false new = true)
        /\ (In false (answers new) -> write_count new = 0%nat))
  /\ (exists new,
        trace (create env w).2 = (trace w ++ new)%list
        /\ guarded is_any_yes false new = true
        /\ (write_count new <= 1)%nat
        /\ (In false (answers new) -> write_count new = 0%nat)).
Proof.
  split; [| split].
  - intros device force.
    destruct (flash_usb_drive_runs env device force w) as (new & Ht & Hrun & _).
    exists new. split; [exact Ht |].
    split; [apply (flash_run_guarded _ _ _ _ _ _ Hrun) |].
    split; [apply (flash_run_any_declined _ _ _ _ _ _ Hrun) |].
    intros Hf Hd. apply (flash_run_declined _ _ _ _ _ _ Hrun Hf Hd).
  - intros usb_drives.
    destruct (offer_flash_runs env usb_drives w) as (new & Ht & Hrun).
    exists new. split; [exact Ht |].
    pose proof (offer_run_guarded _ _ _ _ _ _ Hrun) as Hg.
    split; [| split].
    + intros Hlen. destruct usb_drives as [|d1 [|d2 rest]]; cbn in Hlen; try congruence;
        exact Hg.
    + intros only ->. exact Hg.
    + apply (offer_run_any_declined _ _ _ _ _ _ Hrun).
  - destruct (create_runs env w) as (new & Ht & Hrun).
    exists new. split; [exact Ht |].
    split; [apply (create_run_guarded _ _ _ _ _ Hrun) |].
    split; [apply (create_run_write_count _ _ _ _ _ Hrun) |].
    apply (create_run_any_declined _ _ _ _ _ Hrun).
Qed.

Lemma write_is_gated_by_confirmation_witness :
  exists new,
    trace (create (Example.tools 0 Example.two_sticks)
             (Example.start true [true; false] ["2"])).2 = new
    /\ guarded is_any_yes false new = true
    /\ write_count new = 0%nat.
Proof.
  destruct (proj2 (proj2 (write_is_gated_by_confirmation
                            (Example.tools 0 Example.two_sticks)
                            (Example.start true [true; false] ["2"]))))
    as (new & Ht & Hg & _ & Hd).
  exists new. split; [exact Ht |]. split; [exact Hg |].
  apply Hd. vm_compute in Ht. subst new. vm_compute. tauto.
Defined.

(** ** A failed ejection *)

(** C3, as the code has it.  When the ejection tool exits with a nonzero
    status, the write had succeeded and its success was printed, but the
    failure is fatal: [_flash_usb_drive] raises [CalledProcessError] and
    prints no ejection success, and [create] ends with that error, without
    its closing message. *)
Theorem eject_failure_is_fatal (env : Env) (w : World) :
  (forall (device : string) (force : bool),
      exists new,
        trace (_flash_usb_drive env device force w).2 = (trace w ++ new)%list
        /\ (existsb is_eject_failure new = true ->
            (_flash_usb_drive env device force w).1 = Raised CalledProcessError
            /\ existsb is_write_success new = true
            /\ In (Print (flashed_message device)) new
            /\ existsb (prints (ejected_message device)) new = false))
  /\ (exists new,
        trace (create env w).2 = (trace w ++ new)%list
        /\ (existsb is_eject_failure new = true ->
            (create env w).1 = Raised CalledProcessError
            /\ existsb is_write_success new = true
            /\ existsb announces_completion new = false)).
Proof.
  split.
  - intros device force.
    destruct (flash_usb_drive_runs env device force w) as (new & Ht & Hrun & _).
    exists new. split; [exact Ht |].
    apply (flash_run_eject_failure _ _ _ _ _ _ Hrun).
  - destruct (create_runs env w) as (new & Ht & Hrun).
    exists new. split; [exact Ht |].
    apply (create_run_eject_failure _ _ _ _ _ Hrun).
Qed.

Lemma eject_failure_is_fatal_witness :
  (create (Example.tools 1 Example.mixed_devices) (Example.start true [true] [])).1
  = Raised CalledProcessError
  /\ exists new,
       trace (create (Example.tools 1 Example.mixed_devices)
                (Example.start true [true] [])).2 = new
       /\ existsb is_write_success new = true
       /\ existsb announces_completion new = false.
Proof.
  destruct (proj2 (eject_failure_is_fatal (Example.tools 1 Example.mixed_devices)
                     (Example.start true [true] [])))
    as (new & Ht & H).
  assert (He : existsb is_eject_failure new = true).
  { vm_compute in Ht. subst new. vm_compute. reflexivity. }
  destruct (H He) as (Hr & Hw & Hc).
  split; [exact Hr |]. exists new. auto.
Defined.

(** C3 as it is claimed fails: with one USB stick found, the operator
    agreeing and every tool succeeding except [eject], which exits with
    status 1, the image is written, and then neither does the provisioner
    return nor does the command go on to its closing message. *)
Lemma eject_failure_not_recovered :
  let env := Example.tools 1 Example.mixed_devices in
  let w := Example.start true [true] [] in
  existsb is_write_success (trace (_flash_usb_drive env "/dev/sdb" true w).2) = true
  /\ existsb is_eject_failure (trace (_flash_usb_drive env "/dev/sdb" true w).2) = true
  /\ (_flash_usb_drive env "/dev/sdb" true w).1 <> Returned tt
  /\ existsb is_write_success (trace (create env w).2) = true
  /\ existsb is_eject_failure (trace (create env w).2) = true
  /\ (create env w).1 <> Returned tt
  /\ existsb announces_completion (trace (create env w).2) = false.
Proof.
  cbv zeta. repeat split; try (vm_compute; reflexivity); vm_compute; discriminate.
Qed.

(** ** The missing provisioning configuration *)

Lemma preseed_copy_is_not_config :
  path_join WORKSPACE_DIR PRESEED_FILENAME <> POST_INSTALL_CONFIG.
Proof. vm_compute. discriminate. Qed.

(** The generator on a world without the configuration: the error message,
    exit code 1, and nothing else. *)
Lemma generate_without_config (env : Env) (w : World) :
  fs w !! POST_INSTALL_CONFIG = None ->
  _generate_post_install_script env w
  = (Raised (Exit 1), log (Print config_not_found_message) w).
Proof.
  intros H. unfold _generate_post_install_script, bind, exists_, print, raise.
  rewrite H. reflexivity.
Qed.

(** C4. Without the provisioning configuration file (and with tools that do
    not create it), [create] aborts and the bootloader patcher never runs:
    neither boot menu is written and the patcher's success is not printed.
    The generator itself prints the error naming the configuration path,
    leaves the file system as it is and exits with code 1; so when the
    earlier stages have passed, that error is the last thing [create] does. *)
Theorem missing_config_aborts_before_patching (env : Env) (w : World) :
  fs w !! POST_INSTALL_CONFIG = None ->
  (forall history files argv status stdout files',
      os_exec env history files argv = Exited status stdout files' ->
      files !! POST_INSTALL_CONFIG = None ->
      files' !! POST_INSTALL_CONFIG = None) ->
  (_generate_post_install_script env w
   = (Raised (Exit 1), log (Print config_not_found_message) w)
   /\ config_not_found_message
      = "[bold red]Error:[/bold red] Post-install config not found at [yellow]'"
        ++ POST_INSTALL_CONFIG ++ "'[/yellow].")
  /\ exists e new,
       (create env w).1 = Raised e
       /\ trace (create env w).2 = (trace w ++ new)%list
       /\ existsb (writes_to isolinux_cfg_path) new = false
       /\ existsb (writes_to grub_cfg_path) new = false
       /\ existsb (prints bootloader_success_message) new = false
       /\ (existsb (prints preseed_success_message) new = true ->
           e = Exit 1 /\ last new = Some (Print config_not_found_message)).
Proof.
  intros Habsent Hframe.
  split; [split; [apply generate_without_config, Habsent | reflexivity] |].
  unfold create, _verify_prerequisites, _extract_iso, _create_preseed_config.
  cbv zeta. io_unfold. io_reduce.
  destruct (which env "xorriso"); io_reduce.
  2: { eexists _, _. split; [reflexivity |]. split; [trace_ex |].
       repeat split; try reflexivity; discriminate. }
  destruct (fs w !! WORKSPACE_DIR) eqn:Hdir; io_reduce.
  { eexists _, _. split; [reflexivity |]. split; [trace_ex |].
    repeat split; try reflexivity; discriminate. }
  match goal with
  | |- context [os_exec env ?h ?f ?c] =>
      destruct (os_exec env h f c) as [|status stdout files|status] eqn:Hexec;
      [| pose proof (Hframe _ _ _ _ _ _ Hexec Habsent) as Hfiles
       | pose proof Habsent as Hfiles]
  end; io_reduce.
  { eexists _, _. split; [reflexivity |]. split; [trace_ex |].
    repeat split; try reflexivity; discriminate. }
  all: destruct (status =? 0)%Z; io_reduce.
  2, 4: eexists _, _; (split; [reflexivity |]); (split; [trace_ex |]);
    repeat split; try reflexivity; discriminate.
  all: match goal with
       | |- context [?f !! PRESEED_FILENAME] =>
           destruct (f !! PRESEED_FILENAME) as [answers_text|] eqn:Hpre
       end; io_reduce.
  2, 4: eexists _, _; (split; [reflexivity |]); (split; [trace_ex |]);
    repeat split; try reflexivity; discriminate.
  all: rewrite Hpre; io_reduce.
  all: match goal with
       | |- context [os_copy ?e ?t ?f ?src ?dst] => destruct (os_copy e t f src dst)
       end; io_reduce.
  1, 3: eexists _, _; (split; [reflexivity |]); (split; [trace_ex |]);
    repeat split; try reflexivity; discriminate.
  all: rewrite generate_without_config
    by (io_reduce; rewrite lookup_insert_ne by apply preseed_copy_is_not_config;
        exact Hfiles).
  all: unfold log; io_reduce.
  all: eexists _, _; (split; [reflexivity |]); (split; [trace_ex |]);
    repeat split; reflexivity.
Qed.

Lemma missing_config_aborts_before_patching_witness :
  exists new,
    (create Example.inert (Example.start false [] [])).1 = Raised (Exit 1)
    /\ trace (create Example.inert (Example.start false [] [])).2 = new
    /\ existsb (writes_to isolinux_cfg_path) new = false
    /\ existsb (writes_to grub_cfg_path) new = false
    /\ last new = Some (Print config_not_found_message).
Proof.
  destruct (proj2 (missing_config_aborts_before_patching Example.inert
                     (Example.start false [] []) eq_refl
                     ltac:(intros history files argv status stdout files' [= _ _ <-] H;
                           exact H)))
    as (e & new & Hr & Ht & Hi & Hg & _ & Hlast).
  assert (Hp : existsb (prints preseed_success_message) new = true).
  { vm_compute in Ht. subst new. vm_compute. reflexivity. }
  destruct (Hlast Hp) as [-> Hl].
  exists new. auto.
Defined.

(** ** The scenarios of the specification, run *)

(** Two USB whole disks, an out-of-range number: invalid selection, no
    write, and the command completes. *)
Example two_disks_out_of_range :
  let run := create (Example.tools 0 Example.two_sticks)
               (Example.start true [true] ["3"]) in
  run.1 = Returned tt
  /\ existsb (prints invalid_selection_message) (trace run.2) = true
  /\ write_count (trace run.2) = 0%nat
  /\ existsb announces_completion (trace run.2) = true.
Proof. vm_compute. auto. Qed.

(** The configuration of the scenario: the install line lists exactly
    [curl vim], the key is generated for [admin] with type [rsa]. *)
Example scenario_script :
  render_post_install_script (Example.tools 0 []) Example.config_value
  = Returned (script_content "curl vim" "admin" "rsa")
  /\ has_line "apt-get install -y --no-install-recommends curl vim"
       (script_content "curl vim" "admin" "rsa").
Proof. split; [reflexivity | apply (script_has_install_line "curl vim")]. Qed.

(** * Further properties of the code *)

(** ** The order of the stages *)

Lemma milestones_app (l1 l2 : list event) :
  milestones (l1 ++ l2) = (milestones l1 ++ milestones l2)%list.
Proof.
  induction l1 as [|e l1 IH]; [reflexivity |].
  cbn [app milestones]. destruct (milestone e); rewrite IH; reflexivity.
Qed.

Lemma stage_bind {A B : Type} (a b lo c : nat) (m : M A) (k : A -> M B) :
  (b <= c)%nat ->
  stage a b b m -> (forall x, stage b lo c (k x)) -> stage a lo c (bind m k).
Proof.
  intros Hbc Hm Hk w. unfold bind.
  destruct (Hm w) as (new1 & n1 & Ht1 & Hn1 & Hm1 & Hr1).
  destruct (m w) as [[x|e] w1]; io_reduce in Ht1; io_reduce in Hr1.
  - pose proof (Hr1 x eq_refl) as Hb.
    destruct (Hk x w1) as (new2 & n2 & Ht2 & Hn2 & Hm2 & Hr2).
    exists (new1 ++ new2)%list, n2.
    split; [rewrite Ht2, Ht1; now rewrite app_assoc |].
    split; [lia |]. split; [| exact Hr2].
    rewrite milestones_app, Hm1, Hm2.
    replace (n2 - a)%nat with ((n1 - a) + (n2 - b))%nat by lia.
    rewrite seq_app. repeat f_equal; lia.
  - exists new1, n1. io_reduce. split; [exact Ht1 |]. split; [lia |].
    split; [exact Hm1 | discriminate].
Qed.

(** A continuation that reaches no milestone. *)
Lemma stage_then {A B : Type} (a lo b : nat) (m : M A) (k : A -> M B) :
  stage a lo b m -> (forall x n, stage n n n (k x)) -> stage a lo b (bind m k).
Proof.
  intros Hm Hk w. unfold bind.
  destruct (Hm w) as (new1 & n1 & Ht1 & Hn1 & Hm1 & Hr1).
  destruct (m w) as [[x|e] w1]; io_reduce in Ht1; io_reduce in Hr1.
  - destruct (Hk x n1 w1) as (new2 & n2 & Ht2 & Hn2 & Hm2 & _).
    exists (new1 ++ new2)%list, n1.
    split; [rewrite Ht2, Ht1; now rewrite app_assoc |].
    split; [lia |]. split; [| intros _ _; exact (Hr1 x eq_refl)].
    rewrite milestones_app, Hm1, Hm2.
    replace (n2 - n1)%nat with 0%nat by lia. cbn [seq]. now rewrite app_nil_r.
  - exists new1, n1. io_reduce. split; [exact Ht1 |]. split; [lia |].
    split; [exact Hm1 | discriminate].
Qed.

Ltac stage_leaf k :=
  eexists _, k; split; [trace_ex |]; split; [lia |]; split; [reflexivity |];
  let Hx := fresh "Hx" in intros ? Hx; first [discriminate Hx | lia].

Lemma stage_print (n : nat) (text : string) : stage n n n (print text).
Proof.
  intros w. exists [Print text], n. unfold print, log. io_reduce.
  split; [reflexivity |]. split; [lia |]. split; [| intros; lia].
  replace (n - n)%nat with 0%nat by lia. reflexivity.
Qed.

Lemma stage_verify_prerequisites (env : Env) : stage 0 0 0 (_verify_prerequisites env).
Proof.
  intros w. unfold _verify_prerequisites. io_unfold.
  destruct (which env "xorriso"); io_reduce.
  - exists [], 0%nat. rewrite app_nil_r. repeat split; intros; lia.
  - stage_leaf 0%nat.
Qed.

Lemma milestone_extract (status : option Z) :
  milestone (Run extract_command status) = if exited_zero status then Some 1%nat else None.
Proof. reflexivity. Qed.

Lemma milestone_rebuild (status : option Z) :
  milestone (Run rebuild_command status) = if exited_zero status then Some 6%nat else None.
Proof. reflexivity. Qed.

Lemma exited_nonzero (status : Z) : status <> 0%Z -> exited_zero (Some status) = false.
Proof. intros H. cbn [exited_zero]. now apply Z.eqb_neq. Qed.

Lemma stage_extract_iso (env : Env) : stage 0 1 1 (_extract_iso env).
Proof.
  intros w. unfold _extract_iso. io_unfold. io_reduce.
  destruct (fs w !! WORKSPACE_DIR); io_reduce.
  { exists [], 0%nat. rewrite app_nil_r. repeat split; try lia. discriminate. }
  split_exec; [stage_leaf 0%nat | stage_leaf 1%nat | | stage_leaf 1%nat |];
    (eexists _, 0%nat; split; [trace_ex |]; split; [lia |]; split; [| discriminate];
     cbn [app milestones]; rewrite milestone_extract, exited_nonzero by assumption;
     reflexivity).
Qed.

Lemma stage_create_preseed_config (env : Env) : stage 1 2 2 (_create_preseed_config env).
Proof.
  intros w. unfold _create_preseed_config. cbv zeta. io_unfold. io_reduce.
  destruct (fs w !! PRESEED_FILENAME) eqn:Hpre; io_reduce; rewrite ?Hpre; io_reduce.
  - destruct (os_copy env _ _ _ _); io_reduce.
    + exists [], 1%nat. rewrite app_nil_r. repeat split; try lia. discriminate.
    + stage_leaf 2%nat.
  - stage_leaf 1%nat.
Qed.

Lemma stage_generate_post_install_script (env : Env) :
  stage 2 3 3 (_generate_post_install_script env).
Proof.
  intros w. unfold _generate_post_install_script. io_unfold. io_reduce.
  destruct (fs w !! POST_INSTALL_CONFIG) as [text|] eqn:Hcfg; io_reduce.
  2: { stage_leaf 2%nat. }
  rewrite Hcfg. io_reduce.
  destruct (json_loads env text) as [config|]; io_reduce.
  2: { exists [], 2%nat. rewrite app_nil_r. repeat split; try lia. discriminate. }
  destruct (render_post_install_script env config) as [content|e]; io_reduce.
  2: { exists [], 2%nat. rewrite app_nil_r. repeat split; try lia. discriminate. }
  rewrite lookup_insert_eq. io_reduce. stage_leaf 3%nat.
Qed.

Lemma stage_update_bootloader_configs : stage 3 5 5 _update_bootloader_configs.
Proof.
  intros w. unfold _update_bootloader_configs. io_unfold. io_reduce.
  destruct (fs w !! isolinux_cfg_path) as [legacy|] eqn:Hl; io_reduce.
  2: { exists [], 3%nat. rewrite app_nil_r. repeat split; try lia. discriminate. }
  destruct (_ !! grub_cfg_path) as [uefi|]; io_reduce.
  - stage_leaf 5%nat.
  - stage_leaf 4%nat.
Qed.

Lemma stage_rebuild_iso (env : Env) : stage 5 6 6 (_rebuild_iso env).
Proof.
  intros w. unfold _rebuild_iso. io_unfold. io_reduce.
  split_exec; [stage_leaf 5%nat | stage_leaf 6%nat | | stage_leaf 6%nat |];
    (eexists _, 5%nat; split; [trace_ex |]; split; [lia |]; split; [| discriminate];
     cbn [app milestones]; rewrite milestone_rebuild, exited_nonzero by assumption;
     reflexivity).
Qed.

Lemma stage_find_usb_drives (env : Env) : stage 6 7 7 (_find_usb_drives env).
Proof.
  intros w.
  assert (H : exists status r files,
             _find_usb_drives env w
             = (r, log (Run lsblk_command status) (set_fs files w))).
  { rewrite find_usb_drives_unfold.
    destruct (os_exec env (trace w) (fs w) lsblk_command) as [|status stdout files|status].
    - exists None, (Returned []), (fs w). destruct w; reflexivity.
    - cbv zeta. exists (Some status).
      destruct (status =? 0)%Z; [| eauto].
      destruct (json_loads env stdout); [| destruct (enumeration_failure _); eauto].
      destruct (obind _ _) as [drives|e]; [eauto |].
      destruct (enumeration_failure e); eauto.
    - exists (Some status), (Raised UnicodeDecodeError), (fs w). destruct w; reflexivity. }
  destruct H as (status & r & files & ->). unfold log, set_fs. io_reduce.
  exists [Run lsblk_command status], 7%nat.
  split; [reflexivity |]. split; [lia |]. split; [reflexivity | intros; lia].
Qed.

Lemma drive_lines_milestones (env : Env) (usb_drives : list Drive.t) :
  forall i, milestones (drive_lines env i usb_drives) = [].
Proof.
  induction usb_drives as [|drive rest IH]; intros i; [reflexivity |].
  cbn [drive_lines milestones milestone]. apply IH.
Qed.

(** Among the events of the provisioner and of the flash offer, the only
    milestone is the start of the write tool. *)
Lemma flash_run_milestones
  (device : string) (force : bool) (pending left : list bool)
  (r : outcome unit) (new : list event) :
  flash_run device force pending r new left ->
  milestones new = seq 8 (write_count new).
Proof. intros Hrun. destruct Hrun; destruct force; reflexivity. Qed.

Lemma offer_run_milestones
  (env : Env) (usb_drives : list Drive.t) (pending left : list bool)
  (r : outcome unit) (new : list event) :
  offer_run env usb_drives pending r new left ->
  milestones new = seq 8 (write_count new).
Proof.
  intros Hrun.
  destruct Hrun as [ | | | only p r' fnew l Hf | d1 d2 rest | d1 d2 rest p | d1 d2 rest p
                     | d1 d2 rest p reply Hn | d1 d2 rest p reply n Hn Hout
                     | d1 d2 rest p reply n drive r' fnew l Hn Hlo Hd Hf ];
    unfold listing;
    rewrite ?milestones_app, ?write_count_app; cbn [milestones milestone write_count is_write];
    rewrite ?drive_lines_milestones, ?(silent_no_write _ (drive_lines_silent _ _ _));
    try reflexivity.
  - rewrite (flash_run_milestones _ _ _ _ _ _ Hf). destruct r'; cbn; now rewrite ?app_nil_r, ?Nat.add_0_r.
  - rewrite (flash_run_milestones _ _ _ _ _ _ Hf). destruct r'; cbn; now rewrite ?app_nil_r, ?Nat.add_0_r.
Qed.

Lemma stage_offer_flash (env : Env) (usb_drives : list Drive.t) :
  stage 7 7 8 (offer_flash env usb_drives).
Proof.
  intros w. destruct (offer_flash_runs env usb_drives w) as (new & Ht & Hrun).
  pose proof (offer_run_write_count _ _ _ _ _ _ Hrun) as Hc.
  exists new, (7 + write_count new)%nat.
  split; [exact Ht |]. split; [lia |]. split; [| intros; lia].
  rewrite (offer_run_milestones _ _ _ _ _ _ Hrun). f_equal. lia.
Qed.

Lemma stage_create (env : Env) : stage 0 7 8 (create env).
Proof.
  unfold create.
  apply (stage_bind 0 0 7 8); [lia | apply stage_print | intros _].
  apply (stage_bind 0 0 7 8); [lia | apply stage_print | intros _].
  apply (stage_bind 0 0 7 8); [lia | apply stage_verify_prerequisites | intros _].
  apply (stage_bind 0 0 7 8); [lia | apply stage_print | intros _].
  apply (stage_bind 0 1 7 8); [lia | apply stage_extract_iso | intros _].
  apply (stage_bind 1 1 7 8); [lia | apply stage_print | intros _].
  apply (stage_bind 1 2 7 8); [lia | apply stage_create_preseed_config | intros _].
  apply (stage_bind 2 2 7 8); [lia | apply stage_print | intros _].
  apply (stage_bind 2 3 7 8); [lia | apply stage_generate_post_install_script | intros _].
  apply (stage_bind 3 3 7 8); [lia | apply stage_print | intros _].
  apply (stage_bind 3 5 7 8); [lia | apply stage_update_bootloader_configs | intros _].
  apply (stage_bind 5 5 7 8); [lia | apply stage_print | intros _].
  apply (stage_bind 5 6 7 8); [lia | apply stage_rebuild_iso | intros _].
  apply (stage_bind 6 6 7 8); [lia | apply stage_print | intros _].
  apply (stage_bind 6 7 7 8); [lia | apply stage_find_usb_drives | intros usb_drives].
  apply stage_then; [apply stage_offer_flash | intros _ n; apply stage_print].
Qed.

(** X1. The stages of [create] run strictly in order and fail fast: in every
    run the milestones reached are the first [n] of the eight, each once
    and in order, so no stage starts before every earlier one has succeeded
    (the boot menus are patched only after the script was written, the image
    is rebuilt only after both menus were patched, the write tool is started
    only after the image was rebuilt and the devices enumerated); and the
    command returns only when at least the enumeration was reached. *)
Theorem stages_run_in_order (env : Env) (w : World) :
  exists new n,
    trace (create env w).2 = (trace w ++ new)%list
    /\ (n <= 8)%nat
    /\ milestones new = seq 1 n
    /\ ((create env w).1 = Returned tt -> (7 <= n)%nat).
Proof.
  destruct (stage_create env w) as (new & n & Ht & Hn & Hm & Hr).
  exists new, n. split; [exact Ht |]. split; [lia |].
  split; [now rewrite Nat.sub_0_r in Hm |]. apply Hr.
Qed.

Lemma stages_run_in_order_witness :
  exists new n,
    trace (create (Example.tools 0 Example.mixed_devices)
             (Example.start true [true] [])).2 = new
    /\ milestones new = seq 1 n
    /\ (7 <= n)%nat.
Proof.
  destruct (stages_run_in_order (Example.tools 0 Example.mixed_devices)
              (Example.start true [true] []))
    as (new & n & Ht & _ & Hm & Hr).
  exists new, n. split; [exact Ht |]. split; [exact Hm |].
  apply Hr. vm_compute. reflexivity.
Defined.

(** ** The build stages, one by one *)

(** X2. Without [xorriso] on the path, [create] prints its banner and the
    two lines of the error, and exits with code 1: no command is run, no
    file is touched and the operator is asked nothing. *)
Theorem missing_xorriso_stops_before_any_action (env : Env) (w : World) :
  which env "xorriso" = false ->
  exists new,
    create env w
    = (Raised (Exit 1),
       {| fs := fs w; trace := trace w ++ new;
          confirms := confirms w; prompts := prompts w |})
    /\ forallb (fun e => match e with Print _ => true | _ => false end) new = true
    /\ last new
       = Some (Print "Please install it using: [cyan]sudo apt-get install -y xorriso[/cyan]").
Proof.
  intros H. unfold create, _verify_prerequisites. io_unfold. rewrite H. io_reduce.
  eexists. split; [rewrite <- !app_assoc; reflexivity |]. split; reflexivity.
Qed.

Lemma missing_xorriso_stops_before_any_action_witness :
  (create Sample.bare (Example.start true [true] [])).1 = Raised (Exit 1)
  /\ fs (create Sample.bare (Example.start true [true] [])).2
     = fs (Example.start true [true] []).
Proof.
  destruct (missing_xorriso_stops_before_any_action Sample.bare
              (Example.start true [true] []) eq_refl) as (new & -> & _).
  split; reflexivity.
Defined.



(** X4. The script file is opened only after the configuration was loaded
    and the script rendered.  A configuration that [json.loads] refuses
    ends the stage with the error of [json.loads], and one from which the
    rendering raises ends it with that error, in both cases with every
    file and the trace as they were.  When the stage returns, the
    configuration file held a text that [json.loads] loaded and from which
    the script was rendered, that script is the content of
    [post_install_setup.sh] in the workspace, its mode was set to 0o755,
    and no other file changed. *)
Theorem script_is_written_after_loading_and_rendering (env : Env) (w : World) :
  (forall text,
      fs w !! POST_INSTALL_CONFIG = Some text ->
      json_loads env text = None ->
      _generate_post_install_script env w = (Raised (json_error env text), w))
  /\ (forall text config e,
        fs w !! POST_INSTALL_CONFIG = Some text ->
        json_loads env text = Some config ->
        render_post_install_script env config = Raised e ->
        _generate_post_install_script env w = (Raised e, w))
  /\ ((_generate_post_install_script env w).1 = Returned tt ->
      exists text config script,
        fs w !! POST_INSTALL_CONFIG = Some text
        /\ json_loads env text = Some config
        /\ render_post_install_script env config = Returned script
        /\ fs (_generate_post_install_script env w).2 = <[script_path := script]> (fs w)
        /\ trace (_generate_post_install_script env w).2
           = (trace w ++ [Write script_path script;
                          Chmod script_path (7 * 64 + 5 * 8 + 5)])%list).
Proof.
  unfold _generate_post_install_script. io_unfold. io_reduce.
  split; [| split].
  - intros text Hcfg Hj. rewrite Hcfg. io_reduce. rewrite Hcfg, Hj. reflexivity.
  - intros text config e Hcfg Hj Hr. rewrite Hcfg. io_reduce.
    rewrite Hcfg, Hj. io_reduce. rewrite Hr. reflexivity.
  - destruct (fs w !! POST_INSTALL_CONFIG) as [text|] eqn:Hcfg; io_reduce;
      [| discriminate].
    rewrite Hcfg. io_reduce.
    destruct (json_loads env text) as [config|] eqn:Hj; io_reduce; [| discriminate].
    destruct (render_post_install_script env config) as [script|e0] eqn:Hr; io_reduce;
      [| discriminate].
    rewrite lookup_insert_eq. io_reduce.
    intros _. exists text, config, script.
    repeat split; try assumption || reflexivity. now rewrite <- app_assoc.
Qed.

Lemma script_is_written_after_loading_and_rendering_witness :
  (exists script,
     render_post_install_script (Example.tools 0 []) Example.config_value = Returned script
     /\ fs (_generate_post_install_script (Example.tools 0 []) (Example.start true [] [])).2
        = <[script_path := script]> (fs (Example.start true [] [])))
  /\ _generate_post_install_script Example.inert (Example.start true [] [])
     = (Raised JSONDecodeError, Example.start true [] [])
  /\ _generate_post_install_script Sample.array_config (Example.start true [] [])
     = (Raised AttributeError, Example.start true [] []).
Proof.
  split; [| split].
  - destruct (proj2 (proj2 (script_is_written_after_loading_and_rendering
                              (Example.tools 0 []) (Example.start true [] []))) eq_refl)
      as (text & config & script & Ht & Hj & Hr & Hf & _).
    exists script. split; [| exact Hf].
    rewrite <- Hr. f_equal.
    vm_compute in Ht. injection Ht as <-. vm_compute in Hj. now injection Hj as <-.
  - apply (proj1 (script_is_written_after_loading_and_rendering
                    Example.inert (Example.start true [] []))
             Example.config_text eq_refl eq_refl).
  - apply (proj1 (proj2 (script_is_written_after_loading_and_rendering
                           Sample.array_config (Example.start true [] [])))
             Example.config_text (JArr []) AttributeError eq_refl eq_refl eq_refl).
Defined.

(** X5. The patcher is not atomic.  Without the legacy menu it raises
    [FileNotFoundError] and changes nothing; with the legacy menu but
    without the UEFI menu it raises the same error after the legacy menu
    has been patched and written.  In every run, files other than the two
    menus are left as they were. *)
Theorem patcher_failure_is_partial (w : World) :
  (fs w !! isolinux_cfg_path = None ->
   _update_bootloader_configs w = (Raised FileNotFoundError, w))
  /\ (forall legacy,
        fs w !! isolinux_cfg_path = Some legacy ->
        fs w !! grub_cfg_path = None ->
        (_update_bootloader_configs w).1 = Raised FileNotFoundError
        /\ fs (_update_bootloader_configs w).2 !! isolinux_cfg_path
           = Some (modified_isolinux_content legacy)
        /\ trace (_update_bootloader_configs w).2
           = (trace w ++ [Write isolinux_cfg_path (modified_isolinux_content legacy)])%list)
  /\ (forall path,
        path <> isolinux_cfg_path -> path <> grub_cfg_path ->
        fs (_update_bootloader_configs w).2 !! path = fs w !! path).
Proof.
  unfold _update_bootloader_configs. io_unfold. io_reduce.
  split; [| split].
  - intros H. rewrite H. reflexivity.
  - intros legacy Hl Hu. rewrite Hl. io_reduce.
    rewrite lookup_insert_ne by apply boot_paths_differ. rewrite Hu. io_reduce.
    split; [reflexivity |]. split; [apply lookup_insert_eq | reflexivity].
  - intros path Hi Hg.
    destruct (fs w !! isolinux_cfg_path) as [legacy|]; io_reduce; [| reflexivity].
    destruct (_ !! grub_cfg_path) as [uefi|]; io_reduce.
    + rewrite lookup_insert_ne by congruence. now rewrite lookup_insert_ne by congruence.
    + now rewrite lookup_insert_ne by congruence.
Qed.

Lemma patcher_failure_is_partial_witness :
  (_update_bootloader_configs Sample.legacy_only).1 = Raised FileNotFoundError
  /\ fs (_update_bootloader_configs Sample.legacy_only).2 !! isolinux_cfg_path
     = Some (modified_isolinux_content Example.original_isolinux)
  /\ _update_bootloader_configs (Example.start true [] [])
     = (Raised FileNotFoundError, Example.start true [] []).
Proof.
  destruct (patcher_failure_is_partial Sample.legacy_only) as (_ & Hpart & _).
  destruct (Hpart Example.original_isolinux eq_refl eq_refl) as (Hr & Hf & _).
  destruct (patcher_failure_is_partial (Example.start true [] [])) as (Hnone & _).
  split; [exact Hr |]. split; [exact Hf |]. apply Hnone. reflexivity.
Defined.

(** X6. The directives are whole lines in front of the original lines.  For
    every original text, the lines of the patched legacy menu are the
    timeout line and the five lines of the new default label followed by
    the lines of the original, and the lines of the patched UEFI menu are
    the timeout line, the default line, a blank line, the four lines of the
    new entry and a blank line followed by the lines of the original: no
    original line is joined to a directive. *)
Theorem patched_menus_keep_the_original_lines (original : string) :
  split_lines (modified_isolinux_content original)
  = (["TIMEOUT 10";
     "DEFAULT autoinstall";
     "LABEL autoinstall";
     "    MENU LABEL Automated Install";
     "    KERNEL /install.amd/vmlinuz";
     "    APPEND initrd=/install.amd/initrd.gz --- quiet auto=true priority=critical preseed/file=/cdrom/preseed.cfg"]
    ++ split_lines original)%list
  /\ split_lines (modified_grub_content original)
     = (["set timeout=1";
        ("set default=" ++ dq ++ "0" ++ dq)%string;
        EmptyString;
        "menuentry 'Automated Unattended Install' --class auto {";
        "    linux    /install.amd/vmlinuz --- quiet auto=true priority=critical preseed/file=/cdrom/preseed.cfg";
        "    initrd   /install.amd/initrd.gz";
        "}";
        EmptyString]
       ++ split_lines original)%list.
Proof. split; reflexivity. Qed.

(** ** The configuration, well formed or not *)

Lemma all_str_strings (ss : list string) : Json.all_str (map JStr ss) = Returned ss.
Proof.
  induction ss as [|s ss IH]; [reflexivity |].
  cbn [map Json.all_str]. rewrite IH. reflexivity.
Qed.

Lemma all_str_raises (items : list json) (e : exn) :
  Json.all_str items = Raised e -> e = TypeError.
Proof.
  induction items as [|v items IH]; [discriminate |].
  destruct v; cbn [Json.all_str]; try (now intros [= <-]).
  destruct (Json.all_str items); cbn [obind]; [discriminate |].
  intros [= <-]. now apply IH.
Qed.

Lemma all_str_not_string (items : list json) (v : json) :
  In v items -> (forall s, v <> JStr s) -> Json.all_str items = Raised TypeError.
Proof.
  induction items as [|x items IH]; [intros [] |].
  intros [-> | Hin] Hv.
  - destruct v; try reflexivity. now destruct (Hv s).
  - destruct x; try reflexivity. cbn [Json.all_str]. now rewrite (IH Hin Hv).
Qed.

Lemma join_raises (sep : string) (v : json) (e : exn) :
  Json.join sep v = Raised e -> e = TypeError.
Proof.
  unfold Json.join. destruct v; cbn [Json.iter obind]; try (now intros [= <-]).
  - destruct (Json.all_str _) eqn:H; cbn [obind]; [discriminate |].
    intros [= <-]. now apply all_str_raises in H.
  - destruct (Json.all_str _) eqn:H; cbn [obind]; [discriminate |].
    intros [= <-]. now apply all_str_raises in H.
  - destruct (Json.all_str _) eqn:H; cbn [obind]; [discriminate |].
    intros [= <-]. now apply all_str_raises in H.
Qed.

(** X7. A malformed configuration yields an error, never a script, and the
    error is [AttributeError] or [TypeError]: a configuration that is not
    an object and an [ssh_key] that is not an object raise
    [AttributeError]; [packages] that is null, a boolean or a number, or a
    list with an item that is not a string, raises [TypeError], and does so
    before [ssh_key] is looked at. *)
Theorem malformed_configuration_raises (env : Env) :
  (forall config e,
      render_post_install_script env config = Raised e ->
      e = AttributeError \/ e = TypeError)
  /\ (forall config,
        (forall members, config <> JObj members) ->
        render_post_install_script env config = Raised AttributeError)
  /\ (forall members v,
        Json.assoc "packages" members = Some v ->
        (v = JNull \/ (exists b, v = JBool b) \/ (exists n, v = JInt n)
         \/ (exists t, v = JFloat t)
         \/ (exists items x, v = JArr items /\ In x items /\ forall s, x <> JStr s)) ->
        render_post_install_script env (JObj members) = Raised TypeError)
  /\ (forall members packages v,
        Json.join " " (field_or members "packages" (JArr [])) = Returned packages ->
        Json.assoc "ssh_key" members = Some v ->
        (forall sub, v <> JObj sub) ->
        render_post_install_script env (JObj members) = Raised AttributeError).
Proof.
  split; [| split; [| split]].
  - intros config e. unfold render_post_install_script.
    destruct config as [| | | | |items|members]; cbn [Json.get obind];
      try (intros [= <-]; now left).
    destruct (Json.join " " _) as [packages|e0] eqn:Hp; cbn [obind].
    2: { intros [= <-]. right. now apply join_raises in Hp. }
    destruct (match Json.assoc "ssh_key" members with Some v => v | None => JObj [] end);
      cbn [Json.get obind]; intros [= <-]; now left.
  - intros config H. destruct config; try reflexivity. now destruct (H members).
  - intros members v Hv Hbad. unfold render_post_install_script. cbn [Json.get obind].
    rewrite Hv.
    destruct Hbad as [-> | [[b ->] | [[n ->] | [[t ->] | (items & x & -> & Hin & Hx)]]]];
      try reflexivity.
    unfold Json.join. cbn [Json.iter obind]. now rewrite (all_str_not_string items x Hin Hx).
  - intros members packages v Hp Hv Hbad. unfold render_post_install_script, field_or in *.
    cbn [Json.get obind]. rewrite Hp. cbn [obind]. rewrite Hv.
    destruct v; try reflexivity. now destruct (Hbad members0).
Qed.

Lemma malformed_configuration_raises_witness :
  render_post_install_script (Example.tools 0 []) (JArr []) = Raised AttributeError
  /\ render_post_install_script (Example.tools 0 [])
       (JObj [("packages", JArr [JStr "curl"; JInt 7])]) = Raised TypeError
  /\ render_post_install_script (Example.tools 0 [])
       (JObj [("ssh_key", JStr "rsa")]) = Raised AttributeError.
Proof.
  destruct (malformed_configuration_raises (Example.tools 0 [])) as (_ & H1 & H2 & H3).
  split; [| split].
  - apply H1. discriminate.
  - apply (H2 [("packages", JArr [JStr "curl"; JInt 7])]
             (JArr [JStr "curl"; JInt 7]) eq_refl).
    do 4 right. exists [JStr "curl"; JInt 7], (JInt 7).
    split; [reflexivity |]. split; [cbn; tauto | discriminate].
  - apply (H3 [("ssh_key", JStr "rsa")] EmptyString (JStr "rsa"));
      [reflexivity | reflexivity | discriminate].
Defined.

(** X8. [packages] given as one string instead of a list is accepted and
    read character by character: the install line lists every character
    of the string as a package of its own. *)
Theorem packages_string_is_split_into_characters
  (env : Env) (members sub : list (string * json)) (s : string) :
  Json.assoc "packages" members = Some (JStr s) ->
  field_or members "ssh_key" (JObj []) = JObj sub ->
  exists ssh_user ssh_key_type,
    render_post_install_script env (JObj members)
    = Returned (script_content (Text.join " " (chars s)) ssh_user ssh_key_type)
    /\ has_line (install_line (Text.join " " (chars s)))
         (script_content (Text.join " " (chars s)) ssh_user ssh_key_type).
Proof.
  intros Hp Hk. eexists _, _. split; [| apply script_has_install_line].
  apply render_dict; [| exact Hk].
  unfold field_or. rewrite Hp. unfold Json.join. cbn [Json.iter obind].
  now rewrite all_str_strings.
Qed.

Lemma packages_string_is_split_into_characters_witness :
  exists ssh_user ssh_key_type,
    render_post_install_script (Example.tools 0 []) (JObj [("packages", JStr "curl")])
    = Returned (script_content "c u r l" ssh_user ssh_key_type)
    /\ has_line "apt-get install -y --no-install-recommends c u r l"
         (script_content "c u r l" ssh_user ssh_key_type).
Proof.
  apply (packages_string_is_split_into_characters (Example.tools 0 [])
           [("packages", JStr "curl")] [] "curl"); reflexivity.
Defined.

Lemma word_char_is_literal (c : ascii) :
  is_word_char c = true ->
  (Ascii.eqb c " " || Ascii.eqb c (ascii_of_nat 9)) = false
  /\ Ascii.eqb c (ascii_of_nat 10) = false.
Proof.
  destruct c as [[] [] [] [] [] [] [] []]; vm_compute; intros H;
    first [discriminate H | split; reflexivity].
Qed.

Lemma append_empty (a : string) : a ++ EmptyString = a.
Proof. induction a as [|c a IH]; [reflexivity |]. rewrite append_cons. now rewrite IH. Qed.

Lemma one_line_app (a b : string) : one_line (a ++ b) = one_line a && one_line b.
Proof.
  induction a as [|c a IH]; [reflexivity |].
  rewrite append_cons. cbn [one_line]. rewrite IH. now rewrite andb_assoc.
Qed.

Lemma one_line_word (x : string) : all_word_chars x = true -> one_line x = true.
Proof.
  induction x as [|c x IH]; [reflexivity |].
  cbn [all_word_chars one_line]. intros [Hc Hx]%andb_true_iff.
  rewrite (proj2 (word_char_is_literal c Hc)). now rewrite IH.
Qed.

Lemma one_line_join (names : list string) :
  forallb is_word names = true -> one_line (Text.join " " names) = true.
Proof.
  induction names as [|x names IH]; [reflexivity |].
  cbn [forallb]. intros [Hx Hn]%andb_true_iff.
  assert (Hw : all_word_chars x = true) by (destruct x; [discriminate Hx | exact Hx]).
  unfold Text.join in *. destruct names as [|y names].
  - now apply one_line_word.
  - change (String.concat " " (x :: y :: names))
      with (x ++ " " ++ String.concat " " (y :: names)).
    rewrite !one_line_app, (one_line_word x Hw), (IH Hn). reflexivity.
Qed.

Lemma split_lines_one_line (s : string) :
  forall current, one_line s = true -> split_lines_from current s = [current ++ s].
Proof.
  induction s as [|c s IH]; intros current H.
  - cbn [split_lines_from]. now rewrite append_empty.
  - cbn [one_line] in H. apply andb_true_iff in H as [Hc Hs].
    apply negb_true_iff in Hc. cbn [split_lines_from]. rewrite Hc.
    rewrite (IH _ Hs), append_assoc. reflexivity.
Qed.

Lemma shell_words_from_word (x : string) :
  forall current rest,
    all_word_chars x = true ->
    shell_words_from current (x ++ rest) = shell_words_from (current ++ x) rest.
Proof.
  induction x as [|c x IH]; intros current rest H.
  - cbn. replace (current ++ EmptyString) with current; [reflexivity |].
    clear. induction current as [|d current IH]; [reflexivity |].
    rewrite append_cons. now rewrite <- IH.
  - cbn [all_word_chars] in H. apply andb_true_iff in H as [Hc Hx].
    rewrite append_cons. cbn [shell_words_from].
    rewrite (proj1 (word_char_is_literal c Hc)).
    rewrite (IH _ _ Hx). f_equal. rewrite append_assoc. reflexivity.
Qed.

Lemma shell_words_join (names : list string) :
  forallb is_word names = true ->
  shell_words_from EmptyString (Text.join " " names) = names.
Proof.
  induction names as [|x names IH]; [reflexivity |].
  cbn [forallb]. intros [Hx Hn]%andb_true_iff.
  assert (Hw : all_word_chars x = true) by (destruct x; [discriminate Hx | exact Hx]).
  assert (Hne : x <> EmptyString) by (destruct x; [discriminate Hx | discriminate]).
  unfold Text.join in *. destruct names as [|y names].
  - cbn [String.concat].
    replace x with (x ++ EmptyString) at 1
      by (clear; induction x as [|d x IHx]; [reflexivity | rewrite append_cons; now rewrite IHx]).
    rewrite (shell_words_from_word x EmptyString EmptyString Hw).
    cbn. destruct x; [congruence | reflexivity].
  - change (String.concat " " (x :: y :: names))
      with (x ++ " " ++ String.concat " " (y :: names)).
    rewrite (shell_words_from_word x EmptyString _ Hw).
    change (EmptyString ++ x) with x.
    change (" " ++ String.concat " " (y :: names))
      with (String " " (String.concat " " (y :: names))).
    cbn [shell_words_from]. change (Ascii.eqb " " " ") with true. cbn [orb].
    rewrite (IH Hn). destruct x; [congruence | reflexivity].
Qed.

(** X9. The install line lists exactly the configured packages, in order.
    For a [packages] list of names that are nonempty and made of letters,
    digits and the characters [+ - . _ :] (which a shell reads literally),
    the script is generated; its install line is one line, without a line
    feed inside, and a whole line of the script; and read as a command
    line it has the command, its two options and then the names, one word
    each. *)
Theorem install_line_lists_the_packages
  (env : Env) (members sub : list (string * json)) (names : list string) :
  Json.assoc "packages" members = Some (JArr (map JStr names)) ->
  field_or members "ssh_key" (JObj []) = JObj sub ->
  forallb is_word names = true ->
  exists ssh_user ssh_key_type,
    render_post_install_script env (JObj members)
    = Returned (script_content (Text.join " " names) ssh_user ssh_key_type)
    /\ split_lines (install_line (Text.join " " names))
       = [install_line (Text.join " " names)]
    /\ has_line (install_line (Text.join " " names))
         (script_content (Text.join " " names) ssh_user ssh_key_type)
    /\ shell_words (install_line (Text.join " " names))
       = (["apt-get"; "install"; "-y"; "--no-install-recommends"] ++ names)%list.
Proof.
  intros Hp Hk Hw. eexists _, _.
  split; [| split; [| split; [apply script_has_install_line |]]].
  - apply render_dict; [| exact Hk].
    unfold field_or. rewrite Hp. unfold Json.join. cbn [Json.iter obind].
    now rewrite all_str_strings.
  - unfold split_lines. rewrite split_lines_one_line; [reflexivity |].
    unfold install_line. rewrite one_line_app, (one_line_join names Hw). reflexivity.
  - change (shell_words (install_line (Text.join " " names)))
      with (["apt-get"; "install"; "-y"; "--no-install-recommends"]
            ++ shell_words_from EmptyString (Text.join " " names))%list.
    now rewrite shell_words_join.
Qed.

Lemma install_line_lists_the_packages_witness :
  exists ssh_user ssh_key_type,
    render_post_install_script (Example.tools 0 []) Example.config_value
    = Returned (script_content "curl vim" ssh_user ssh_key_type)
    /\ split_lines (install_line "curl vim") = [install_line "curl vim"]
    /\ shell_words (install_line "curl vim")
       = ["apt-get"; "install"; "-y"; "--no-install-recommends"; "curl"; "vim"].
Proof.
  destruct (install_line_lists_the_packages (Example.tools 0 [])
              [("packages", JArr [JStr "curl"; JStr "vim"]);
               ("ssh_key", JObj [("type", JStr "rsa"); ("user", JStr "admin")])]
              [("type", JStr "rsa"); ("user", JStr "admin")] ["curl"; "vim"]
              eq_refl eq_refl eq_refl)
    as (u & t & Hr & Hl & _ & Hw).
  exists u, t. split; [exact Hr |]. split; [exact Hl | exact Hw].
Defined.

(** ** The locator, beyond the filter *)

Lemma is_usb_disk_dict (members : list (string * json)) :
  is_usb_disk (JObj members)
  = Returned (Json.eq_str (field_or members "tran" JNull) "usb"
              && Json.eq_str (field_or members "type" JNull) "disk").
Proof.
  unfold is_usb_disk, Json.get, field_or. cbn [obind].
  destruct (Json.eq_str _ "usb"); reflexivity.
Qed.

Lemma usb_drives_of_ordered (env : Env) (devices : list json) :
  forall drives,
    usb_drives_of env devices = Returned drives ->
    Forall2 (describes env) (usb_disks devices) drives.
Proof.
  induction devices as [|dev rest IH]; intros drives H.
  - injection H as <-. constructor.
  - apply usb_drives_of_cons in H
      as [[Hc H] | (members & d & others & -> & Ht & Hy & Hd & H & ->)].
    + destruct dev as [| | | | |items|members]; try discriminate Hc.
      rewrite is_usb_disk_dict in Hc. injection Hc as Hc.
      cbn [usb_disks]. rewrite Hc. now apply IH.
    + cbn [usb_disks]. unfold field_or. rewrite Ht, Hy.
      replace (Json.eq_str (JStr "usb") "usb" && Json.eq_str (JStr "disk") "disk")
        with true by reflexivity.
      constructor; [exact Hd | now apply IH].
Qed.

Lemma usb_drives_of_raises (env : Env) (devices : list json) (e : exn) :
  usb_drives_of env devices = Raised e -> enumeration_failure e = false.
Proof.
  induction devices as [|dev rest IH]; [discriminate |].
  cbn [usb_drives_of]. unfold is_usb_disk, Json.get, Json.item.
  destruct dev as [| | | | |items|members]; cbn [obind]; try (now intros [= <-]).
  destruct (Json.eq_str _ "usb"); cbn [obind]; [| exact IH].
  destruct (Json.eq_str _ "disk"); [| exact IH].
  destruct (Json.assoc "name" members); cbn [obind]; [| now intros [= <-]].
  destruct (Json.assoc "size" members); cbn [obind]; [| now intros [= <-]].
  destruct (usb_drives_of env rest); cbn [obind]; [discriminate |].
  intros [= <-]. now apply IH.
Qed.

(** X10. The locator returns one descriptor for each USB whole disk of the
    enumerated list, in the order of the list (the order in which [create]
    numbers them): whenever the enumeration tool succeeded with a listing
    and the locator returns, its result matches, item by item, the USB whole
    disks of the listing, each descriptor carrying the [/dev/] path and the
    size of its device. *)
Theorem locator_keeps_the_enumeration_order
  (env : Env) (w : World) (stdout : string) (files : gmap string string)
  (parsed listed : json) (devices : list json) :
  os_exec env (trace w) (fs w) lsblk_command = Exited 0 stdout files ->
  json_loads env stdout = Some parsed ->
  Json.get parsed "blockdevices" (JArr []) = Returned listed ->
  Json.iter listed = Returned devices ->
  forall drives,
    (_find_usb_drives env w).1 = Returned drives ->
    Forall2 (describes env) (usb_disks devices) drives
    /\ length drives = length (usb_disks devices).
Proof.
  intros He Hj Hg Hi drives. rewrite find_usb_drives_unfold, He. cbv zeta.
  change (0 =? 0)%Z with true. cbv iota. rewrite Hj, Hg. cbn [obind]. rewrite Hi.
  cbn [obind]. destruct (usb_drives_of env devices) as [found|e] eqn:Hu.
  - io_reduce. intros [= <-].
    pose proof (usb_drives_of_ordered env devices found Hu) as H.
    split; [exact H |]. symmetry. exact (Forall2_length _ _ _ H).
  - rewrite (usb_drives_of_raises env devices e Hu). discriminate.
Qed.

Lemma locator_keeps_the_enumeration_order_witness :
  exists drives,
    (_find_usb_drives (Example.tools 0 Example.two_sticks) (Example.start true [] [])).1
    = Returned drives
    /\ map Drive.name drives = ["/dev/sdb"; "/dev/sdc"]
    /\ Forall2 (describes (Example.tools 0 Example.two_sticks))
         (usb_disks Example.two_sticks) drives.
Proof.
  eexists. split; [vm_compute; reflexivity |]. split; [reflexivity |].
  apply (locator_keeps_the_enumeration_order (Example.tools 0 Example.two_sticks)
           (Example.start true [] []) Example.lsblk_text
           (fs (Example.start true [] []))
           (JObj [("blockdevices", JArr Example.two_sticks)])
           (JArr Example.two_sticks) Example.two_sticks);
    reflexivity.
Defined.

(** X11. The locator is lenient only about the three enumeration failures.
    When the tool succeeds and prints well-formed JSON of another shape, the
    error reaches the caller: a document that is not an object raises
    [AttributeError]; [blockdevices] that is null raises [TypeError]; a
    listed device that is not an object raises [AttributeError]; and a USB
    whole disk without a [name] raises [KeyError]. *)
Theorem locator_shape_errors_reach_the_caller
  (env : Env) (w : World) (stdout : string) (files : gmap string string) (parsed : json) :
  os_exec env (trace w) (fs w) lsblk_command = Exited 0 stdout files ->
  json_loads env stdout = Some parsed ->
  ((forall members, parsed <> JObj members) ->
   (_find_usb_drives env w).1 = Raised AttributeError)
  /\ (forall members,
        parsed = JObj members ->
        Json.assoc "blockdevices" members = Some JNull ->
        (_find_usb_drives env w).1 = Raised TypeError)
  /\ (forall members dev rest,
        parsed = JObj members ->
        Json.assoc "blockdevices" members = Some (JArr (dev :: rest)) ->
        (forall fields, dev <> JObj fields) ->
        (_find_usb_drives env w).1 = Raised AttributeError)
  /\ (forall members fields rest,
        parsed = JObj members ->
        Json.assoc "blockdevices" members = Some (JArr (JObj fields :: rest)) ->
        Json.assoc "tran" fields = Some (JStr "usb") ->
        Json.assoc "type" fields = Some (JStr "disk") ->
        Json.assoc "name" fields = None ->
        (_find_usb_drives env w).1 = Raised (KeyError "name")).
Proof.
  intros He Hj. rewrite find_usb_drives_unfold, He. cbv zeta.
  change (0 =? 0)%Z with true. cbv iota. rewrite Hj.
  split; [| split; [| split]].
  - intros H. destruct parsed; try reflexivity. now destruct (H members).
  - intros members -> Hb. cbn [Json.get obind]. rewrite Hb. reflexivity.
  - intros members dev rest -> Hb Hd. cbn [Json.get obind]. rewrite Hb.
    cbn [Json.iter obind usb_drives_of].
    destruct dev; try reflexivity. now destruct (Hd members0).
  - intros members fields rest -> Hb Ht Hy Hn. cbn [Json.get obind]. rewrite Hb.
    cbn [Json.iter obind usb_drives_of].
    rewrite (proj2 (is_usb_disk_true (JObj fields))) by eauto.
    cbn [obind]. unfold Json.item. rewrite Hn. reflexivity.
Qed.

Lemma locator_shape_errors_reach_the_caller_witness :
  (_find_usb_drives (Example.tools 0 [JStr "sda"]) (Example.start true [] [])).1
  = Raised AttributeError
  /\ (_find_usb_drives
        (Example.tools 0 [JObj [("tran", JStr "usb"); ("type", JStr "disk")]])
        (Example.start true [] [])).1
     = Raised (KeyError "name").
Proof.
  split.
  - destruct (locator_shape_errors_reach_the_caller (Example.tools 0 [JStr "sda"])
                (Example.start true [] []) Example.lsblk_text
                (fs (Example.start true [] []))
                (JObj [("blockdevices", JArr [JStr "sda"])]) eq_refl eq_refl)
      as (_ & _ & H & _).
    apply (H [("blockdevices", JArr [JStr "sda"])] (JStr "sda") []);
      [reflexivity | reflexivity | discriminate].
  - destruct (locator_shape_errors_reach_the_caller
                (Example.tools 0 [JObj [("tran", JStr "usb"); ("type", JStr "disk")]])
                (Example.start true [] []) Example.lsblk_text
                (fs (Example.start true [] []))
                (JObj [("blockdevices",
                        JArr [JObj [("tran", JStr "usb"); ("type", JStr "disk")]])])
                eq_refl eq_refl)
      as (_ & _ & _ & H).
    apply (H [("blockdevices", JArr [JObj [("tran", JStr "usb"); ("type", JStr "disk")]])]
             [("tran", JStr "usb"); ("type", JStr "disk")] []); reflexivity.
Defined.

(** ** The provisioner, step by step *)

Section FlashSteps.

Variables (device : string) (force : bool).
Variables (pending left : list bool) (r : outcome unit) (new : list event).
Hypothesis Hrun : flash_run device force pending r new left.


(** The write tool did not exit with status zero: the run ends in an
    error, the tool was started once, the success was not printed and the
    ejection was not attempted. *)
Lemma flash_run_write_failure :
  write_count new = 1%nat ->
  existsb is_write_success new = false ->
  (r = Raised CalledProcessError \/ r = Raised FileNotFoundError)
  /\ existsb (prints (flashed_message device)) new = false
  /\ existsb (prints (ejecting_message device)) new = false
  /\ forall status, ~ In (Run (eject_command device) status) new.
Proof.
  destruct Hrun; destruct force; intros Hc Hs; try discriminate Hc; try discriminate Hs;
    (split; [tauto |]); (split; [reflexivity |]); (split; [reflexivity |]);
    intros st Hin; cbn in Hin; unfold umount_command, dd_command, eject_command in Hin;
    decompose [or] Hin; discriminate || contradiction.
Qed.

(** With the bypass flag nothing is asked; without it, at most one answer
    is taken. *)
Lemma flash_run_questions :
  (force = true -> answers new = [] /\ left = pending)
  /\ (length (answers new) <= 1)%nat.
Proof.
  destruct Hrun; destruct force; unfold gate_passed in *; subst; try congruence;
    (split; [intros Hf; try discriminate Hf; split; reflexivity | cbn; lia]).
Qed.

End FlashSteps.



(** X13. A failing write is fatal and is not retried.  When the write tool
    was started and did not exit with status zero, the invocation ends in
    [CalledProcessError] or [FileNotFoundError], the tool was started only
    that once, no success is printed and the ejection tool is not run. *)
Theorem write_failure_is_fatal (env : Env) (device : string) (force : bool) (w : World) :
  exists new,
    trace (_flash_usb_drive env device force w).2 = (trace w ++ new)%list
    /\ (write_count new <= 1)%nat
    /\ (write_count new = 1%nat ->
        existsb is_write_success new = false ->
        ((_flash_usb_drive env device force w).1 = Raised CalledProcessError
         \/ (_flash_usb_drive env device force w).1 = Raised FileNotFoundError)
        /\ existsb (prints (flashed_message device)) new = false
        /\ existsb (prints (ejecting_message device)) new = false
        /\ forall status, ~ In (Run (eject_command device) status) new).
Proof.
  destruct (flash_usb_drive_runs env device force w) as (new & Ht & Hrun & _).
  exists new. split; [exact Ht |].
  split; [apply (flash_run_write_count _ _ _ _ _ _ Hrun) |].
  apply (flash_run_write_failure _ _ _ _ _ _ Hrun).
Qed.

Lemma write_failure_is_fatal_witness :
  (_flash_usb_drive (Sample.busy 1) "/dev/sdb" true (Example.start true [] [])).1
  = Raised CalledProcessError
  /\ exists new,
       trace (_flash_usb_drive (Sample.busy 1) "/dev/sdb" true (Example.start true [] [])).2
       = new
       /\ write_count new = 1%nat
       /\ forall status, ~ In (Run (eject_command "/dev/sdb") status) new.
Proof.
  split; [vm_compute; reflexivity |].
  destruct (write_failure_is_fatal (Sample.busy 1) "/dev/sdb" true
              (Example.start true [] [])) as (new & Ht & _ & H).
  exists new. split; [exact Ht |].
  assert (Hc : write_count new = 1%nat /\ existsb is_write_success new = false).
  { vm_compute in Ht. subst new. split; vm_compute; reflexivity. }
  destruct (H (proj1 Hc) (proj2 Hc)) as (_ & _ & _ & He). split; [apply Hc | exact He].
Defined.

(** X14. With the bypass flag the provisioner asks the operator nothing and
    leaves the pending answers as they are; without it, it takes at most
    one answer. *)
Theorem bypass_asks_nothing (env : Env) (device : string) (force : bool) (w : World) :
  exists new,
    trace (_flash_usb_drive env device force w).2 = (trace w ++ new)%list
    /\ (force = true ->
        answers new = []
        /\ confirms (_flash_usb_drive env device force w).2 = confirms w)
    /\ (length (answers new) <= 1)%nat
    /\ confirms w = (answers new ++ confirms (_flash_usb_drive env device force w).2)%list
    /\ prompts (_flash_usb_drive env device force w).2 = prompts w.
Proof.
  destruct (flash_usb_drive_runs env device force w) as (new & Ht & Hrun & Hp).
  exists new. split; [exact Ht |].
  destruct (flash_run_questions _ _ _ _ _ _ Hrun) as [Hf Hl].
  split; [exact Hf |]. split; [exact Hl |].
  split; [apply (flash_run_answers _ _ _ _ _ _ Hrun) | exact Hp].
Qed.

Lemma bypass_asks_nothing_witness :
  confirms (_flash_usb_drive (Sample.busy 0) "/dev/sdb" true
              (Example.start true [false; true] [])).2
  = [false; true].
Proof.
  destruct (bypass_asks_nothing (Sample.busy 0) "/dev/sdb" true
              (Example.start true [false; true] [])) as (new & _ & Hf & _).
  destruct (Hf eq_refl) as [_ Hc]. exact Hc.
Defined.

(** ** The selection *)

Lemma print_drives_eq (env : Env) (usb_drives : list Drive.t) :
  forall (i : Z) (w : World),
    print_drives env i usb_drives w
    = (Returned tt,
       {| fs := fs w; trace := trace w ++ drive_lines env i usb_drives;
          confirms := confirms w; prompts := prompts w |}).
Proof.
  induction usb_drives as [|drive rest IH]; intros i w.
  - cbn [print_drives drive_lines]. unfold ret. rewrite app_nil_r. now destruct w.
  - cbn [print_drives drive_lines]. unfold bind, print. rewrite IH.
    unfold log. io_reduce. now rewrite <- app_assoc.
Qed.



(** X15. A reply that is not a number, or a number that is below one or
    above the number of drives listed, flashes nothing: the flash offer
    prints the error for that case and returns, having asked one question
    and one number, run no command and touched no file. *)
Theorem bad_selection_flashes_nothing
  (env : Env) (d1 d2 : Drive.t) (rest : list Drive.t) (w : World)
  (pending : list bool) (reply : string) (more : list string) :
  confirms w = true :: pending ->
  prompts w = reply :: more ->
  (py_int env reply = None
   \/ exists n, py_int env reply = Some n
                /\ (n < 1 \/ Z.of_nat (length (d1 :: d2 :: rest)) < n)%Z) ->
  exists message,
    offer_flash env (d1 :: d2 :: rest) w
    = (Returned tt,
       {| fs := fs w;
          trace := trace w ++ listing env (d1 :: d2 :: rest)
                   ++ [Confirm flash_any_question true; Prompt number_prompt reply;
                       Print message];
          confirms := pending;
          prompts := more |})
    /\ (py_int env reply = None -> message = invalid_input_message)
    /\ (forall n, py_int env reply = Some n -> message = invalid_selection_message).
Proof.
  intros Hc Hp Hbad.
  set (usb_drives := d1 :: d2 :: rest) in *.
  assert (Hshape : offer_flash env usb_drives = offer_flash env (d1 :: d2 :: rest))
    by reflexivity.
  rewrite Hshape. cbn [offer_flash]. fold usb_drives. clear Hshape.
  io_unfold. rewrite print_drives_eq. io_reduce. rewrite Hc. io_reduce.
  rewrite Hp. io_reduce.
  destruct Hbad as [Hn | (n & Hn & Hout)]; rewrite Hn; io_reduce.
  - exists invalid_input_message.
    split; [| split; [reflexivity | congruence]].
    unfold listing. rewrite <- !app_assoc. reflexivity.
  - exists invalid_selection_message.
    split; [| split; [congruence | reflexivity]].
    replace ((0 <=? n - 1) && (n - 1 <? Z.of_nat (length usb_drives)))%Z with false.
    + io_reduce. unfold listing. rewrite <- !app_assoc. reflexivity.
    + symmetry. apply andb_false_iff. destruct Hout as [Hout | Hout].
      * left. apply Z.leb_gt. lia.
      * right. apply Z.ltb_ge. lia.
Qed.

Lemma bad_selection_flashes_nothing_witness :
  exists message w',
    offer_flash (Example.tools 0 [])
      [Drive.make "/dev/sdb" (JStr "14.9G"); Drive.make "/dev/sdc" (JStr "7.5G")]
      (Example.start true [true] ["0"])
    = (Returned tt, w')
    /\ last (trace w') = Some (Print message)
    /\ message = invalid_selection_message.
Proof.
  destruct (bad_selection_flashes_nothing (Example.tools 0 [])
              (Drive.make "/dev/sdb" (JStr "14.9G")) (Drive.make "/dev/sdc" (JStr "7.5G")) []
              (Example.start true [true] ["0"]) [] "0" [] eq_refl eq_refl
              ltac:(right; exists 0%Z; split; [reflexivity | left; lia]))
    as (message & Hrun & _ & Hsel).
  eexists message, _. split; [exact Hrun |].
  split; [| apply (Hsel 0%Z); reflexivity].
  rewrite (Hsel 0%Z eq_refl). reflexivity.
Defined.



(** ** How a run of the command ends *)

Lemma silent_no_decline (l : list event) :
  forallb silent l = true ->
  existsb declines_write l = false /\ existsb declines_offer l = false.
Proof.
  induction l as [|e l IH]; [split; reflexivity |].
  cbn [forallb existsb]. intros [He Hl]%andb_true_iff.
  destruct (IH Hl) as [-> ->]. rewrite !orb_false_r.
  destruct e; try (split; reflexivity). discriminate He.
Qed.

Lemma flash_run_decline
  (device : string) (force : bool) (pending left : list bool)
  (r : outcome unit) (new : list event) :
  flash_run device force pending r new left ->
  existsb declines_offer new = false
  /\ (existsb declines_write new = true -> r = Raised (Exit 0) /\ write_count new = 0%nat).
Proof.
  intros Hrun. destruct Hrun; destruct force;
    (split; [reflexivity |]); intros Hd; try discriminate Hd; split; reflexivity.
Qed.

Lemma offer_run_decline
  (env : Env) (usb_drives : list Drive.t) (pending left : list bool)
  (r : outcome unit) (new : list event) :
  offer_run env usb_drives pending r new left ->
  (existsb declines_write new = true -> r = Raised (Exit 0) /\ write_count new = 0%nat)
  /\ (existsb declines_offer new = true -> r = Returned tt /\ write_count new = 0%nat).
Proof.
  intros Hrun.
  destruct Hrun as [ | | | only p r' fnew l Hf | d1 d2 rest | d1 d2 rest p | d1 d2 rest p
                     | d1 d2 rest p reply Hn | d1 d2 rest p reply n Hn Hout
                     | d1 d2 rest p reply n drive r' fnew l Hn Hlo Hd Hf ];
    rewrite ?existsb_app, ?write_count_app,
      ?(proj1 (silent_no_decline _ (listing_silent _ _))),
      ?(proj2 (silent_no_decline _ (listing_silent _ _))),
      ?(silent_no_write _ (listing_silent _ _)), ?(proj1 (after_flash_quiet _ _));
    try (split; intros Hx; try discriminate Hx; split; reflexivity).
  - destruct (flash_run_decline _ _ _ _ _ _ Hf) as [Ho Hw]. rewrite Ho.
    split; intros Hx.
    + cbn [existsb declines_write orb] in Hx.
      destruct r' as [[]|e]; cbn [after_flash existsb declines_write] in Hx;
        rewrite ?orb_false_r in Hx; destruct (Hw Hx) as [Hr Hc]; try discriminate Hr.
      rewrite Hc. split; [exact Hr | reflexivity].
    + cbn [existsb declines_offer orb] in Hx.
      destruct r'; cbn [after_flash existsb declines_offer orb] in Hx; discriminate Hx.
  - destruct (flash_run_decline _ _ _ _ _ _ Hf) as [Ho Hw]. rewrite Ho.
    split; intros Hx.
    + cbn [existsb declines_write orb] in Hx.
      destruct r' as [[]|e]; cbn [after_flash existsb declines_write] in Hx;
        rewrite ?orb_false_r in Hx; destruct (Hw Hx) as [Hr Hc]; try discriminate Hr.
      rewrite Hc. split; [exact Hr | reflexivity].
    + cbn [existsb declines_offer orb] in Hx.
      destruct r'; cbn [after_flash existsb declines_offer orb] in Hx; discriminate Hx.
Qed.

Lemma closing_notes (r : outcome unit) :
  existsb declines_write (closing r) = false
  /\ existsb declines_offer (closing r) = false
  /\ existsb announces_completion (closing r)
     = match r with Returned _ => true | Raised _ => false end.
Proof. destruct r; repeat split; reflexivity. Qed.

(** X17. Declining ends the command in two different ways.  In every run of
    [create], a no to the confirmation of the provisioner ends the command
    with [typer.Exit] (code 0) before its closing message, while a no to a
    question of the flash offer lets the command return after its closing
    message; in both cases the write tool is not started. *)
Theorem declining_ends_the_command_in_two_ways (env : Env) (w : World) :
  exists new,
    trace (create env w).2 = (trace w ++ new)%list
    /\ (existsb declines_write new = true ->
        (create env w).1 = Raised (Exit 0)
        /\ existsb announces_completion new = false
        /\ write_count new = 0%nat)
    /\ (existsb declines_offer new = true ->
        (create env w).1 = Returned tt
        /\ existsb announces_completion new = true
        /\ write_count new = 0%nat).
Proof.
  destruct (create_runs env w) as (new & Ht & Hrun).
  exists new. split; [exact Ht |].
  destruct Hrun as [p e pre Hs | p pre drives r onew l Hs Ho].
  - destruct (silent_no_decline _ Hs) as [-> ->]. split; discriminate.
  - destruct (silent_no_decline _ Hs) as [Hw Hf].
    destruct (closing_notes r) as (Hcw & Hco & Hcc).
    destruct (offer_run_decline _ _ _ _ _ _ Ho) as [Hdw Hdo].
    rewrite !existsb_app, !write_count_app, Hw, Hf, Hcw, Hco, Hcc,
      (silent_no_write _ Hs), (silent_no_completion _ Hs),
      (offer_run_no_completion _ _ _ _ _ _ Ho), (proj1 (closing_quiet r)), !orb_false_r.
    cbn [orb Nat.add]. split; intros Hx.
    + destruct (Hdw Hx) as [-> ->]. repeat split; reflexivity.
    + destruct (Hdo Hx) as [-> ->]. repeat split; reflexivity.
Qed.

Lemma declining_ends_the_command_in_two_ways_witness :
  (create (Example.tools 0 Example.two_sticks) (Example.start true [true; false] ["2"])).1
  = Raised (Exit 0)
  /\ (create (Example.tools 0 Example.mixed_devices) (Example.start true [false] [])).1
     = Returned tt.
Proof.
  split.
  - destruct (declining_ends_the_command_in_two_ways (Example.tools 0 Example.two_sticks)
                (Example.start true [true; false] ["2"])) as (new & Ht & Hw & _).
    apply Hw. vm_compute in Ht. subst new. vm_compute. reflexivity.
  - destruct (declining_ends_the_command_in_two_ways (Example.tools 0 Example.mixed_devices)
                (Example.start true [false] [])) as (new & Ht & _ & Ho).
    apply Ho. vm_compute in Ht. subst new. vm_compute. reflexivity.
Defined.

(** X18. The closing message tells the truth: in every run of [create] it
    is printed exactly when the command returns, and it is then the last
    thing the command does. *)
Theorem completion_is_announced_iff_returned (env : Env) (w : World) :
  exists new,
    trace (create env w).2 = (trace w ++ new)%list
    /\ ((create env w).1 = Returned tt <-> existsb announces_completion new = true)
    /\ ((create env w).1 = Returned tt ->
        last new = Some (Print process_complete_message)).
Proof.
  destruct (create_runs env w) as (new & Ht & Hrun).
  exists new. split; [exact Ht |].
  destruct Hrun as [p e pre Hs | p pre drives r onew l Hs Ho].
  - rewrite (silent_no_completion _ Hs). split; [split; discriminate | discriminate].
  - rewrite !existsb_app, (silent_no_completion _ Hs),
      (offer_run_no_completion _ _ _ _ _ _ Ho), (proj2 (proj2 (closing_notes r))).
    cbn [orb]. destruct r as [[]|e]; cbn [closing].
    + split; [split; reflexivity |]. intros _.
      rewrite app_assoc. apply last_snoc.
    + split; [split; discriminate | discriminate].
Qed.

Lemma completion_is_announced_iff_returned_witness :
  exists new,
    trace (create (Example.tools 0 Example.mixed_devices)
             (Example.start true [false] [])).2 = new
    /\ last new = Some (Print process_complete_message).
Proof.
  destruct (completion_is_announced_iff_returned (Example.tools 0 Example.mixed_devices)
              (Example.start true [false] [])) as (new & Ht & _ & Hl).
  exists new. split; [exact Ht |]. apply Hl. vm_compute. reflexivity.
Defined.


Lemma flash_run_targets
  (device : string) (force : bool) (pending left : list bool)
  (r : outcome unit) (new : list event) :
  flash_run device force pending r new left -> Forall (targets device) new.
Proof.
  intros Hrun. destruct Hrun; destruct force;
    repeat (apply Forall_cons; split; [cbn; tauto |]); apply Forall_nil; exact I.
Qed.

Lemma drive_lines_prints (env : Env) (usb_drives : list Drive.t) (P : event -> Prop) :
  (forall text, P (Print text)) ->
  forall i, Forall P (drive_lines env i usb_drives).
Proof.
  intros HP. induction usb_drives as [|drive rest IH]; intros i; cbn [drive_lines].
  - apply Forall_nil. exact I.
  - apply Forall_cons. split; [apply HP | apply IH].
Qed.

(** X20. Only drives that were found are touched.  In every run of the
    flash offer, each command run is [umount], [dd] or [eject] on the
    device path of one of the drives the offer was given; with no drive
    found, nothing is run and nothing is asked. *)
Theorem only_found_drives_are_touched (env : Env) (usb_drives : list Drive.t) (w : World) :
  exists new,
    trace (offer_flash env usb_drives w).2 = (trace w ++ new)%list
    /\ Forall (fun e => is_run e = true ->
                        exists drive, In drive usb_drives /\ targets (Drive.name drive) e) new
    /\ (usb_drives = [] -> new = []).
Proof.
  destruct (offer_flash_runs env usb_drives w) as (new & Ht & Hrun).
  exists new. split; [exact Ht |].
  assert (Hprint : forall (l : list Drive.t) text,
             is_run (Print text) = true ->
             exists drive, In drive l /\ targets (Drive.name drive) (Print text))
    by (intros l text Hx; discriminate Hx).
  assert (Hflash : forall l drive fnew,
             In drive l -> Forall (targets (Drive.name drive)) fnew ->
             Forall (fun e => is_run e = true ->
                              exists d, In d l /\ targets (Drive.name d) e) fnew).
  { intros l drive fnew Hin Hall. eapply Forall_impl; [exact Hall |].
    intros e He _. exists drive. auto. }
  destruct Hrun as [ | | | only p r' fnew l Hf | d1 d2 rest | d1 d2 rest p | d1 d2 rest p
                     | d1 d2 rest p reply Hn | d1 d2 rest p reply n Hn Hout
                     | d1 d2 rest p reply n drive r' fnew l Hn Hlo Hd Hf ];
    (split; [| intros Hx; try discriminate Hx; reflexivity]);
    unfold listing;
    repeat first
      [ apply Forall_nil; exact I
      | apply Forall_app; split
      | apply Forall_cons; split; [intros Hx; discriminate Hx |]
      | apply (drive_lines_prints env _ _ (Hprint _)) ].
  - apply (Hflash [only] only fnew); [left; reflexivity |].
    apply (flash_run_targets _ _ _ _ _ _ Hf).
  - destruct r'; cbn [after_flash]; repeat constructor; discriminate.
  - apply (Hflash (d1 :: d2 :: rest) drive fnew).
    + apply list_elem_of_In, list_elem_of_lookup. eauto.
    + apply (flash_run_targets _ _ _ _ _ _ Hf).
  - destruct r'; cbn [after_flash]; repeat constructor; discriminate.
Qed.

Lemma only_found_drives_are_touched_witness :
  trace (offer_flash (Example.tools 0 []) [] (Example.start true [true] [])).2 = [].
Proof.
  destruct (only_found_drives_are_touched (Example.tools 0 []) []
              (Example.start true [true] [])) as (new & Ht & _ & Hn).
  rewrite Ht, (Hn eq_refl). reflexivity.
Defined.

Lemma offer_run_questions
  (env : Env) (usb_drives : list Drive.t) (pending left : list bool)
  (r : outcome unit) (new : list event) :
  offer_run env usb_drives pending r new left -> (length (answers new) <= 2)%nat.
Proof.
  intros Hrun.
  destruct Hrun as [ | | | only p r' fnew l Hf | d1 d2 rest | d1 d2 rest p | d1 d2 rest p
                     | d1 d2 rest p reply Hn | d1 d2 rest p reply n Hn Hout
                     | d1 d2 rest p reply n drive r' fnew l Hn Hlo Hd Hf ];
    rewrite ?answers_app, ?(silent_no_answer _ (listing_silent _ _)),
      ?(proj1 (proj2 (after_flash_quiet _ _))), ?app_nil_r;
    cbn [answers app length]; try lia.
  - pose proof (proj2 (flash_run_questions _ _ _ _ _ _ Hf)). lia.
  - pose proof (proj2 (flash_run_questions _ _ _ _ _ _ Hf)). lia.
Qed.

(** X21. The operator's answers are taken in order and all of them show in
    the trace: in every run of [create] the pending answers are those the
    trace records followed by those left for later, and at most two are
    taken. *)
Theorem answers_are_taken_in_order (env : Env) (w : World) :
  exists new,
    trace (create env w).2 = (trace w ++ new)%list
    /\ confirms w = (answers new ++ confirms (create env w).2)%list
    /\ (length (answers new) <= 2)%nat.
Proof.
  destruct (create_runs env w) as (new & Ht & Hrun).
  exists new. split; [exact Ht |].
  destruct Hrun as [p e pre Hs | p pre drives r onew l Hs Ho].
  - rewrite (silent_no_answer _ Hs). split; [reflexivity | cbn; lia].
  - rewrite !answers_app, (silent_no_answer _ Hs), (proj1 (proj2 (closing_quiet r))),
      app_nil_r.
    cbn [app]. split; [apply (offer_run_answers _ _ _ _ _ _ Ho) |].
    apply (offer_run_questions _ _ _ _ _ _ Ho).
Qed.
